(** * scripts/download_import_cldr.py: download, verify, unpack and import CLDR

    A shallow embedding of the maintenance script.  The script is one linear
    procedure over the file system, the network, two output streams and one
    child process; it is embedded as a state-and-exception monad over a
    [World] (file system and event trace) in an [Env]ironment (terminal,
    remote server, delegate, interpreter).  Library code the script calls
    (hashlib, ElementTree, zipfile) is taken as an interface. *)

From Stdlib Require Import ZArith Lia Ascii String List Bool.
From Stdlib Require Import Strings.Byte.
From Stdlib Require Import Floats.SpecFloat.
From Equations Require Import Equations.
From stdpp Require Import base option list strings gmap.

Local Open Scope Z_scope.

(** ** Python strings *)

Module PyStr.

(** [s * n]: repetition; a count below one gives the empty string. *)
Definition repeat (s : string) (n : Z) : string :=
  Nat.iter (Z.to_nat n) (String.append s) "".

Fixpoint rev_onto (s acc : string) : string :=
  match s with
  | EmptyString => acc
  | String c s' => rev_onto s' (String c acc)
  end.

Definition rev (s : string) : string := rev_onto s "".

Definition startswith (p s : string) : bool := String.prefix p s.

Definition endswith (p s : string) : bool := String.prefix (rev p) (rev s).

(** [sub in s] *)
Fixpoint contains (sub s : string) : bool :=
  String.prefix sub s ||
  match s with
  | EmptyString => false
  | String _ s' => contains sub s'
  end.

(** [s.rstrip(c)] on the reversed string: drop leading [c]s. *)
Fixpoint lstrip (c : ascii) (s : string) : string :=
  match s with
  | EmptyString => EmptyString
  | String d s' => if Ascii.eqb c d then lstrip c s' else s
  end.

Definition rstrip (c : ascii) (s : string) : string := rev (lstrip c (rev s)).

(** No character of [s] is [c]. *)
Fixpoint lacks (c : ascii) (s : string) : bool :=
  match s with
  | EmptyString => true
  | String d s' => negb (Ascii.eqb c d) && lacks c s'
  end.

(** Split a reversed string at its first [c]: the part before it and the
    part from it on. *)
Fixpoint break_at (c : ascii) (s : string) : string * string :=
  match s with
  | EmptyString => (EmptyString, EmptyString)
  | String d s' =>
      if Ascii.eqb c d then (EmptyString, s)
      else let '(a, b) := break_at c s' in (String d a, b)
  end.

End PyStr.

(** ** os.path (posixpath) *)

Module os_path.

Definition sep : ascii := "/"%char.

(** [posixpath.join(a, b)] *)
Definition join (a b : string) : string :=
  if PyStr.startswith "/" b then b
  else if (String.eqb a "" || PyStr.endswith "/" a)%bool then a +:+ b
  else a +:+ "/" +:+ b.

(** [posixpath.join(a, *p)] *)
Definition joins (a : string) (p : list string) : string :=
  fold_left join p a.

(** [posixpath.split(p)]: head is everything up to the last slash, with
    its trailing slashes stripped unless it consists of slashes only. *)
Definition split (p : string) : string * string :=
  let '(tl, hd) := PyStr.break_at sep (PyStr.rev p) in
  let head := PyStr.rev hd in
  let tail := PyStr.rev tl in
  let head' :=
    if (negb (String.eqb head "") &&
        negb (String.eqb (PyStr.lstrip sep head) ""))%bool
    then PyStr.rstrip sep head else head in
  (head', tail).

Definition dirname (p : string) : string := fst (split p).

(** [posixpath.splitext(p)]: the extension starts at the last dot of the
    last component, unless that component has only leading dots before
    it. *)
Definition splitext (p : string) : string * string :=
  let fix go (r ext : string) : option (string * string) :=
    match r with
    | EmptyString => None
    | String c r' =>
        if Ascii.eqb c sep then None
        else if Ascii.eqb c "."%char then Some (r', String c ext)
        else go r' (String c ext)
    end in
  match go (PyStr.rev p) "" with
  | Some (root_rev, ext) =>
      let '(base_rev, _) := PyStr.break_at sep root_rev in
      if String.eqb (PyStr.lstrip "."%char base_rev) "" then (p, "")
      else (PyStr.rev root_rev, ext)
  | None => (p, "")
  end.

End os_path.

(** ** Python values used by the script *)

Definition nl : string := String (ascii_of_nat 10) "".
Definition cr : string := String (ascii_of_nat 13) "".

(** The exceptions the script and the library calls it makes can raise. *)
Inductive exn :=
| RuntimeError (msg : string)
| TypeError (msg : string)
| ValueError (msg : string)
| OverflowError
| URLError (url : string)
| ContentTooShortError
| FileNotFoundError (path : string)
| FileExistsError (path : string)
| IsADirectoryError (path : string)
| NotADirectoryError (path : string)
| ParseError
| BadZipFile
| CalledProcessError (returncode : Z) (cmd : list string).

Inductive result (A : Type) :=
| Ok (a : A)
| Raise (e : exn).
Arguments Ok {A} a.
Arguments Raise {A} e.

(** [repr(s)] of a string without quotes, backslashes or control characters
    (hexadecimal digests are such strings). *)
Definition repr_str (s : string) : string := "'" +:+ s +:+ "'".

(** [fmt % args] for the directives the script uses with string arguments:
    [%s] takes the next argument, [%r] its [repr], [%%] is a percent sign.
    Too few or too many arguments raise [TypeError]. *)
Fixpoint pyformat (fmt : string) (args : list string) : result string :=
  match fmt with
  | EmptyString =>
      match args with
      | [] => Ok ""
      | _ => Raise (TypeError "not all arguments converted during string formatting")
      end
  | String "%" (String "s" rest) =>
      match args with
      | a :: args' =>
          match pyformat rest args' with Ok r => Ok (a +:+ r) | Raise e => Raise e end
      | [] => Raise (TypeError "not enough arguments for format string")
      end
  | String "%" (String "r" rest) =>
      match args with
      | a :: args' =>
          match pyformat rest args' with Ok r => Ok (repr_str a +:+ r) | Raise e => Raise e end
      | [] => Raise (TypeError "not enough arguments for format string")
      end
  | String "%" (String "%" rest) =>
      match pyformat rest args with Ok r => Ok ("%" +:+ r) | Raise e => Raise e end
  | String c rest =>
      match pyformat rest args with Ok r => Ok (String c r) | Raise e => Raise e end
  end.

(** Decimal digits of a natural number, most significant first. *)
Fixpoint digits_fuel (fuel : nat) (n : Z) (acc : string) : string :=
  match fuel with
  | O => acc
  | S k =>
      let d := String (ascii_of_nat (48 + Z.to_nat (n mod 10))) acc in
      if n <? 10 then d else digits_fuel k (n / 10) d
  end.

Definition str_of_nonneg (n : Z) : string :=
  digits_fuel (S (Z.to_nat (Z.log2 n))) n "".

(** ['% 4d' % n]: a blank or a minus sign, then the digits, padded on the
    left with blanks to four characters. *)
Definition fmt_space_4d (n : Z) : string :=
  let body := (if n <? 0 then "-" else " ") +:+ str_of_nonneg (Z.abs n) in
  PyStr.repeat " " (4 - Z.of_nat (String.length body)) +:+ body.

(** *** Floats

    Python floats are IEEE binary64; the operations are the reference ones of
    the standard library of Rocq at precision 53. *)

Definition prec : Z := 53.
Definition emax : Z := 1024.
Definition pyfloat := spec_float.

(** [float(n)]; an integer beyond the range raises [OverflowError]. *)
Definition float_of_int (n : Z) : result pyfloat :=
  match binary_normalize prec emax n 0 false with
  | S754_infinity _ => Raise OverflowError
  | x => Ok x
  end.

(** [int(x)]: truncation toward zero; an infinity raises [OverflowError], a
    NaN [ValueError]. *)
Definition int_of_float (x : pyfloat) : result Z :=
  match x with
  | S754_zero _ => Ok 0
  | S754_finite s m e =>
      let a := if 0 <=? e then Z.pos m * 2 ^ e else Z.pos m / 2 ^ (- e) in
      Ok (if s then - a else a)
  | S754_infinity _ => Raise OverflowError
  | S754_nan => Raise (ValueError "cannot convert float NaN to integer")
  end.

Definition float_div : pyfloat -> pyfloat -> pyfloat := SFdiv prec emax.
Definition float_mul : pyfloat -> pyfloat -> pyfloat := SFmul prec emax.

(** ** The world the script runs in *)

Inductive node :=
| File (data : list byte)
| Dir.

Inductive stream := Stdout | Stderr.

(** What an observer of a run can see, in order. *)
Inductive event :=
| EvWrite (f : stream) (s : string)
| EvFlush (f : stream)
| EvRequest (url : string)
| EvCreate (path : string)
| EvRemove (path : string)
| EvRmtree (path : string)
| EvMkdir (path : string)
| EvExtract (archive dest : string)
| EvCall (args : list string).

(** The file system maps a path, as the script spells it, to what is there. *)
Record World := mkWorld {
  fs : gmap string node;
  trace : list event
}.

(** An HTTP response: the body, and the Content-Length header if any. *)
Record response := mkResponse {
  body : list byte;
  content_length : option Z
}.

Record Env := mkEnv {
  (** [os.path.abspath(__file__)] *)
  script_file : string;
  (** [sys.executable] *)
  sys_executable : string;
  (** The window size [(rows, cols)] that [TIOCGWINSZ] on standard input
      reports; [None] when the call fails. *)
  winsize : option (Z * Z);
  (** The answer to the [n]-th request of the run, for a URL; [None] is a
      transport error. *)
  remote : nat -> string -> option response;
  (** The exit status of the delegate, run with the given arguments on the
      given file system.  The delegate's own effects are outside this
      script. *)
  delegate : gmap string node -> list string -> Z
}.

(** *** Library interfaces *)

(** [hashlib.sha1]: a hash object is created, fed blocks and asked for its
    hexadecimal digest. *)
Class HashLib := {
  hash_obj : Type;
  sha1 : hash_obj;
  update : hash_obj -> list byte -> hash_obj;
  hexdigest : hash_obj -> string
}.

(** What hashlib promises: feeding a hash object block after block is
    feeding it their concatenation at once. *)
Class HashLaws (H : HashLib) : Prop := {
  digest_fed : forall blocks : list (list byte),
    hexdigest (fold_left update blocks sha1) = hexdigest (update sha1 (concat blocks))
}.

(** An element of a parsed document. *)
#[warnings="-register-all"]
Inductive Element :=
| mkElement (tag : string) (text : option string) (children : list Element).

Definition tag (e : Element) : string := let '(mkElement t _ _) := e in t.
Definition text (e : Element) : option string := let '(mkElement _ t _) := e in t.
Definition children (e : Element) : list Element := let '(mkElement _ _ c) := e in c.

(** [ElementTree.parse] on the bytes of a file; [None] is a [ParseError]. *)
Class XmlLib := {
  xml_parse : list byte -> option Element
}.

(** [zipfile.ZipFile]: the members of an archive, in order, each with its
    sanitised relative name and its contents ([None] for a directory entry);
    [None] is a [BadZipFile]. *)
Class ZipLib := {
  zip_members : list byte -> option (list (string * option (list byte)))
}.

(** ** The monad: state and exceptions *)

Definition M (A : Type) : Type := World -> result A * World.

Definition ret {A} (a : A) : M A := fun w => (Ok a, w).
Definition raise {A} (e : exn) : M A := fun w => (Raise e, w).
Definition bind {A B} (m : M A) (k : A -> M B) : M B :=
  fun w => match m w with
           | (Ok a, w') => k a w'
           | (Raise e, w') => (Raise e, w')
           end.

#[global] Instance M_ret : MRet M := @ret.
#[global] Instance M_bind : MBind M := fun A B k m => bind m k.

Definition lift {A} (r : result A) : M A := fun w => (r, w).
Definition get_fs : M (gmap string node) := fun w => (Ok (fs w), w).
Definition put_fs (f : gmap string node) : M unit :=
  fun w => (Ok tt, mkWorld f (trace w)).
Definition emit (e : event) : M unit :=
  fun w => (Ok tt, mkWorld (fs w) (trace w ++ [e])).
Definition when (b : bool) (m : M unit) : M unit := if b then m else ret tt.

(** [for x in l: body x] *)
Fixpoint for_each {A} (l : list A) (body : A -> M unit) : M unit :=
  match l with
  | [] => ret tt
  | x :: l' => body x ;; for_each l' body
  end.

(** *** File system calls *)

Definition exists_ (f : gmap string node) (p : string) : bool :=
  match f !! p with Some _ => true | None => false end.
Definition isfile (f : gmap string node) (p : string) : bool :=
  match f !! p with Some (File _) => true | _ => false end.
Definition isdir (f : gmap string node) (p : string) : bool :=
  match f !! p with Some Dir => true | _ => false end.

Definition path_exists (p : string) : M bool := f ← get_fs; ret (exists_ f p).
Definition path_isfile (p : string) : M bool := f ← get_fs; ret (isfile f p).
Definition path_isdir (p : string) : M bool := f ← get_fs; ret (isdir f p).

(** [k] lies below directory [d]. *)
Definition below (d k : string) : bool := String.prefix (d +:+ "/") k.


(** [open(p, 'rb').read()] *)
Definition read_file (p : string) : M (list byte) :=
  f ← get_fs;
  match f !! p with
  | Some (File d) => ret d
  | Some Dir => raise (IsADirectoryError p)
  | None => raise (FileNotFoundError p)
  end.

(** [open(p, 'wb')]: the file is created empty, or truncated. *)
Definition create_file (p : string) : M unit :=
  f ← get_fs;
  match f !! p with
  | Some Dir => raise (IsADirectoryError p)
  | _ =>
      if isdir f (os_path.dirname p)
      then emit (EvCreate p) ;; put_fs (<[p := File []]> f)
      else raise (FileNotFoundError p)
  end.

(** [tfp.write(blk)] on a file opened at [p]. *)
Definition append_file (p : string) (blk : list byte) : M unit :=
  f ← get_fs;
  match f !! p with
  | Some (File d) => put_fs (<[p := File (d ++ blk)]> f)
  | Some Dir => raise (IsADirectoryError p)
  | None => raise (FileNotFoundError p)
  end.

(** [os.remove(p)] *)
Definition os_remove (p : string) : M unit :=
  f ← get_fs;
  match f !! p with
  | Some (File _) => emit (EvRemove p) ;; put_fs (delete p f)
  | Some Dir => raise (IsADirectoryError p)
  | None => raise (FileNotFoundError p)
  end.

(** [shutil.rmtree(p)]: the directory and everything below it. *)
Definition shutil_rmtree (p : string) : M unit :=
  f ← get_fs;
  match f !! p with
  | Some Dir =>
      emit (EvRmtree p) ;;
      put_fs (filter (fun kv => negb (String.eqb (fst kv) p || below p (fst kv)) = true) f)
  | Some (File _) => raise (NotADirectoryError p)
  | None => raise (FileNotFoundError p)
  end.

(** [os.mkdir(p)] *)
Definition os_mkdir (p : string) : M unit :=
  f ← get_fs;
  if exists_ f p then raise (FileExistsError p)
  else if isdir f (os_path.dirname p)
  then emit (EvMkdir p) ;; put_fs (<[p := Dir]> f)
  else raise (FileNotFoundError p).

(** [try: m except FileExistsError: pass] *)
Definition ignore_exists (m : M unit) : M unit :=
  fun w => match m w with
           | (Raise (FileExistsError _), w') => (Ok tt, w')
           | r => r
           end.

(** [os.makedirs(name)]: the missing ancestors first, then the leaf. *)
Fixpoint makedirs_fuel (fuel : nat) (name : string) : M unit :=
  match fuel with
  | O => os_mkdir name
  | S k =>
      let '(head, tail) := os_path.split name in
      let '(head, tail) :=
        if String.eqb tail "" then os_path.split head else (head, tail) in
      f ← get_fs;
      if (negb (String.eqb head "") && negb (String.eqb tail "")
          && negb (exists_ f head))%bool
      then
        ignore_exists (makedirs_fuel k head);;
        if String.eqb tail "." then ret tt else os_mkdir name
      else os_mkdir name
  end.

Definition os_makedirs (name : string) : M unit :=
  makedirs_fuel (String.length name) name.

(** *** Reading in blocks *)

(** [f.read(n)] on what is left of a file: the block read and the rest; a
    negative [n] reads to the end. *)
Definition file_read (n : Z) (rest : list byte) : list byte * list byte :=
  if n <? 0 then (rest, []) else (take (Z.to_nat n) rest, drop (Z.to_nat n) rest).

Definition inspect {A} (a : A) : {b : A | a = b} := exist _ a eq_refl.

(** [while True: block = fp.read(bs); if not block: break; ...]: the blocks
    read, in order. *)
Equations? read_blocks (bs : Z) (rest : list byte) : list (list byte)
  by wf (length rest) lt :=
read_blocks bs rest with inspect (file_read bs rest) := {
  | exist _ ([], _) _ => []
  | exist _ (b :: blk, rest') Heq => (b :: blk) :: read_blocks bs rest' }.
Proof.
  unfold file_read in Heq. destruct (bs <? 0).
  - injection Heq as Hb <-. subst rest. simpl. lia.
  - injection Heq as Ht <-. destruct rest as [|x rest]; [by destruct (Z.to_nat bs)|].
    destruct (Z.to_nat bs); [done|]. rewrite length_drop. simpl. lia.
Defined.

(** ** The script *)

Definition URL : string := "https://www.unicode.org/Public/cldr/31.0.1/core.zip".
Definition FILENAME : string := "core-31.0.1.zip".
Definition FILESUM : string := "01ade6c2d1f358e63c2ab6e2861d4caa7114ff45".
Definition BLKSIZE : Z := 131072.

Definition SEED_URL : string :=
  "https://www.unicode.org/repos/cldr/tags/release-31-0-1/seed/main/".
Definition SEED_FILENAME : string := "seed-31.0.1.html".

Definition is_request (e : event) : bool :=
  match e with EvRequest _ => true | _ => false end.

(** The network requests in a trace, in order. *)
Definition requests (tr : list event) : list event := List.filter is_request tr.

(** What was written to a stream, in order. *)
Definition written (f : stream) (tr : list event) : list string :=
  flat_map (fun e => match e, f with
                     | EvWrite Stdout s, Stdout => [s]
                     | EvWrite Stderr s, Stderr => [s]
                     | _, _ => []
                     end) tr.

Section Script.

Context {hashlib : HashLib} {ElementTree : XmlLib} {zipfile : ZipLib}.
Variable E : Env.

Definition get_terminal_width : Z :=
  match winsize E with
  | Some (_, cols) => cols
  | None => 80
  end.

Definition sys_write (f : stream) (s : string) : M unit := emit (EvWrite f s).

Definition reporthook (block_count block_size total_size : Z) : M unit :=
  let bytes_transmitted := block_count * block_size in
  let cols := get_terminal_width in
  let buffer := 6 in
  bt ← lift (float_of_int bytes_transmitted);
  tot ← lift (float_of_int (if total_size =? 0 then 1 else total_size));
  let percent := float_div bt tot in
  width ← lift (float_of_int (cols - buffer));
  done ← lift (int_of_float (float_mul percent width));
  sys_write Stdout cr;;
  sys_write Stdout (" " +:+ PyStr.repeat "=" done
                        +:+ PyStr.repeat " " (cols - done - buffer));;
  hundred ← lift (float_of_int 100);
  pct ← lift (int_of_float (float_mul percent hundred));
  sys_write Stdout (fmt_space_4d pct +:+ "%");;
  emit (EvFlush Stdout).

Definition log (message : string) (args : list string) : M unit :=
  message ← lift (match args with
                  | [] => Ok message
                  | _ => pyformat message args
                  end);
  sys_write Stderr (message +:+ nl).

(** [urllib.request.urlretrieve(url, filename, reporthook)] *)
Definition urlretrieve (url filename : string)
    (hook : option (Z -> Z -> Z -> M unit)) : M unit :=
  n ← (fun w => (Ok (length (requests (trace w))), w));
  emit (EvRequest url);;
  match remote E n url with
  | None => raise (URLError url)
  | Some fp =>
      create_file filename;;
      let bs := 1024 * 8 in
      let size := default (-1) (content_length fp) in
      let call blocknum := match hook with
                           | Some h => h blocknum bs size
                           | None => ret tt
                           end in
      call 0;;
      for_each (imap (fun i blk => (Z.of_nat i + 1, blk)) (read_blocks bs (body fp)))
               (fun '(blocknum, blk) => append_file filename blk;; call blocknum);;
      if (0 <=? size) && (Z.of_nat (length (body fp)) <? size)
      then raise ContentTooShortError
      else ret tt
  end.

(** [html.findall('./body/ul/li/a')]: one step of the path. *)
Definition find_children (t : string) (es : list Element) : list Element :=
  flat_map (fun e => List.filter (fun c => String.eqb (tag c) t) (children e)) es.

Definition findall_body_ul_li_a (root : Element) : list Element :=
  find_children "a" (find_children "li" (find_children "ul"
    (find_children "body" [root]))).

(** [[link.text for link in file_links if 'xml' in link.text]]; a link
    without text makes the membership test raise. *)
Fixpoint seed_xmls_of (file_links : list Element) : result (list string) :=
  match file_links with
  | [] => Ok []
  | link :: rest =>
      match text link with
      | None => Raise (TypeError "argument of type 'NoneType' is not iterable")
      | Some t =>
          match seed_xmls_of rest with
          | Ok r => Ok (if PyStr.contains "xml" t then t :: r else r)
          | Raise e => Raise e
          end
      end
  end.

Definition ElementTree_parse (path : string) : M Element :=
  data ← read_file path;
  match xml_parse data with
  | Some root => ret root
  | None => raise ParseError
  end.

(** The second half of [get_seed_files]: parse the index page, keep the
    links to XML files and fetch those that are not there yet. *)
Definition mirror_seed_files (seed_path html_path : string) : M unit :=
  html ← ElementTree_parse html_path;
  let file_links := findall_body_ul_li_a html in
  seed_xmls ← lift (seed_xmls_of file_links);

  for_each seed_xmls (fun xml_name =>
    let xml_url := SEED_URL +:+ xml_name in
    let xml_path := os_path.join seed_path xml_name in
    e ← path_exists xml_path;
    when (negb e) (
      log "Downloading '%s'" [xml_name];;
      urlretrieve xml_url xml_path None)).

Definition get_seed_files (download_path cldr_path : string) : M unit :=
  let seed_path := os_path.joins cldr_path ["seed"; "main"] in
  e ← path_exists seed_path;
  when (negb e) (os_makedirs seed_path);;

  let html_path := os_path.join download_path SEED_FILENAME in
  e ← path_exists html_path;
  when (negb e) (
    log "Downloading seed repo" [];;
    urlretrieve SEED_URL html_path None);;

  mirror_seed_files seed_path html_path.

(** The digest loop of [is_good_file]: read a block, stop on an empty one,
    feed it to the hash object. *)
Equations? hash_blocks (blksize : Z) (h : hash_obj) (rest : list byte) : hash_obj
  by wf (length rest) lt :=
hash_blocks blksize h rest with inspect (file_read blksize rest) := {
  | exist _ ([], _) _ => h
  | exist _ (b :: blk, rest') Heq => hash_blocks blksize (update h (b :: blk)) rest' }.
Proof.
  unfold file_read in Heq. destruct (blksize <? 0).
  - injection Heq as Hb <-. subst rest. simpl. lia.
  - injection Heq as Ht <-. destruct rest as [|x rest]; [by destruct (Z.to_nat blksize)|].
    destruct (Z.to_nat blksize); [done|]. rewrite length_drop. simpl. lia.
Defined.

(** [is_good_file], for any block size. *)
Definition is_good_file_with (blksize : Z) (filename : string) : M bool :=
  b ← path_isfile filename;
  if negb b then
    log "Local copy '%s' not found" [filename];;
    ret false
  else
    f ← read_file filename;
    let h := hash_blocks blksize sha1 f in
    let digest := hexdigest h in
    if negb (String.eqb digest FILESUM) then
      msg ← lift (pyformat "Checksum mismatch: %r != %r" [digest; FILESUM]);
      raise (RuntimeError msg)
    else
      ret true.

Definition is_good_file : string -> M bool := is_good_file_with BLKSIZE.

(** [ZipFile.extractall(dest)]: one member. *)
Definition extract_member (dest : string) (m : string * option (list byte)) : M unit :=
  let '(name, content) := m in
  let targetpath := dest +:+ "/" +:+ name in
  let upperdirs := os_path.dirname targetpath in
  e ← path_exists upperdirs;
  when (negb (String.eqb upperdirs "") && negb e) (os_makedirs upperdirs);;
  match content with
  | None =>
      d ← path_isdir targetpath;
      when (negb d) (os_mkdir targetpath)
  | Some data =>
      create_file targetpath;;
      append_file targetpath data
  end.

(** [with closing(zipfile.ZipFile(zip_path)) as z: z.extractall(dest)] *)
Definition extractall (zip_path dest : string) : M unit :=
  data ← read_file zip_path;
  match zip_members data with
  | None => raise BadZipFile
  | Some members =>
      emit (EvExtract zip_path dest);;
      for_each members (extract_member dest)
  end.

(** [subprocess.check_call(args)] *)
Definition check_call (args : list string) : M unit :=
  f ← get_fs;
  emit (EvCall args);;
  let rc := delegate E f args in
  if rc =? 0 then ret tt else raise (CalledProcessError rc args).

(** The body of the [while] loop of [main], up to [changed = True]. *)
Definition fetch_archive (zip_path : string) : M unit :=
  log "Downloading '%s'" [FILENAME];;
  b ← path_isfile zip_path;
  when b (os_remove zip_path);;
  urlretrieve URL zip_path (Some reporthook);;
  sys_write Stdout nl.

End Script.

(** ** Reasoning about runs *)

Lemma run_bind {A B} (m : M A) (k : A -> M B) (w : World) :
  (m ≫= k) w = match m w with
               | (Ok a, w') => k a w'
               | (Raise e, w') => (Raise e, w')
               end.
Proof. reflexivity. Qed.

Lemma bind_Ok_inv {A B} (m : M A) (k : A -> M B) w b w' :
  (m ≫= k) w = (Ok b, w') ->
  exists a w1, m w = (Ok a, w1) /\ k a w1 = (Ok b, w').
Proof.
  rewrite run_bind. destruct (m w) as [[a|e] w1]; [eauto | discriminate].
Qed.


(** A run whose result is [Ok a], with the world it leaves. *)
Lemma run_Ok {A} (m : M A) (w : World) (a : A) :
  (m w).1 = Ok a -> m w = (Ok a, (m w).2).
Proof. destruct (m w) as [r w']. simpl. by intros ->. Qed.

(** A relation between the world before and the world after that every run
    of [m] satisfies, whatever its outcome. *)
Definition always {A} (R : relation World) (m : M A) : Prop :=
  forall w, R w (m w).2.

Section Always.

Context (R : relation World) `{!PreOrder R}.

Lemma always_ret {A} (a : A) : always R (ret a).
Proof. intros w. reflexivity. Qed.

Lemma always_mret {A} (a : A) : always R (mret a : M A).
Proof. intros w. reflexivity. Qed.

Lemma always_raise {A} e : always R (raise e : M A).
Proof. intros w. reflexivity. Qed.

Lemma always_lift {A} (r : result A) : always R (lift r).
Proof. intros w. reflexivity. Qed.

Lemma always_get_fs : always R get_fs.
Proof. intros w. reflexivity. Qed.

Lemma always_bind {A B} (m : M A) (k : A -> M B) :
  always R m -> (forall a, always R (k a)) -> always R (m ≫= k).
Proof.
  intros Hm Hk w. rewrite run_bind. specialize (Hm w).
  destruct (m w) as [[a|e] w1]; simpl in *; [|done].
  etrans; [exact Hm | apply Hk].
Qed.

Lemma always_when (b : bool) (m : M unit) :
  always R m -> always R (when b m).
Proof. destruct b; [done | intros _; apply always_ret]. Qed.

Lemma always_for_each {A} (l : list A) (body : A -> M unit) :
  (forall x, always R (body x)) -> always R (for_each l body).
Proof.
  intros Hb. induction l as [|x l IH]; simpl.
  - apply always_ret.
  - apply always_bind; [apply Hb | intros _; apply IH].
Qed.

End Always.

(** The file system is left as it was. *)
Definition same_fs : relation World := fun w w' => fs w' = fs w.

(** The trace grows by events that all satisfy [P]. *)
Definition emits (P : event -> Prop) : relation World :=
  fun w w' => exists evs, trace w' = trace w ++ evs /\ Forall P evs.

(** Entries outside [S] that were there are still there, unchanged. *)
Definition keeps (S : string -> Prop) : relation World :=
  fun w w' => forall q n, ~ S q -> fs w !! q = Some n -> fs w' !! q = Some n.

#[global] Instance same_fs_preorder : PreOrder same_fs.
Proof.
  split; [done | intros x y z Hxy Hyz; unfold same_fs in *; congruence].
Qed.

#[global] Instance emits_preorder P : PreOrder (emits P).
Proof.
  split.
  - intros w. exists []. by rewrite app_nil_r.
  - intros x y z (e1 & H1 & F1) (e2 & H2 & F2). exists (e1 ++ e2).
    split; [by rewrite H2, H1, app_assoc | by apply Forall_app].
Qed.

#[global] Instance keeps_preorder S : PreOrder (keeps S).
Proof.
  split; [by intros w q n | intros x y z Hxy Hyz q n Hq Hx; eauto].
Qed.

Ltac always_step :=
  lazymatch goal with
  | |- PreOrder _ => apply _
  | |- always _ (_ ≫= _) => apply always_bind; [apply _ | | intros ?]
  | |- always _ (ret _) => apply always_ret; apply _
  | |- always _ (mret _) => apply always_mret; apply _
  | |- always _ (raise _) => apply always_raise; apply _
  | |- always _ (lift _) => apply always_lift; apply _
  | |- always _ get_fs => apply always_get_fs; apply _
  | |- always _ (when _ _) => apply always_when; [apply _ |]
  | |- always _ (for_each _ _) => apply always_for_each; [apply _ | intros ?]
  | |- always _ (match ?x with _ => _ end) => destruct x
  end.

Create HintDb always.

Ltac always_auto :=
  repeat always_step; try done; try (by intros ?); eauto with always.

(** *** Output leaves the file system alone *)

Lemma emit_same_fs e : always same_fs (emit e).
Proof. done. Qed.

Lemma sys_write_same_fs f s : always same_fs (sys_write f s).
Proof. done. Qed.

#[global] Hint Resolve emit_same_fs sys_write_same_fs : always.

Lemma log_same_fs message args : always same_fs (log message args).
Proof. unfold log. always_auto. Qed.

Lemma reporthook_same_fs E a b c : always same_fs (reporthook E a b c).
Proof. unfold reporthook. always_auto. Qed.

(** *** A completed download leaves a file *)

Definition is_file_at (p : string) : relation World :=
  fun w w' => isfile (fs w) p = true -> isfile (fs w') p = true.

#[global] Instance is_file_at_preorder p : PreOrder (is_file_at p).
Proof.
  split; [intros w Hw; exact Hw | intros x y z Hxy Hyz Hx; apply Hyz, Hxy, Hx].
Qed.

Lemma same_fs_is_file_at {A} p (m : M A) :
  always same_fs m -> always (is_file_at p) m.
Proof. intros H w Hw. by rewrite (H w). Qed.

Lemma append_file_is_file_at p q blk : always (is_file_at p) (append_file q blk).
Proof.
  intros w Hw. unfold append_file. rewrite run_bind. simpl.
  destruct (fs w !! q) as [[d|]|] eqn:Hq; simpl; try done.
  unfold isfile in *. destruct (decide (q = p)) as [->|Hne].
  - by rewrite lookup_insert_eq.
  - by rewrite lookup_insert_ne.
Qed.

Lemma create_file_Ok p w w' :
  create_file p w = (Ok tt, w') -> isfile (fs w') p = true.
Proof.
  unfold create_file. rewrite run_bind. simpl.
  destruct (fs w !! p) as [[d|]|] eqn:Hp; try done;
    (destruct (isdir (fs w) (os_path.dirname p)); [|done]);
    intros [= <-]; unfold isfile; simpl; by rewrite lookup_insert_eq.
Qed.

Lemma urlretrieve_Ok_isfile E url p hook w w' :
  (forall h, hook = Some h -> forall a b c, always same_fs (h a b c)) ->
  urlretrieve E url p hook w = (Ok tt, w') -> isfile (fs w') p = true.
Proof.
  intros Hhook. unfold urlretrieve.
  intros (n & w1 & [= <- <-] & H)%bind_Ok_inv.
  apply bind_Ok_inv in H as ([] & w2 & [= <-] & H).
  destruct (remote E _ url) as [fp|]; [|done].
  apply bind_Ok_inv in H as ([] & w3 & Hc%create_file_Ok & H).
  assert (Hcall : forall i, always (is_file_at p)
            (match hook with
             | Some h => h i (1024 * 8) (default (-1) (content_length fp))
             | None => ret tt
             end)).
  { intros i. destruct hook as [h|]; [|apply always_ret; apply _].
    apply same_fs_is_file_at. by eapply Hhook. }
  apply bind_Ok_inv in H as ([] & w4 & H4 & H).
  apply bind_Ok_inv in H as ([] & w5 & H5 & H).
  assert (isfile (fs w5) p = true) as Hw5.
  { pose proof (Hcall 0 w3) as H34. rewrite H4 in H34. simpl in H34.
    match type of H5 with ?m w4 = _ =>
      assert (always (is_file_at p) m) as Hfe end.
    { apply always_for_each; [apply _|]. intros [i blk].
      apply always_bind; [apply _ | apply append_file_is_file_at | intros _; apply Hcall]. }
    specialize (Hfe w4). rewrite H5 in Hfe. simpl in Hfe. auto. }
  destruct (_ && _); [done|]. by injection H as <-.
Qed.

Lemma is_good_file_false {hashlib : HashLib} p w w' :
  is_good_file p w = (Ok false, w') -> isfile (fs w) p = false /\ fs w' = fs w.
Proof.
  unfold is_good_file, is_good_file_with. rewrite run_bind. simpl.
  destruct (isfile (fs w) p) eqn:Hp; simpl.
  - rewrite run_bind. unfold read_file. rewrite run_bind. simpl.
    unfold isfile in Hp. destruct (fs w !! p) as [[d|]|]; try done. simpl.
    destruct (negb _); [|done]. rewrite run_bind.
    by destruct (lift _ w) as [[]].
  - rewrite run_bind. pose proof (log_same_fs "Local copy '%s' not found" [p] w) as Hl.
    destruct (log _ _ w) as [[[]|e] w1]; [|done]. by intros [= <-].
Qed.

Lemma fetch_archive_Ok_isfile E p w w' :
  fetch_archive E p w = (Ok tt, w') -> isfile (fs w') p = true.
Proof.
  unfold fetch_archive.
  intros ([] & w1 & _ & H)%bind_Ok_inv.
  apply bind_Ok_inv in H as (b & w2 & _ & H).
  apply bind_Ok_inv in H as ([] & w3 & _ & H).
  apply bind_Ok_inv in H as ([] & w4 & Hu & H).
  apply urlretrieve_Ok_isfile in Hu.
  - by injection H as <-.
  - intros h [= <-]. apply reporthook_same_fs.
Qed.

(** ** The script, continued: [main] *)

Section Main.

Context {hashlib : HashLib} {ElementTree : XmlLib} {zipfile : ZipLib}.
Variable E : Env.

(** [while not is_good_file(zip_path): ...; changed = True].  The loop
    ends: a test that fails finds no file, and a fetch that returns leaves
    one. *)
Equations? main_loop (zip_path : string) (changed : bool) (w : World)
  : result bool * World
  by wf (if isfile (fs w) zip_path then 0 else 1)%nat lt :=
main_loop zip_path changed w with inspect (is_good_file zip_path w) := {
  | exist _ (Raise e, w1) _ => (Raise e, w1)
  | exist _ (Ok true, w1) _ => (Ok changed, w1)
  | exist _ (Ok false, w1) Hgood with inspect (fetch_archive E zip_path w1) := {
    | exist _ (Raise e, w2) _ => (Raise e, w2)
    | exist _ (Ok tt, w2) Hfetch => main_loop zip_path true w2 } }.
Proof.
  apply is_good_file_false in Hgood as [-> _].
  apply fetch_archive_Ok_isfile in Hfetch as ->. lia.
Defined.

(** The paths [main] computes from the location of the script. *)
Definition scripts_path : string := os_path.dirname (script_file E).
Definition repo : string := os_path.dirname scripts_path.
Definition cldr_dl_path : string := os_path.join repo "cldr".
Definition cldr_path : string :=
  os_path.joins repo ["cldr"; (os_path.splitext FILENAME).1].
Definition zip_path : string := os_path.join cldr_dl_path FILENAME.
Definition common_path : string := os_path.join cldr_path "common".

(** [if changed or not os.path.isdir(common_path): ...] *)
Definition unpack (changed : bool) : M unit :=
  d ← path_isdir common_path;
  when (changed || negb d) (
    d ← path_isdir common_path;
    when d (
      log "Deleting old CLDR checkout in '%s'" [cldr_path];;
      shutil_rmtree common_path);;

    log "Extracting CLDR to '%s'" [cldr_path];;
    extractall zip_path cldr_path).

(** The arguments of the delegate. *)
Definition delegate_args : list string :=
  [sys_executable E; os_path.join scripts_path "import_cldr.py"; cldr_path].

Definition main : M unit :=
  changed ← main_loop zip_path false;
  unpack changed;;
  get_seed_files E cldr_dl_path cldr_path;;
  check_call E delegate_args.

(** The exit status of the interpreter running the script: an uncaught
    exception gives status 1. *)
Definition exit_status (w : World) : Z :=
  match (main w).1 with
  | Ok _ => 0
  | Raise _ => 1
  end.

End Main.

(** * The vocabulary of the statements *)

(** ** Events by kind *)

Inductive kind :=
| KOut | KErr | KFlush | KRequest | KCreate | KRemove | KRmtree | KMkdir
| KExtract | KCall.

#[global] Instance kind_eq_dec : EqDecision kind.
Proof. solve_decision. Defined.

Definition kind_of (e : event) : kind :=
  match e with
  | EvWrite Stdout _ => KOut
  | EvWrite Stderr _ => KErr
  | EvFlush _ => KFlush
  | EvRequest _ => KRequest
  | EvCreate _ => KCreate
  | EvRemove _ => KRemove
  | EvRmtree _ => KRmtree
  | EvMkdir _ => KMkdir
  | EvExtract _ _ => KExtract
  | EvCall _ => KCall
  end.

(** Every new event is of one of the kinds [ks]. *)
Definition emits_kinds (ks : list kind) : relation World :=
  emits (fun e => kind_of e ∈ ks).

(** Every kind of event but the removal of a file. *)
Definition kinds_but_remove : list kind :=
  [KOut; KErr; KFlush; KRequest; KCreate; KRmtree; KMkdir; KExtract; KCall].

(** The kinds of event of everything before the delegate is called. *)
Definition kinds_before_call : list kind :=
  [KOut; KErr; KFlush; KRequest; KCreate; KRmtree; KMkdir; KExtract].

(** The kinds of event of a download with the progress hook, the request
    apart. *)
Definition download_kinds : list kind := [KCreate; KOut; KFlush].

(** The events of a run: what the trace has gained. *)
Definition new_events (w w' : World) : list event :=
  drop (length (trace w)) (trace w').

Definition is_call (e : event) : bool :=
  match e with EvCall _ => true | _ => false end.

(** The invocations of the delegate in a trace, in order. *)
Definition calls (tr : list event) : list event := List.filter is_call tr.

(** A line of the log. *)
Definition log_line (s : string) : event := EvWrite Stderr (s +:+ nl).

Definition not_found_line (p : string) : event :=
  log_line ("Local copy '" +:+ p +:+ "' not found").

Definition downloading_line : event := log_line "Downloading 'core-31.0.1.zip'".

Definition mismatch_message (digest : string) : string :=
  "Checksum mismatch: " +:+ repr_str digest +:+ " != " +:+ repr_str FILESUM.




(** ** Relations between the file system before and after *)

(** Entries other than [p] are as they were. *)
Definition touches (p : string) : relation World :=
  fun w w' => forall q, q <> p -> fs w' !! q = fs w !! q.

(** Entries that were there are still there, unchanged. *)
Definition adds_only : relation World := keeps (fun _ => False).

(** The entry at [q], if any, is still there, unchanged. *)
Definition kept (q : string) : relation World :=
  fun w w' => forall n, fs w !! q = Some n -> fs w' !! q = Some n.

(** No entry appears outside [S]. *)
Definition creates_within (S : string -> Prop) : relation World :=
  fun w w' => forall q, ~ S q -> fs w !! q = None -> fs w' !! q = None.

(** Entries outside [S] are as they were: none changed, removed or made. *)
Definition changes_within (S : string -> Prop) : relation World :=
  fun w w' => forall q, ~ S q -> fs w' !! q = fs w !! q.


Definition preserves (I : gmap string node -> Prop) : relation World :=
  fun w w' => I (fs w) -> I (fs w').

(** The file system once [shutil.rmtree(p)] has run. *)
Definition without_tree (p : string) (f : gmap string node) : gmap string node :=
  filter (fun kv => negb (String.eqb kv.1 p || below p kv.1) = true) f.

(** A hook that only reports: it leaves the file system alone and makes no
    request. *)
Definition quiet (ks : list kind) (hook : option (Z -> Z -> Z -> M unit)) : Prop :=
  forall h, hook = Some h ->
  forall a b c, always same_fs (h a b c) /\ always (emits_kinds ks) (h a b c).

(** ** Parts of the script by name *)

Section Vocabulary.

Context {hashlib : HashLib} {ElementTree : XmlLib} {zipfile : ZipLib}.
Variable E : Env.

(** The digest the loop of [is_good_file] computes for the contents [d],
    reading [blksize] bytes at a time. *)
Definition digest_with (blksize : Z) (d : list byte) : string :=
  hexdigest (hash_blocks blksize sha1 d).

Definition digest_of : list byte -> string := digest_with BLKSIZE.

(** The digest of the contents hashed in one step. *)
Definition digest_whole (d : list byte) : string := hexdigest (update sha1 d).

(** The paths [get_seed_files] computes. *)
Definition seed_path : string := os_path.joins (cldr_path E) ["seed"; "main"].
Definition html_path : string := os_path.join (cldr_dl_path E) SEED_FILENAME.

(** What [main] does once the loop has ended. *)
Definition after_loop (changed : bool) : M unit :=
  unpack E changed;;
  get_seed_files E (cldr_dl_path E) (cldr_path E);;
  check_call E (delegate_args E).

(** The body of the loop of the mirror. *)
Definition fetch_if_missing (seed xml_name : string) : M unit :=
  e ← path_exists (os_path.join seed xml_name);
  when (negb e) (
    log "Downloading '%s'" [xml_name];;
    urlretrieve E (SEED_URL +:+ xml_name) (os_path.join seed xml_name) None).

(** What [get_seed_files] does after it has made its directory. *)
Definition fetch_index_and_mirror : M unit :=
  e ← path_exists html_path;
  when (negb e) (
    log "Downloading seed repo" [];;
    urlretrieve E SEED_URL html_path None);;
  mirror_seed_files E seed_path html_path.

(** The names the mirror takes from the index page that a file system
    holds, if it holds one that parses. *)
Definition seed_names (f : gmap string node) : option (list string) :=
  match f !! html_path with
  | Some (File d) =>
      match xml_parse d with
      | Some root =>
          match seed_xmls_of (findall_body_ul_li_a root) with
          | Ok names => Some names
          | Raise _ => None
          end
      | None => None
      end
  | _ => None
  end.

(** Everything a run fetches is in place: the archive with the expected
    digest, the unpacked tree, the index page and the seed files it
    lists. *)
Record cached (w : World) : Prop := {
  cached_archive :
    exists d, fs w !! zip_path E = Some (File d) /\ digest_of d = FILESUM;
  cached_tree : isdir (fs w) (common_path E) = true;
  cached_index : exists_ (fs w) html_path = true;
  cached_seeds :
    forall names, seed_names (fs w) = Some names ->
    Forall (fun n => exists_ (fs w) (os_path.join seed_path n) = true) names
}.

Definition deleting_line : event :=
  log_line ("Deleting old CLDR checkout in '" +:+ cldr_path E +:+ "'").

Definition extracting_line : event :=
  log_line ("Extracting CLDR to '" +:+ cldr_path E +:+ "'").

(** The world in which the archive is unpacked: the old tree, if there is
    one, is gone, and the log says so. *)
Definition cleared (w : World) : World :=
  if isdir (fs w) (common_path E)
  then mkWorld (without_tree (common_path E) (fs w))
               (trace w ++ [deleting_line; EvRmtree (common_path E); extracting_line])
  else mkWorld (fs w) (trace w ++ [extracting_line]).

End Vocabulary.

(** ** SHA-1 (FIPS 180-4), as hashlib computes it *)

Module SHA1.

Definition word (x : Z) : Z := x mod 2 ^ 32.

Definition rotl (n x : Z) : Z :=
  word (Z.lor (Z.shiftl x n) (Z.shiftr x (32 - n))).

Definition byte_val (b : byte) : Z := Z.of_N (Byte.to_N b).

(** Four bytes, most significant first. *)
Definition be32 (bs : list byte) : Z :=
  fold_left (fun acc b => acc * 256 + byte_val b) bs 0.

Fixpoint words_of (n : nat) (bs : list byte) : list Z :=
  match n with
  | O => []
  | S n' => be32 (take 4 bs) :: words_of n' (drop 4 bs)
  end.

(** The message schedule: [sched] holds the words computed so far, latest
    first. *)
Fixpoint expand (n : nat) (sched : list Z) : list Z :=
  match n with
  | O => sched
  | S n' =>
      let w := rotl 1 (Z.lxor (Z.lxor (nth 2 sched 0) (nth 7 sched 0))
                              (Z.lxor (nth 13 sched 0) (nth 15 sched 0))) in
      expand n' (w :: sched)
  end.

Definition round_f (t : nat) (b c d : Z) : Z :=
  if (t <? 20)%nat then Z.lor (Z.land b c) (Z.land (word (Z.lnot b)) d)
  else if (t <? 40)%nat then Z.lxor (Z.lxor b c) d
  else if (t <? 60)%nat then Z.lor (Z.lor (Z.land b c) (Z.land b d)) (Z.land c d)
  else Z.lxor (Z.lxor b c) d.

Definition round_k (t : nat) : Z :=
  if (t <? 20)%nat then 0x5A827999
  else if (t <? 40)%nat then 0x6ED9EBA1
  else if (t <? 60)%nat then 0x8F1BBCDC
  else 0xCA62C1D6.

Definition state : Type := Z * Z * Z * Z * Z.

Fixpoint rounds (t : nat) (ws : list Z) (s : state) : state :=
  match ws with
  | [] => s
  | w :: ws' =>
      let '(a, b, c, d, e) := s in
      let tmp := word (rotl 5 a + round_f t b c d + e + round_k t + w) in
      rounds (S t) ws' (tmp, a, rotl 30 b, c, d)
  end.

(** One 64-byte block. *)
Definition compress (h : state) (block : list byte) : state :=
  let ws := rev (expand 64 (rev (words_of 16 block))) in
  let '(h0, h1, h2, h3, h4) := h in
  let '(a, b, c, d, e) := rounds 0 ws h in
  (word (h0 + a), word (h1 + b), word (h2 + c), word (h3 + d), word (h4 + e)).

Definition init : state :=
  (0x67452301, 0xEFCDAB89, 0x98BADCFE, 0x10325476, 0xC3D2E1F0).

(** The full 64-byte blocks at the front of [bs] are fed to [compress];
    what is left is shorter than a block. *)
Fixpoint absorb (fuel : nat) (h : state) (bs : list byte) : state * list byte :=
  match fuel with
  | O => (h, bs)
  | S k =>
      if (length bs <? 64)%nat then (h, bs)
      else absorb k (compress h (take 64 bs)) (drop 64 bs)
  end.

Definition byte_of (x : Z) : byte :=
  default "000"%byte (Byte.of_N (Z.to_N (x mod 256))).

(** [n] as [k] bytes, most significant first. *)
Fixpoint be_bytes (k : nat) (n : Z) : list byte :=
  match k with
  | O => []
  | S k' => be_bytes k' (n / 256) ++ [byte_of n]
  end.

(** Padding for a message of [len] bytes of which [tail] are pending. *)
Definition padding (len : Z) (tail : list byte) : list byte :=
  let zeros := Z.to_nat ((55 - Z.of_nat (length tail)) mod 64) in
  tail ++ ["128"%byte] ++ List.repeat "000"%byte zeros ++ be_bytes 8 (8 * len).

Definition hex_digit (x : Z) : ascii :=
  ascii_of_nat (Z.to_nat (if x <? 10 then 48 + x else 87 + x)).

Fixpoint hex (k : nat) (n : Z) (acc : string) : string :=
  match k with
  | O => acc
  | S k' => hex k' (n / 16) (String (hex_digit (n mod 16)) acc)
  end.

(** A hash object: the chaining value, the pending bytes, the number of
    bytes fed so far. *)
Record obj := mk { chain : state; pending : list byte; fed : Z }.

Definition new : obj := mk init [] 0.

Definition upd (o : obj) (data : list byte) : obj :=
  let bs := pending o ++ data in
  let '(h, tail) := absorb (length bs) (chain o) bs in
  mk h tail (fed o + Z.of_nat (length data)).

Definition hexdig (o : obj) : string :=
  let bs := padding (fed o) (pending o) in
  let '(a, b, c, d, e) := (absorb (length bs) (chain o) bs).1 in
  hex 8 a (hex 8 b (hex 8 c (hex 8 d (hex 8 e "")))).

End SHA1.

Definition sha1_hashlib : HashLib := {|
  hash_obj := SHA1.obj;
  sha1 := SHA1.new;
  update := SHA1.upd;
  hexdigest := SHA1.hexdig
|}.

(** ** A mock world *)

#[global] Instance byte_eq_dec : EqDecision byte := Byte.byte_eq_dec.

Definition bytes_of (s : string) : list byte := String.list_byte_of_string s.

(** The archive the server holds: one block of the download. *)
Definition good_archive : list byte := List.repeat "x"%byte (Z.to_nat 8192).

(** SHA-1, except that the mock archive is given the digest the script
    expects (no file with that digest is at hand). *)
Definition oracle_hashlib : HashLib := {|
  hash_obj := list byte;
  sha1 := [];
  update := fun h blk => h ++ blk;
  hexdigest := fun h =>
    if decide (h = good_archive) then FILESUM
    else SHA1.hexdig (SHA1.upd SHA1.new h)
|}.

Definition anchor (t : string) : Element :=
  mkElement "li" None [mkElement "a" (Some t) []].

(** An index page with the links [a.xml], [b.txt], [c.xml] and
    [readme.XML]. *)
Definition mock_index : Element :=
  mkElement "html" None
    [mkElement "head" None [];
     mkElement "body" None
       [mkElement "h1" (Some "seed/main") [];
        mkElement "ul" None
          [anchor "a.xml"; anchor "b.txt"; anchor "c.xml"; anchor "readme.XML"]]].

Definition index_page : list byte := bytes_of "<html>index of seed/main</html>".

Definition mock_xml : XmlLib := {|
  xml_parse := fun d => if decide (d = index_page) then Some mock_index else None
|}.

Definition mock_zip : ZipLib := {|
  zip_members := fun d =>
    if decide (d = good_archive)
    then Some [("common", None);
               ("common/main/en.xml", Some (bytes_of "<ldml/>"));
               ("common/dtd/ldml.dtd", Some (bytes_of "<!ELEMENT ldml>"))]
    else None
|}.

Definition mock_remote (n : nat) (url : string) : option response :=
  if String.eqb url URL then Some (mkResponse good_archive (Some 8192))
  else if String.eqb url SEED_URL then Some (mkResponse index_page None)
  else Some (mkResponse (bytes_of "<ldml/>") None).

Definition mock_env (status : Z) : Env := {|
  script_file := "/babel/scripts/download_import_cldr.py";
  sys_executable := "/usr/bin/python";
  winsize := Some (24, 80);
  remote := mock_remote;
  delegate := fun _ _ => status
|}.

(** A server that breaks off: it announces 8192 bytes and sends three. *)
Definition short_env : Env := {|
  script_file := "/babel/scripts/download_import_cldr.py";
  sys_executable := "/usr/bin/python";
  winsize := Some (24, 80);
  remote := fun _ _ => Some (mkResponse (bytes_of "abc") (Some 8192));
  delegate := fun _ _ => 0
|}.

(** A server that cannot be reached. *)
Definition offline_env : Env := {|
  script_file := "/babel/scripts/download_import_cldr.py";
  sys_executable := "/usr/bin/python";
  winsize := None;
  remote := fun _ _ => None;
  delegate := fun _ _ => 0
|}.

Definition fs_fresh : gmap string node :=
  list_to_map [("/", Dir); ("/babel", Dir); ("/babel/cldr", Dir);
               ("/babel/scripts", Dir)].

(** A fresh checkout: nothing downloaded yet. *)
Definition w_fresh : World := mkWorld fs_fresh [].

(** A checkout whose archive is damaged (here: empty). *)
Definition w_corrupt : World :=
  mkWorld (<["/babel/cldr/core-31.0.1.zip" := File []]> fs_fresh) [].

(** A checkout with the archive in place and nothing unpacked. *)
Definition w_archive : World :=
  mkWorld (<["/babel/cldr/core-31.0.1.zip" := File good_archive]> fs_fresh) [].

(** The world a first run from a fresh checkout leaves, with an empty
    trace. *)
Definition w_done : World :=
  mkWorld (fs (@main oracle_hashlib mock_xml mock_zip (mock_env 0) w_fresh).2) [].

(** A checkout with the index page, the seed directory and [a.xml] in
    place. *)
Definition w_mirror : World :=
  mkWorld (list_to_map
             [("/", Dir); ("/babel", Dir); ("/babel/cldr", Dir);
              ("/babel/cldr/seed-31.0.1.html", File index_page);
              ("/babel/cldr/core-31.0.1", Dir);
              ("/babel/cldr/core-31.0.1/seed", Dir);
              ("/babel/cldr/core-31.0.1/seed/main", Dir);
              ("/babel/cldr/core-31.0.1/seed/main/a.xml", File (bytes_of "<ldml/>"))])
          [].

(** * The model at work *)

Example join_abs : os_path.join "/a/b" "/c" = "/c".
Proof. reflexivity. Qed.

Example join_rel :
  os_path.joins "/r/cldr/core" ["seed"; "main"] = "/r/cldr/core/seed/main".
Proof. reflexivity. Qed.

Example join_slash : os_path.join "/" "cldr" = "/cldr".
Proof. reflexivity. Qed.

Example dirname_ex :
  os_path.dirname "/r/scripts/download_import_cldr.py" = "/r/scripts".
Proof. reflexivity. Qed.

Example dirname_root : os_path.dirname "/x.py" = "/".
Proof. reflexivity. Qed.

Example splitext_ex : os_path.splitext "core-31.0.1.zip" = ("core-31.0.1", ".zip").
Proof. reflexivity. Qed.

Example splitext_dot : os_path.splitext "/a.b/.bashrc" = ("/a.b/.bashrc", "").
Proof. reflexivity. Qed.

Example contains_ex :
  PyStr.contains "xml" "readme.XML" = false /\ PyStr.contains "xml" "a.xml" = true.
Proof. split; reflexivity. Qed.

Example fmt_ex :
  fmt_space_4d 0 = "   0" /\ fmt_space_4d 100 = " 100" /\
  fmt_space_4d (-5) = "  -5" /\ fmt_space_4d 12345 = " 12345".
Proof. repeat split; vm_compute; reflexivity. Qed.

Example pyformat_ex :
  pyformat "Checksum mismatch: %r != %r" ["ab"; "cd"]
  = Ok "Checksum mismatch: 'ab' != 'cd'".
Proof. reflexivity. Qed.

(** [int(1.0 / 49 * 49)] is 0: the quotient is rounded. *)
Example float_ex :
  (match float_of_int 1, float_of_int 49 with
   | Ok a, Ok b => int_of_float (float_mul (float_div a b) b)
   | _, _ => Raise OverflowError
   end) = Ok 0.
Proof. vm_compute. reflexivity. Qed.

Example float_ex2 :
  (match float_of_int 16384, float_of_int 10000, float_of_int 74 with
   | Ok a, Ok b, Ok c => int_of_float (float_mul (float_div a b) c)
   | _, _, _ => Raise OverflowError
   end) = Ok 121.
Proof. vm_compute. reflexivity. Qed.

Example read_blocks_ex :
  read_blocks 2 ["a"; "b"; "c"]%byte = [["a"; "b"]; ["c"]]%byte.
Proof. vm_compute. reflexivity. Qed.

(** The digests of FIPS 180-4's examples. *)
Example sha1_abc :
  SHA1.hexdig (SHA1.upd SHA1.new (bytes_of "abc"))
  = "a9993e364706816aba3e25717850c26c9cd0d89d".
Proof. vm_compute. reflexivity. Qed.

Example sha1_empty :
  SHA1.hexdig SHA1.new = "da39a3ee5e6b4b0d3255bfef95601890afd80709".
Proof. vm_compute. reflexivity. Qed.

Example sha1_two_blocks :
  SHA1.hexdig (SHA1.upd SHA1.new
    (bytes_of "abcdbcdecdefdefgefghfghighijhijkijkljklmklmnlmnomnopnopq"))
  = "84983e441c3bd26ebaae4aa1f95129e5e54670f1".
Proof. vm_compute. reflexivity. Qed.

(** * Lemmas *)

(** ** Strings and paths *)

Section Strings.

Implicit Types a b c s t : string.

Lemma append_nil_l s : "" +:+ s = s.
Proof. reflexivity. Qed.

Lemma append_cons x a b : String x a +:+ b = String x (a +:+ b).
Proof. reflexivity. Qed.

Lemma append_nil_r s : s +:+ "" = s.
Proof. induction s; rewrite ?append_cons; [done | congruence]. Qed.

Lemma append_assoc a b c : (a +:+ b) +:+ c = a +:+ (b +:+ c).
Proof. induction a; rewrite ?append_cons; [done | congruence]. Qed.

Lemma append_inv_head a b c : a +:+ b = a +:+ c -> b = c.
Proof. induction a; rewrite ?append_cons; [done | intros [= H]; auto]. Qed.

Lemma rev_onto_app s acc : PyStr.rev_onto s acc = PyStr.rev s +:+ acc.
Proof.
  unfold PyStr.rev. revert acc. induction s as [|x s IH]; intros acc; simpl; [done|].
  rewrite IH, (IH (String x "")), append_assoc. done.
Qed.

Lemma rev_cons x s : PyStr.rev (String x s) = PyStr.rev s +:+ String x "".
Proof. unfold PyStr.rev at 1. simpl. apply rev_onto_app. Qed.

Lemma rev_app a b : PyStr.rev (a +:+ b) = PyStr.rev b +:+ PyStr.rev a.
Proof.
  induction a as [|x a IH].
  - by rewrite append_nil_l, append_nil_r.
  - by rewrite append_cons, !rev_cons, IH, append_assoc.
Qed.

Lemma rev_involutive s : PyStr.rev (PyStr.rev s) = s.
Proof.
  induction s as [|x s IH]; [done|].
  by rewrite rev_cons, rev_app, IH.
Qed.

Lemma prefix_app a b : String.prefix a (a +:+ b) = true.
Proof.
  induction a as [|x a IH]; [by destruct b|].
  rewrite append_cons. simpl. destruct (ascii_dec x x); [done | congruence].
Qed.

Lemma prefix_of_eq a b c : b = a +:+ c -> String.prefix a b = true.
Proof. intros ->. apply prefix_app. Qed.

Lemma prefix_inv a b : String.prefix a b = true -> exists c, b = a +:+ c.
Proof.
  revert b. induction a as [|x a IH]; intros b; [by exists b|].
  destruct b as [|y b]; simpl; [done|].
  destruct (ascii_dec x y) as [->|]; [|done].
  intros [c ->]%IH. by exists c.
Qed.

Lemma prefix_trans a b c :
  String.prefix a b = true -> String.prefix b c = true -> String.prefix a c = true.
Proof.
  intros [x ->]%prefix_inv [y ->]%prefix_inv. rewrite append_assoc. apply prefix_app.
Qed.

Lemma lacks_app x a b : PyStr.lacks x (a +:+ b) = PyStr.lacks x a && PyStr.lacks x b.
Proof.
  induction a as [|y a IH]; [done|].
  rewrite append_cons. simpl. by rewrite IH, andb_assoc.
Qed.

Lemma lacks_rev x t : PyStr.lacks x (PyStr.rev t) = PyStr.lacks x t.
Proof.
  induction t as [|y t IH]; [done|].
  rewrite rev_cons, lacks_app, IH. simpl. rewrite andb_true_r. apply andb_comm.
Qed.

Lemma break_at_app x a b :
  PyStr.lacks x a = true -> PyStr.break_at x (a +:+ String x b) = (a, String x b).
Proof.
  induction a as [|y a IH]; rewrite ?append_cons, ?append_nil_l; simpl.
  - by rewrite Ascii.eqb_refl.
  - intros [Hy Ha]%andb_true_iff. apply negb_true_iff in Hy. rewrite Hy.
    by rewrite IH.
Qed.

Lemma break_at_spec x s :
  s = (PyStr.break_at x s).1 +:+ (PyStr.break_at x s).2 /\
  PyStr.lacks x (PyStr.break_at x s).1 = true /\
  ((PyStr.break_at x s).2 = "" \/ exists b, (PyStr.break_at x s).2 = String x b).
Proof.
  induction s as [|y s (IH1 & IH2 & IH3)]; simpl; [auto|].
  destruct (Ascii.eqb x y) eqn:Hxy.
  - apply Ascii.eqb_eq in Hxy as <-. simpl. eauto.
  - destruct (PyStr.break_at x s) as [a b] eqn:Hb. simpl in *.
    rewrite Hxy, append_cons. split; [congruence | auto].
Qed.

Lemma lstrip_app_keep x a y b :
  x <> y -> exists a', PyStr.lstrip x (a +:+ String y b) = a' +:+ String y b.
Proof.
  intros Hxy. induction a as [|z a IH]; rewrite ?append_cons, ?append_nil_l; simpl.
  - apply Ascii.eqb_neq in Hxy as ->. by exists "".
  - destruct (Ascii.eqb x z); [done|]. by exists (String z a).
Qed.

Lemma lstrip_cons_eq x b : PyStr.lstrip x (String x b) = PyStr.lstrip x b.
Proof. simpl. by rewrite Ascii.eqb_refl. Qed.

Lemma lstrip_prefix_lacking x y b : x <> y -> PyStr.lstrip x (String y b) = String y b.
Proof. intros Hxy. simpl. by apply Ascii.eqb_neq in Hxy as ->. Qed.

(** What [lstrip] removes is a run of [x]. *)
Lemma lstrip_spec x s :
  exists r, s = r +:+ PyStr.lstrip x s /\ PyStr.lstrip x r = "".
Proof.
  induction s as [|y s (r & IH1 & IH2)]; simpl.
  - by exists "".
  - destruct (Ascii.eqb x y) eqn:Hxy.
    + apply Ascii.eqb_eq in Hxy as <-. exists (String x r).
      rewrite append_cons. simpl. rewrite Ascii.eqb_refl. split; congruence.
    + by exists "".
Qed.

Lemma run_snoc x r : PyStr.lstrip x r = "" -> r +:+ String x "" = String x r.
Proof.
  induction r as [|y r IH]; simpl; [done|].
  destruct (Ascii.eqb x y) eqn:Hxy; [|done].
  apply Ascii.eqb_eq in Hxy as <-. intros H. by rewrite append_cons, IH.
Qed.

Lemma run_rev x r : PyStr.lstrip x r = "" -> PyStr.rev r = r.
Proof.
  induction r as [|y r IH]; simpl; [done|].
  destruct (Ascii.eqb x y) eqn:Hxy; [|done].
  apply Ascii.eqb_eq in Hxy as <-. intros H.
  by rewrite rev_cons, IH, run_snoc.
Qed.

(** The shape of [os.path.split]: the path is its directory name, a run of
    separators and its last component. *)
Lemma split_spec p :
  exists r, p = os_path.dirname p +:+ r +:+ (os_path.split p).2 /\
            PyStr.lstrip os_path.sep r = "" /\
            (PyStr.lstrip os_path.sep (os_path.dirname p) <> "" ->
             exists r', r = String os_path.sep r').
Proof.
  unfold os_path.dirname, os_path.split.
  destruct (break_at_spec os_path.sep (PyStr.rev p)) as (Hp & _ & Hhd).
  destruct (PyStr.break_at os_path.sep (PyStr.rev p)) as [tl hd]. simpl in *.
  apply (f_equal PyStr.rev) in Hp. rewrite rev_involutive, rev_app in Hp.
  destruct (negb (String.eqb (PyStr.rev hd) "") &&
            negb (String.eqb (PyStr.lstrip os_path.sep (PyStr.rev hd)) "")) eqn:Hc;
    simpl.
  - destruct Hhd as [->|[b ->]]; [done|].
    unfold PyStr.rstrip. rewrite rev_involutive.
    assert (PyStr.lstrip os_path.sep (String os_path.sep b)
            = PyStr.lstrip os_path.sep b) as -> by done.
    destruct (lstrip_spec os_path.sep b) as (r & Hr1 & Hr2).
    assert (PyStr.lstrip os_path.sep (String os_path.sep r) = "") as Hrun
      by (simpl; exact Hr2).
    exists (String os_path.sep r). split; [|split; [exact Hrun | eauto]].
    rewrite Hp. rewrite Hr1 at 1.
    rewrite <- append_cons, rev_app, (run_rev _ _ Hrun).
    by rewrite !append_assoc.
  - exists "". rewrite append_nil_l. split; [done|]. split; [done|].
    intros Hne. apply andb_false_iff in Hc as [Hc|Hc]; apply negb_false_iff,
      String.eqb_eq in Hc; [by rewrite Hc in Hne | done].
Qed.

Lemma dirname_prefix p : String.prefix (os_path.dirname p) p = true.
Proof.
  destruct (split_spec p) as (r & Hp & _). rewrite Hp at 2. apply prefix_app.
Qed.


Lemma append_not_nil a x b : a +:+ String x b <> "".
Proof. by destruct a. Qed.

Lemma rev_snoc a x : PyStr.rev (a +:+ String x "") = String x (PyStr.rev a).
Proof. by rewrite rev_app. Qed.

(** Splitting a path that ends in a plain component. *)
Lemma split_component a x t :
  x <> os_path.sep -> PyStr.lacks os_path.sep t = true ->
  os_path.split ((a +:+ String x "") +:+ "/" +:+ t) = (a +:+ String x "", t).
Proof.
  intros Hx Ht. unfold os_path.split.
  rewrite rev_app.
  assert (PyStr.rev ("/" +:+ t) = PyStr.rev t +:+ String os_path.sep "") as ->
    by apply rev_cons.
  rewrite append_assoc, append_cons, append_nil_l.
  rewrite break_at_app by (by rewrite lacks_rev).
  rewrite rev_cons, !rev_involutive.
  assert (((a +:+ String x "") +:+ String os_path.sep "" =? "")%string = false) as ->.
  { apply String.eqb_neq. rewrite append_assoc. apply append_not_nil. }
  assert ((PyStr.lstrip os_path.sep ((a +:+ String x "") +:+ String os_path.sep "")
           =? "")%string = false) as ->.
  { apply String.eqb_neq. rewrite append_assoc, append_cons, append_nil_l.
    destruct (lstrip_app_keep os_path.sep a x (String os_path.sep "")) as [a' ->];
      [done | apply append_not_nil]. }
  simpl. unfold PyStr.rstrip. rewrite rev_app, rev_snoc.
  assert (PyStr.rev (String os_path.sep "") = String os_path.sep "") as -> by done.
  rewrite append_cons, append_nil_l.
  assert (PyStr.lstrip os_path.sep (String os_path.sep (String x (PyStr.rev a)))
          = String x (PyStr.rev a)) as ->.
  { rewrite lstrip_cons_eq. by apply lstrip_prefix_lacking. }
  by rewrite <- rev_snoc, rev_involutive.
Qed.

(** The directory name of a path that ends in a plain component. *)
Lemma dirname_component a x t :
  x <> os_path.sep -> PyStr.lacks os_path.sep t = true ->
  os_path.dirname ((a +:+ String x "") +:+ "/" +:+ t) = a +:+ String x "".
Proof. intros Hx Ht. unfold os_path.dirname. by rewrite split_component. Qed.

End Strings.

(** ** Events by kind *)

#[global] Instance touches_preorder p : PreOrder (touches p).
Proof.
  split; [by intros w q | intros x y z Hxy Hyz q Hq].
  by rewrite (Hyz q Hq), (Hxy q Hq).
Qed.

#[global] Instance kept_preorder q : PreOrder (kept q).
Proof.
  split; [intros w n Hn; exact Hn | intros x y z Hxy Hyz n Hn; apply Hyz, Hxy, Hn].
Qed.

#[global] Instance preserves_preorder I : PreOrder (preserves I).
Proof.
  split; [intros w Hw; exact Hw | intros x y z Hxy Hyz Hx; apply Hyz, Hxy, Hx].
Qed.

#[global] Instance emits_kinds_preorder ks : PreOrder (emits_kinds ks).
Proof. apply emits_preorder. Qed.

#[global] Instance adds_only_preorder : PreOrder adds_only.
Proof. apply keeps_preorder. Qed.

Lemma always_mono {A} (R R' : relation World) (m : M A) :
  (forall w w', R w w' -> R' w w') -> always R m -> always R' m.
Proof. intros HR Hm w. apply HR, Hm. Qed.

Lemma emits_mono (P Q : event -> Prop) w w' :
  (forall e, P e -> Q e) -> emits P w w' -> emits Q w w'.
Proof.
  intros HPQ (evs & Ht & Hf). exists evs. split; [done|].
  eapply Forall_impl; [exact Hf | exact HPQ].
Qed.

Lemma emits_kinds_mono ks ks' w w' :
  ks ⊆ ks' -> emits_kinds ks w w' -> emits_kinds ks' w w'.
Proof. intros Hsub. apply emits_mono. intros e He. by apply Hsub. Qed.

Lemma same_fs_touches p w w' : same_fs w w' -> touches p w w'.
Proof. unfold same_fs, touches. intros H q _. by rewrite H. Qed.

Lemma same_fs_adds_only w w' : same_fs w w' -> adds_only w w'.
Proof. unfold same_fs, adds_only, keeps. intros H q n _. by rewrite H. Qed.


Lemma touches_kept p q w w' : q <> p -> touches p w w' -> kept q w w'.
Proof. unfold touches, kept. intros Hq H n. by rewrite (H q Hq). Qed.

Lemma adds_only_kept q w w' : adds_only w w' -> kept q w w'.
Proof. unfold adds_only, keeps, kept. intros H n Hn. apply H; [intros [] | exact Hn]. Qed.

Lemma same_fs_kept q w w' : same_fs w w' -> kept q w w'.
Proof. unfold same_fs, kept. intros H n. by rewrite H. Qed.

(** A relation that only reads the file system holds when it is unchanged. *)
Lemma emits_nil P w f : emits P w (mkWorld f (trace w)).
Proof. exists []. by rewrite app_nil_r. Qed.

Lemma emits_one (P : event -> Prop) w e f :
  P e -> emits P w (mkWorld f (trace w ++ [e])).
Proof. intros He. exists [e]. split; [done | by constructor]. Qed.

(** The projections of a trace see only the events of their kind. *)
Lemma requests_app tr tr' : requests (tr ++ tr') = requests tr ++ requests tr'.
Proof. apply List.filter_app. Qed.

Lemma requests_none (ks : list kind) evs :
  KRequest ∉ ks -> Forall (fun e => kind_of e ∈ ks) evs -> requests evs = [].
Proof.
  intros Hk Hf. induction Hf as [|e evs He _ IH]; [done|]. simpl.
  destruct e; simpl in *; done.
Qed.

Lemma not_in_kinds (k : kind) (ks : list kind) : bool_decide (k ∈ ks) = false -> k ∉ ks.
Proof. by intros H%bool_decide_eq_false. Qed.

Lemma emits_no_requests ks w w' :
  KRequest ∉ ks -> emits_kinds ks w w' -> requests (trace w') = requests (trace w).
Proof.
  intros Hk (evs & -> & Hf). rewrite requests_app.
  assert (requests evs = []) as ->; [|by rewrite app_nil_r].
  induction Hf as [|e evs He _ IH]; [done|]. simpl.
  destruct e; simpl in *; done.
Qed.

(** Membership and inclusion for lists of kinds. *)
Ltac in_kinds :=
  first [ assumption
        | solve [repeat first [apply list_elem_of_here | apply list_elem_of_further]] ].

Ltac kinds_incl :=
  first [ in_kinds
        | let k := fresh "k" in let Hk := fresh "Hk" in
          intros k Hk;
          repeat (apply elem_of_cons in Hk as [->|Hk]; [in_kinds|]);
          by apply elem_of_nil in Hk ].

(** ** What the file system calls do *)

Lemma always_read {A} (R : relation World) `{!PreOrder R} (g : World -> result A) :
  always R (fun w => (g w, w)).
Proof. intros w. reflexivity. Qed.

Lemma always_emit_kinds ks e : kind_of e ∈ ks -> always (emits_kinds ks) (emit e).
Proof. intros He w. by apply emits_one. Qed.

Lemma always_put_fs_kinds ks f : always (emits_kinds ks) (put_fs f).
Proof. intros w. apply emits_nil. Qed.

Ltac kinds_leaf :=
  lazymatch goal with
  | |- always (emits_kinds _) (emit _) => apply always_emit_kinds; kinds_incl
  | |- always (emits_kinds _) (sys_write _ _) => apply always_emit_kinds; kinds_incl
  | |- always (emits_kinds _) (put_fs _) => apply always_put_fs_kinds
  | |- always (emits_kinds _) (if _ then _ else _) => case_match
  end.

Ltac kinds_auto := repeat first [always_step | kinds_leaf].

Section Prims.

Implicit Types p q : string.

(** *** Events *)

Lemma read_file_kinds ks p : always (emits_kinds ks) (read_file p).
Proof. unfold read_file. kinds_auto. Qed.

Lemma create_file_kinds ks p : KCreate ∈ ks -> always (emits_kinds ks) (create_file p).
Proof. intros. unfold create_file. kinds_auto. Qed.

Lemma append_file_kinds ks p blk : always (emits_kinds ks) (append_file p blk).
Proof. unfold append_file. kinds_auto. Qed.

Lemma os_remove_kinds ks p : KRemove ∈ ks -> always (emits_kinds ks) (os_remove p).
Proof. intros. unfold os_remove. kinds_auto. Qed.

Lemma shutil_rmtree_kinds ks p : KRmtree ∈ ks -> always (emits_kinds ks) (shutil_rmtree p).
Proof. intros. unfold shutil_rmtree. kinds_auto. Qed.

Lemma os_mkdir_kinds ks p : KMkdir ∈ ks -> always (emits_kinds ks) (os_mkdir p).
Proof. intros. unfold os_mkdir. kinds_auto. Qed.

(** *** Entries *)

Lemma create_file_touches p : always (touches p) (create_file p).
Proof.
  intros w q Hq. unfold create_file. rewrite run_bind. simpl.
  destruct (fs w !! p) as [[d|]|]; simpl; try done;
    (destruct (isdir (fs w) (os_path.dirname p)); simpl; [|done]);
    by rewrite lookup_insert_ne.
Qed.

Lemma append_file_touches p blk : always (touches p) (append_file p blk).
Proof.
  intros w q Hq. unfold append_file. rewrite run_bind. simpl.
  destruct (fs w !! p) as [[d|]|]; simpl; try done.
  by rewrite lookup_insert_ne.
Qed.

Lemma os_remove_touches p : always (touches p) (os_remove p).
Proof.
  intros w q Hq. unfold os_remove. rewrite run_bind. simpl.
  destruct (fs w !! p) as [[d|]|]; simpl; try done.
  by rewrite lookup_delete_ne.
Qed.

Lemma os_mkdir_adds_only p : always adds_only (os_mkdir p).
Proof.
  intros w q n _ Hq. unfold os_mkdir. rewrite run_bind. simpl.
  unfold exists_. destruct (fs w !! p) eqn:Hp; simpl; [done|].
  destruct (isdir (fs w) (os_path.dirname p)); simpl; [|done].
  rewrite lookup_insert_ne; [done | congruence].
Qed.

Lemma shutil_rmtree_keeps p :
  always (keeps (fun q => q = p \/ below p q = true)) (shutil_rmtree p).
Proof.
  intros w q n Hq Hn. unfold shutil_rmtree. rewrite run_bind. simpl.
  destruct (fs w !! p) as [[d|]|]; simpl; try done.
  apply map_lookup_filter_Some. split; [done|]. simpl.
  apply negb_true_iff, orb_false_iff. split.
  - apply String.eqb_neq. tauto.
  - apply not_true_is_false. tauto.
Qed.

(** *** Well-formedness *)











End Prims.

(** ** What the library calls do *)

Section Library.

Context (R : relation World) `{!PreOrder R}.

Lemma always_ignore_exists (m : M unit) : always R m -> always R (ignore_exists m).
Proof.
  intros Hm w. specialize (Hm w). unfold ignore_exists.
  by destruct (m w) as [[[]|[]] w'].
Qed.

Lemma always_path_exists p : always R (path_exists p).
Proof. unfold path_exists. always_auto. Qed.

Lemma always_path_isfile p : always R (path_isfile p).
Proof. unfold path_isfile. always_auto. Qed.

Lemma always_path_isdir p : always R (path_isdir p).
Proof. unfold path_isdir. always_auto. Qed.

Lemma always_read_file p : always R (read_file p).
Proof. unfold read_file. always_auto. Qed.

Lemma always_makedirs :
  (forall p, always R (os_mkdir p)) ->
  forall name, always R (os_makedirs name).
Proof.
  intros Hmk name. unfold os_makedirs. generalize (String.length name) as fuel.
  intros fuel. revert name. induction fuel as [|fuel IH]; intros name; simpl; [done|].
  destruct (os_path.split name) as [head tail].
  destruct (if String.eqb tail "" then _ else _) as [h t].
  always_auto. apply always_ignore_exists, IH.
Qed.

Lemma always_urlretrieve E url p hook :
  always R (emit (EvRequest url)) ->
  always R (create_file p) ->
  (forall blk, always R (append_file p blk)) ->
  (forall h, hook = Some h -> forall a b c, always R (h a b c)) ->
  always R (urlretrieve E url p hook).
Proof.
  intros He Hc Ha Hh. unfold urlretrieve.
  apply always_bind; [done | apply (always_read R) | intros n].
  apply always_bind; [done | done | intros _].
  destruct (remote E n url) as [fp|]; [|by apply always_raise].
  assert (forall i, always R
            (match hook with
             | Some h => h i (1024 * 8) (default (-1) (content_length fp))
             | None => ret tt
             end)) as Hcall.
  { intros i. destruct hook; [by eapply Hh | by apply always_ret]. }
  always_auto.
Qed.

Lemma always_extractall `{zipfile : ZipLib} zip dest :
  always R (emit (EvExtract zip dest)) ->
  (forall p, always R (os_mkdir p)) ->
  (forall name, always R (create_file (dest +:+ "/" +:+ name))) ->
  (forall name blk, always R (append_file (dest +:+ "/" +:+ name) blk)) ->
  always R (extractall zip dest).
Proof.
  intros He Hmk Hc Ha. unfold extractall.
  apply always_bind; [done | apply always_read_file | intros data].
  destruct (zip_members data) as [ms|]; [|by apply always_raise].
  apply always_bind; [done | done | intros _].
  apply always_for_each; [done|]. intros [name content]. unfold extract_member.
  apply always_bind; [done | apply always_path_exists | intros e].
  apply always_bind; [done | apply always_when; [done | by apply always_makedirs] | intros _].
  destruct content.
  - by apply always_bind.
  - apply always_bind; [done | apply always_path_isdir | intros d].
    by apply always_when.
Qed.

End Library.

Create HintDb kinds.
#[global] Hint Extern 1 (_ ∈ _) => kinds_incl : kinds.
#[global] Hint Resolve read_file_kinds create_file_kinds append_file_kinds
  os_remove_kinds shutil_rmtree_kinds os_mkdir_kinds always_emit_kinds
  always_put_fs_kinds : kinds.

Ltac kinds_solve :=
  repeat first
    [ always_step
    | kinds_leaf
    | solve [eauto with kinds]
    | apply always_path_exists; apply _
    | apply always_path_isdir; apply _
    | apply always_path_isfile; apply _ ].

Section Kinds.

Context {hashlib : HashLib} {ElementTree : XmlLib} {zipfile : ZipLib}.
Variable E : Env.
Variable ks : list kind.

Lemma log_kinds message args : KErr ∈ ks -> always (emits_kinds ks) (log message args).
Proof. intros. unfold log. kinds_solve. Qed.

Lemma reporthook_kinds a b c :
  KOut ∈ ks -> KFlush ∈ ks -> always (emits_kinds ks) (reporthook E a b c).
Proof. intros. unfold reporthook. kinds_solve. Qed.

Lemma os_makedirs_kinds name : KMkdir ∈ ks -> always (emits_kinds ks) (os_makedirs name).
Proof. intros. apply always_makedirs; [apply _|]. intros p. by apply os_mkdir_kinds. Qed.

Lemma urlretrieve_kinds url p hook :
  KRequest ∈ ks -> KCreate ∈ ks ->
  (forall h, hook = Some h -> forall a b c, always (emits_kinds ks) (h a b c)) ->
  always (emits_kinds ks) (urlretrieve E url p hook).
Proof.
  intros. apply always_urlretrieve; [apply _ | | | | done]; intros; kinds_solve.
Qed.

Lemma extractall_kinds zip dest :
  KExtract ∈ ks -> KMkdir ∈ ks -> KCreate ∈ ks ->
  always (emits_kinds ks) (extractall zip dest).
Proof. intros. apply always_extractall; [apply _ | ..]; intros; kinds_solve. Qed.

Lemma check_call_kinds args : KCall ∈ ks -> always (emits_kinds ks) (check_call E args).
Proof. intros. unfold check_call. kinds_solve. Qed.

Hint Resolve log_kinds reporthook_kinds os_makedirs_kinds urlretrieve_kinds
  extractall_kinds check_call_kinds : kinds.

Lemma is_good_file_kinds p : KErr ∈ ks -> always (emits_kinds ks) (is_good_file p).
Proof. intros. unfold is_good_file, is_good_file_with. kinds_solve. Qed.

Lemma get_seed_files_kinds dl cldr :
  KMkdir ∈ ks -> KErr ∈ ks -> KRequest ∈ ks -> KCreate ∈ ks ->
  always (emits_kinds ks) (get_seed_files E dl cldr).
Proof.
  intros. unfold get_seed_files, mirror_seed_files, ElementTree_parse. kinds_solve.
  all: apply urlretrieve_kinds; done.
Qed.

Lemma unpack_kinds changed :
  KErr ∈ ks -> KRmtree ∈ ks -> KExtract ∈ ks -> KMkdir ∈ ks -> KCreate ∈ ks ->
  always (emits_kinds ks) (unpack E changed).
Proof. intros. unfold unpack. kinds_solve. Qed.

End Kinds.

(** ** Reading in blocks *)

Lemma read_blocks_step bs rest :
  read_blocks bs rest =
  match file_read bs rest with
  | ([], _) => []
  | (blk, rest') => blk :: read_blocks bs rest'
  end.
Proof.
  rewrite read_blocks_equation_1.
  destruct (inspect (file_read bs rest)) as [[[|b blk] rest'] Heq];
    simp read_blocks; rewrite Heq; [done|].
  by rewrite (read_blocks_equation_1 bs rest').
Qed.

Lemma hash_blocks_step {hashlib : HashLib} bs (h : hash_obj) rest :
  hash_blocks bs h rest =
  match file_read bs rest with
  | ([], _) => h
  | (blk, rest') => hash_blocks bs (update h blk) rest'
  end.
Proof.
  rewrite hash_blocks_equation_1.
  destruct (inspect (file_read bs rest)) as [[[|b blk] rest'] Heq];
    simp hash_blocks; rewrite Heq; [done|].
  by rewrite (hash_blocks_equation_1 bs _ rest').
Qed.

(** A read with a block size other than zero takes something off a file
    that is not at its end. *)
Lemma file_read_progress bs rest blk rest' :
  bs <> 0 -> file_read bs rest = (blk, rest') ->
  rest = blk ++ rest' /\ (blk = [] -> rest = []) /\
  (blk <> [] -> (length rest' < length rest)%nat).
Proof.
  intros Hbs. unfold file_read. destruct (bs <? 0) eqn:Hneg.
  - intros [= <- <-]. rewrite app_nil_r. split; [done|]. split; [done|].
    intros Hne. destruct rest; [done | simpl; lia].
  - apply Z.ltb_ge in Hneg. intros [= <- <-]. rewrite take_drop.
    split; [done|]. assert (0 < Z.to_nat bs)%nat as Hpos by lia.
    split.
    + destruct rest; [done|]. destruct (Z.to_nat bs); [lia | done].
    + intros Hne. rewrite length_drop. destruct rest; [|simpl; lia].
      by rewrite take_nil in Hne.
Qed.

(** The blocks read are the file, cut up. *)
Lemma read_blocks_concat bs rest : bs <> 0 -> concat (read_blocks bs rest) = rest.
Proof.
  intros Hbs. remember (length rest) as n eqn:Hn. revert rest Hn.
  induction n as [n IH] using lt_wf_ind. intros rest ->.
  rewrite read_blocks_step.
  destruct (file_read bs rest) as [blk rest'] eqn:Hr.
  destruct (file_read_progress _ _ _ _ Hbs Hr) as (Hrest & Hnil & Hlt).
  destruct blk as [|b blk]; [by rewrite Hnil|].
  simpl. rewrite (IH (length rest')); [by rewrite Hrest | by apply Hlt | done].
Qed.

(** The digest loop feeds the hash object the blocks read, in order. *)
Lemma hash_blocks_fold {hashlib : HashLib} bs (h : hash_obj) rest :
  bs <> 0 -> hash_blocks bs h rest = fold_left update (read_blocks bs rest) h.
Proof.
  intros Hbs. remember (length rest) as n eqn:Hn. revert rest h Hn.
  induction n as [n IH] using lt_wf_ind. intros rest h ->.
  rewrite hash_blocks_step, read_blocks_step.
  destruct (file_read bs rest) as [blk rest'] eqn:Hr.
  destruct (file_read_progress _ _ _ _ Hbs Hr) as (Hrest & Hnil & Hlt).
  destruct blk as [|b blk]; [done|].
  simpl. by apply (IH (length rest')); [apply Hlt|].
Qed.

(** ** The verification step and the loop around it *)

Section Verify.

Context {hashlib : HashLib}.
Variable E : Env.

Lemma is_good_file_with_eq blksize p w :
  is_good_file_with blksize p w =
  match fs w !! p with
  | Some (File d) =>
      if String.eqb (digest_with blksize d) FILESUM then (Ok true, w)
      else (Raise (RuntimeError (mismatch_message (digest_with blksize d))), w)
  | _ => (Ok false, mkWorld (fs w) (trace w ++ [not_found_line p]))
  end.
Proof.
  unfold is_good_file_with, path_isfile, isfile, read_file, digest_with.
  rewrite !run_bind. simpl.
  destruct (fs w !! p) as [[d|]|] eqn:Hp; simpl; rewrite ?run_bind; simpl;
    rewrite ?Hp; simpl; try reflexivity.
  destruct (String.eqb _ FILESUM); reflexivity.
Qed.

Lemma is_good_file_eq p w :
  is_good_file p w =
  match fs w !! p with
  | Some (File d) =>
      if String.eqb (digest_of d) FILESUM then (Ok true, w)
      else (Raise (RuntimeError (mismatch_message (digest_of d))), w)
  | _ => (Ok false, mkWorld (fs w) (trace w ++ [not_found_line p]))
  end.
Proof. apply is_good_file_with_eq. Qed.

Lemma main_loop_step zip changed w :
  main_loop E zip changed w =
  match is_good_file zip w with
  | (Raise e, w1) => (Raise e, w1)
  | (Ok true, w1) => (Ok changed, w1)
  | (Ok false, w1) =>
      match fetch_archive E zip w1 with
      | (Raise e, w2) => (Raise e, w2)
      | (Ok _, w2) => main_loop E zip true w2
      end
  end.
Proof.
  rewrite main_loop_equation_1.
  destruct (inspect (is_good_file zip w)) as [[[[]|e] w1] Heq];
    simp main_loop;
    (symmetry; etrans; [rewrite Heq; reflexivity|]; symmetry); try reflexivity.
  destruct (inspect (fetch_archive E zip w1)) as [[[[]|e] w2] Heq2];
    simp main_loop;
    (symmetry; etrans; [rewrite Heq2; reflexivity|]; symmetry); try reflexivity.
  by rewrite main_loop_equation_1.
Qed.

End Verify.

(** ** Downloads *)

Lemma quiet_None ks : quiet ks None.
Proof. by intros h. Qed.

Lemma quiet_reporthook E : quiet [KOut; KFlush] (Some (reporthook E)).
Proof.
  intros h [= <-] a b c. split; [apply reporthook_same_fs|].
  apply reporthook_kinds; kinds_incl.
Qed.

Lemma quiet_mono ks ks' hook : ks ⊆ ks' -> quiet ks hook -> quiet ks' hook.
Proof.
  intros Hks Hq h Hh a b c. destruct (Hq h Hh a b c) as [H1 H2]. split; [done|].
  intros w. eapply emits_kinds_mono; [exact Hks | apply H2].
Qed.

Lemma quiet_reporthook_download E : quiet download_kinds (Some (reporthook E)).
Proof. eapply quiet_mono; [|apply quiet_reporthook]. kinds_incl. Qed.

Lemma append_file_Ok p blk w w' :
  append_file p blk w = (Ok tt, w') ->
  exists d, fs w !! p = Some (File d) /\
            w' = mkWorld (<[p := File (d ++ blk)]> (fs w)) (trace w).
Proof.
  unfold append_file. rewrite run_bind. simpl.
  destruct (fs w !! p) as [[d|]|]; [|done..]. intros [= <-]. eauto.
Qed.

Lemma create_file_Ok_eq p w w' :
  create_file p w = (Ok tt, w') ->
  isdir (fs w) (os_path.dirname p) = true /\ isdir (fs w) p = false /\
  w' = mkWorld (<[p := File []]> (fs w)) (trace w ++ [EvCreate p]).
Proof.
  unfold create_file. rewrite run_bind. simpl.
  assert (fs w !! p <> Some Dir -> isdir (fs w) p = false) as Hnd.
  { unfold isdir. by destruct (fs w !! p) as [[d|]|]. }
  destruct (fs w !! p) as [[d|]|]; [| done |];
    (destruct (isdir (fs w) (os_path.dirname p)); [|done]);
    intros [= <-]; by rewrite Hnd.
Qed.

Lemma imap_snd {A} (l : list A) (g : nat -> Z) :
  map snd (imap (fun i x => (g i, x)) l) = l.
Proof.
  revert g. induction l as [|x l IH]; intros g; [done|].
  simpl. f_equal. apply (IH (g ∘ S)).
Qed.

Section Download.

Variable E : Env.

Lemma write_blocks_Ok p (call : Z -> M unit) l w w' d0 :
  (forall i, always same_fs (call i)) ->
  fs w !! p = Some (File d0) ->
  for_each l (fun '(i, blk) => append_file p blk;; call i) w = (Ok tt, w') ->
  fs w' = <[p := File (d0 ++ concat (map snd l))]> (fs w).
Proof.
  intros Hcall. revert w d0. induction l as [|[i blk] l IH]; intros w d0 Hp; simpl.
  - intros [= <-]. by rewrite app_nil_r, insert_id.
  - intros ([] & w1 & H1 & H2)%bind_Ok_inv.
    apply bind_Ok_inv in H1 as ([] & wa & (d & Hd & ->)%append_file_Ok & Hc).
    pose proof (Hcall i (mkWorld (<[p:=File (d ++ blk)]> (fs w)) (trace w))) as Hsame.
    rewrite Hc in Hsame. unfold same_fs in Hsame.
    simpl in Hsame. rewrite Hp in Hd. injection Hd as <-.
    rewrite (IH w1 (d0 ++ blk)); [| by rewrite Hsame, lookup_insert_eq | done].
    by rewrite Hsame, insert_insert_eq, app_assoc.
Qed.

(** A download that returns has asked the server once and left the body at
    the file name. *)
Lemma urlretrieve_Ok ks url p hook w w' :
  quiet ks hook ->
  urlretrieve E url p hook w = (Ok tt, w') ->
  exists fp, remote E (length (requests (trace w))) url = Some fp /\
             isdir (fs w) (os_path.dirname p) = true /\
             fs w' = <[p := File (body fp)]> (fs w).
Proof.
  intros Hq. unfold urlretrieve.
  intros (n & w1 & [= <- <-] & H)%bind_Ok_inv.
  apply bind_Ok_inv in H as ([] & w2 & [= <-] & H).
  destruct (remote E _ url) as [fp|]; [|done]. exists fp. split; [done|].
  apply bind_Ok_inv in H as ([] & w3 & (Hdir & _ & ->)%create_file_Ok_eq & H).
  split; [done|]. simpl in *.
  pose (call := fun i : Z =>
         match hook with
         | Some h => h i (1024 * 8) (default (-1) (content_length fp))
         | None => ret tt
         end).
  assert (forall i, always same_fs (call i)) as Hcall.
  { intros i. unfold call. destruct hook as [h|]; [by apply Hq | by intros ?]. }
  apply bind_Ok_inv in H as ([] & w4 & H4 & H).
  apply bind_Ok_inv in H as ([] & w5 & H5 & H).
  match type of H4 with _ ?w3 = _ => pose proof (Hcall 0 w3) as H34 end.
  unfold call in H34. rewrite H4 in H34. unfold same_fs in H34.
  simpl in H34.
  apply (write_blocks_Ok p call _ w4 w5 []) in H5;
    [| done | by rewrite H34, lookup_insert_eq].
  rewrite imap_snd, read_blocks_concat in H5 by lia.
  destruct (_ && _); [done|]. injection H as <-.
  by rewrite H5, H34, insert_insert_eq.
Qed.

(** Whatever its outcome, a download asks the server once, first. *)
Lemma urlretrieve_trace ks url p hook w :
  KCreate ∈ ks -> quiet ks hook ->
  exists evs, trace (urlretrieve E url p hook w).2 = trace w ++ EvRequest url :: evs /\
              Forall (fun e => kind_of e ∈ ks) evs.
Proof.
  intros Hk Hq. unfold urlretrieve. rewrite !run_bind. simpl.
  set (w1 := mkWorld (fs w) (trace w ++ [EvRequest url])).
  match goal with |- context [?m w1] =>
    assert (always (emits_kinds ks) m) as Hm end.
  { destruct (remote E _ url) as [fp|]; [|apply always_raise; apply _].
    kinds_solve; try apply (Hq _ eq_refl). }
  destruct (Hm w1) as (evs & Ht & Hf). exists evs. split; [|done].
  rewrite Ht. simpl. by rewrite <- app_assoc.
Qed.

Lemma urlretrieve_requests ks url p hook w :
  KCreate ∈ ks -> KRequest ∉ ks -> quiet ks hook ->
  requests (trace (urlretrieve E url p hook w).2)
  = requests (trace w) ++ [EvRequest url].
Proof.
  intros Hk Hn Hq. destruct (urlretrieve_trace ks url p hook w Hk Hq) as (evs & -> & Hf).
  rewrite requests_app. f_equal. simpl. f_equal.
  induction Hf as [|e evs He _ IH]; [done|]. simpl.
  destruct e; simpl in *; done.
Qed.

Lemma urlretrieve_touches ks url p hook :
  quiet ks hook -> always (touches p) (urlretrieve E url p hook).
Proof.
  intros Hq. apply always_urlretrieve; [apply _ | | | | ].
  - intros w. by apply same_fs_touches.
  - apply create_file_touches.
  - apply append_file_touches.
  - intros h Hh a b c w. apply same_fs_touches. by apply Hq.
Qed.


End Download.

(** ** The paths of the script *)

Lemma endswith_sep_snoc a x :
  x <> os_path.sep -> PyStr.endswith "/" (a +:+ String x "") = false.
Proof.
  intros Hx. unfold PyStr.endswith. rewrite rev_snoc.
  change (PyStr.rev "/") with (String os_path.sep "").
  unfold String.prefix. destruct (ascii_dec os_path.sep x); [congruence | done].
Qed.

(** Joining a plain name to a path that does not end in a separator. *)
Lemma join_snoc a x b :
  x <> os_path.sep -> PyStr.startswith "/" b = false ->
  os_path.join (a +:+ String x "") b = (a +:+ String x "") +:+ "/" +:+ b.
Proof.
  intros Hx Hb. unfold os_path.join. rewrite Hb, endswith_sep_snoc by done.
  assert ((a +:+ String x "" =? "")%string = false) as ->; [|done].
  apply String.eqb_neq, append_not_nil.
Qed.

Lemma prefix_app_head a u v : String.prefix (a +:+ u) (a +:+ v) = String.prefix u v.
Proof.
  induction a as [|x a IH]; [done|]. rewrite !append_cons. simpl.
  destruct (ascii_dec x x); [done | congruence].
Qed.

Section Paths.

Variable E : Env.

Lemma cldr_dl_path_shape : exists a, cldr_dl_path E = a +:+ String "r" "".
Proof.
  unfold cldr_dl_path, os_path.join.
  assert (PyStr.startswith "/" "cldr" = false) as -> by done.
  destruct (_ || _).
  - exists (repo E +:+ "cld"). by rewrite append_assoc.
  - exists (repo E +:+ "/cld"). by rewrite append_assoc.
Qed.

Lemma cldr_path_eq : cldr_path E = cldr_dl_path E +:+ "/core-31.0.1".
Proof.
  destruct cldr_dl_path_shape as [a Ha]. unfold cldr_path. simpl.
  fold (cldr_dl_path E). rewrite Ha.
  change (os_path.splitext FILENAME).1 with "core-31.0.1".
  by rewrite join_snoc.
Qed.

Lemma zip_path_eq : zip_path E = cldr_dl_path E +:+ "/core-31.0.1.zip".
Proof.
  destruct cldr_dl_path_shape as [a Ha]. unfold zip_path. rewrite Ha.
  by rewrite join_snoc.
Qed.

Lemma cldr_path_shape : exists a, cldr_path E = a +:+ String "1" "".
Proof.
  rewrite cldr_path_eq. exists (cldr_dl_path E +:+ "/core-31.0."). by rewrite append_assoc.
Qed.

Lemma common_path_eq : common_path E = cldr_path E +:+ "/common".
Proof.
  destruct cldr_path_shape as [a Ha]. unfold common_path. rewrite Ha.
  by rewrite join_snoc.
Qed.

Lemma seed_path_eq : seed_path E = cldr_path E +:+ "/seed/main".
Proof.
  destruct cldr_path_shape as [a Ha]. unfold seed_path. simpl. rewrite Ha.
  rewrite join_snoc by done.
  replace ((a +:+ String "1" "") +:+ "/" +:+ "seed")
    with ((a +:+ "1/see") +:+ String "d" "") by (by rewrite !append_assoc).
  rewrite join_snoc by done. by rewrite !append_assoc.
Qed.

(** The archive is not inside the directory it is unpacked into. *)
Lemma zip_not_below_cldr : below (cldr_path E) (zip_path E) = false.
Proof.
  unfold below. rewrite cldr_path_eq, zip_path_eq, append_assoc.
  by rewrite prefix_app_head.
Qed.

Lemma zip_not_extracted name : zip_path E <> cldr_path E +:+ "/" +:+ name.
Proof.
  intros Heq. pose proof zip_not_below_cldr as Hb. unfold below in Hb.
  rewrite Heq, <- append_assoc, prefix_app in Hb. done.
Qed.

Lemma zip_not_common : zip_path E <> common_path E.
Proof. rewrite common_path_eq. apply zip_not_extracted. Qed.

Lemma zip_not_below_common : below (common_path E) (zip_path E) = false.
Proof.
  apply not_true_is_false. intros Hb. pose proof zip_not_below_cldr as Hc.
  unfold below in *. rewrite common_path_eq in Hb.
  apply prefix_inv in Hb as [c Hc'].
  rewrite (prefix_of_eq _ _ ("common" +:+ "/" +:+ c)) in Hc; [done|].
  rewrite Hc'. by rewrite !append_assoc.
Qed.




End Paths.

(** ** The loop of [main] *)

Section Loop.

Context {hashlib : HashLib}.
Variable E : Env.

(** With no file in the way nothing is removed. *)
Lemma fetch_archive_absent zip w :
  isfile (fs w) zip = false ->
  fetch_archive E zip w =
  (log "Downloading '%s'" [FILENAME];;
   urlretrieve E URL zip (Some (reporthook E));;
   sys_write Stdout nl) w.
Proof.
  intros Hz. unfold fetch_archive, path_isfile.
  repeat (rewrite run_bind; simpl). by rewrite Hz.
Qed.

Lemma fetch_archive_absent_eq zip w :
  isfile (fs w) zip = false ->
  fetch_archive E zip w =
  match urlretrieve E URL zip (Some (reporthook E))
          (mkWorld (fs w) (trace w ++ [downloading_line])) with
  | (Ok _, w2) => (Ok tt, mkWorld (fs w2) (trace w2 ++ [EvWrite Stdout nl]))
  | (Raise e, w2) => (Raise e, w2)
  end.
Proof.
  intros Hz. rewrite fetch_archive_absent by done.
  assert (log "Downloading '%s'" [FILENAME] w
          = (Ok tt, mkWorld (fs w) (trace w ++ [downloading_line]))) as Hlog by done.
  rewrite run_bind, Hlog, run_bind.
  by destruct (urlretrieve _ _ _ _ _) as [[[]|e] w2].
Qed.

Lemma main_loop_present zip changed w d :
  fs w !! zip = Some (File d) ->
  main_loop E zip changed w =
  if String.eqb (digest_of d) FILESUM then (Ok changed, w)
  else (Raise (RuntimeError (mismatch_message (digest_of d))), w).
Proof.
  intros Hz. rewrite main_loop_step, is_good_file_eq, Hz.
  by destruct (String.eqb _ _).
Qed.

Lemma main_loop_absent zip changed w :
  isfile (fs w) zip = false ->
  main_loop E zip changed w =
  match fetch_archive E zip (mkWorld (fs w) (trace w ++ [not_found_line zip])) with
  | (Raise e, w2) => (Raise e, w2)
  | (Ok _, w2) =>
      match is_good_file zip w2 with
      | (Ok _, w3) => (Ok true, w3)
      | (Raise e, w3) => (Raise e, w3)
      end
  end.
Proof.
  intros Hz. rewrite main_loop_step, is_good_file_eq.
  assert (match fs w !! zip with
          | Some (File d) =>
              if String.eqb (digest_of d) FILESUM then (Ok true, w)
              else (Raise (RuntimeError (mismatch_message (digest_of d))), w)
          | _ => (Ok false, mkWorld (fs w) (trace w ++ [not_found_line zip]))
          end = (Ok false, mkWorld (fs w) (trace w ++ [not_found_line zip]))) as ->.
  { unfold isfile in Hz. by destruct (fs w !! zip) as [[]|]. }
  destruct (fetch_archive E zip _) as [[[]|e] w2] eqn:Hf; [|done].
  apply fetch_archive_Ok_isfile in Hf. unfold isfile in Hf.
  destruct (fs w2 !! zip) as [[d|]|] eqn:Hd; try done.
  rewrite (main_loop_present zip true w2 d Hd), is_good_file_eq, Hd.
  by destruct (String.eqb _ _).
Qed.

(** A relation that the verification and a fetch into a free place
    satisfy is satisfied by the loop. *)
Lemma always_main_loop (R : relation World) `{!PreOrder R} zip changed :
  always R (is_good_file zip) ->
  (forall w, isfile (fs w) zip = false -> R w (fetch_archive E zip w).2) ->
  always R (main_loop E zip changed).
Proof.
  intros Hg Hf w. destruct (isfile (fs w) zip) eqn:Hz.
  - rewrite main_loop_step. specialize (Hg w). pose proof (is_good_file_eq zip w) as Heq.
    unfold isfile in Hz. destruct (fs w !! zip) as [[d|]|]; try done.
    destruct (String.eqb _ _); rewrite Heq in *; exact Hg.
  - rewrite main_loop_absent by done.
    pose proof (Hg w) as Hw. rewrite is_good_file_eq in Hw.
    assert (R w (mkWorld (fs w) (trace w ++ [not_found_line zip]))) as Hw1.
    { unfold isfile in Hz. by destruct (fs w !! zip) as [[]|]. }
    specialize (Hf (mkWorld (fs w) (trace w ++ [not_found_line zip])) Hz).
    destruct (fetch_archive E zip _) as [[[]|e] w2]; simpl in Hf; [|by etrans].
    specialize (Hg w2).
    destruct (is_good_file zip w2) as [[b|e] w3]; simpl in *;
      (etrans; [exact Hw1 | etrans; [exact Hf | exact Hg]]).
Qed.

Lemma main_loop_kinds ks zip changed :
  KErr ∈ ks -> KRequest ∈ ks -> KCreate ∈ ks -> KOut ∈ ks -> KFlush ∈ ks ->
  always (emits_kinds ks) (main_loop E zip changed).
Proof.
  intros. apply always_main_loop; [apply _ | by apply is_good_file_kinds |].
  intros w Hz. rewrite fetch_archive_absent by done.
  revert w Hz. 
  assert (always (emits_kinds ks)
            (log "Downloading '%s'" [FILENAME];;
             urlretrieve E URL zip (Some (reporthook E));;
             sys_write Stdout nl)) as Ha; [|by intros w _].
  kinds_solve; [by apply log_kinds|].
  apply urlretrieve_kinds; [done..|]. intros h [= <-] x y z.
  by apply reporthook_kinds.
Qed.

End Loop.

(** ** What each part of [main] does to the file system *)

Lemma always_guard_bind {B} (R : relation World) `{!PreOrder R} p (m : M unit) (k : M B) :
  (forall w, exists_ (fs w) p = false -> R w (m w).2) ->
  always R k ->
  always R (e ← path_exists p; when (negb e) m;; k).
Proof.
  intros Hm Hk w. unfold path_exists. repeat (rewrite run_bind; simpl).
  destruct (exists_ (fs w) p) eqn:He; simpl; [apply Hk|].
  specialize (Hm w He). destruct (m w) as [[[]|e] w1]; simpl in *; [|done].
  etrans; [exact Hm | apply Hk].
Qed.

Lemma always_guard (R : relation World) `{!PreOrder R} p (m : M unit) :
  (forall w, exists_ (fs w) p = false -> R w (m w).2) ->
  always R (e ← path_exists p; when (negb e) m).
Proof.
  intros Hm w. unfold path_exists. repeat (rewrite run_bind; simpl).
  destruct (exists_ (fs w) p) eqn:He; simpl; [reflexivity | by apply Hm].
Qed.

Lemma keeps_mono (S S' : string -> Prop) w w' :
  (forall q, S q -> S' q) -> keeps S w w' -> keeps S' w w'.
Proof. intros HS H q n Hq. apply H. auto. Qed.

Lemma touches_keeps (S : string -> Prop) p w w' : S p -> touches p w w' -> keeps S w w'.
Proof. intros Hp H q n Hq Hn. rewrite H; [done|]. by intros ->. Qed.

Lemma touches_absent_adds_only p w w' :
  exists_ (fs w) p = false -> touches p w w' -> adds_only w w'.
Proof.
  unfold exists_. intros Hp H q n _ Hn. rewrite H; [done|]. intros ->.
  by rewrite Hn in Hp.
Qed.

Lemma keeps_kept (S : string -> Prop) q w w' : ~ S q -> keeps S w w' -> kept q w w'.
Proof. intros Hq H n. by apply H. Qed.

Lemma os_makedirs_adds_only name : always adds_only (os_makedirs name).
Proof. apply always_makedirs; [apply _ | apply os_mkdir_adds_only]. Qed.



Lemma log_touches p message args : always (touches p) (log message args).
Proof. intros w. apply same_fs_touches, log_same_fs. Qed.

Section Parts.

Context {hashlib : HashLib} {ElementTree : XmlLib} {zipfile : ZipLib}.
Variable E : Env.


Lemma is_good_file_same_fs p : always same_fs (is_good_file p).
Proof.
  unfold is_good_file, is_good_file_with, path_isfile, read_file. always_auto.
Qed.

(** *** Unpacking stays below the extraction root *)

Lemma extractall_keeps dest zip :
  always (keeps (fun q => below dest q = true)) (extractall zip dest).
Proof.
  apply always_extractall; [apply _ | ..].
  - intros w q n _. done.
  - intros p w. eapply keeps_mono; [|apply os_mkdir_adds_only]. done.
  - intros name w. eapply touches_keeps; [|apply create_file_touches].
    unfold below. rewrite <- append_assoc. apply prefix_app.
  - intros name blk w. eapply touches_keeps; [|apply append_file_touches].
    unfold below. rewrite <- append_assoc. apply prefix_app.
Qed.


Lemma below_common_cldr q :
  q = common_path E \/ below (common_path E) q = true -> below (cldr_path E) q = true.
Proof.
  unfold below. rewrite common_path_eq. intros [->|Hb].
  - apply (prefix_of_eq _ _ "common"). by rewrite append_assoc.
  - eapply prefix_trans; [|exact Hb].
    apply (prefix_of_eq _ _ "common/"). by rewrite !append_assoc.
Qed.

Lemma unpack_keeps changed :
  always (keeps (fun q => below (cldr_path E) q = true)) (unpack E changed).
Proof.
  unfold unpack. always_auto; try apply always_path_isdir; try apply _.
  - intros w. eapply keeps_mono; [|apply same_fs_adds_only, log_same_fs]. done.
  - intros w. eapply keeps_mono; [|apply shutil_rmtree_keeps]. apply below_common_cldr.
  - intros w. eapply keeps_mono; [|apply same_fs_adds_only, log_same_fs]. done.
  - apply extractall_keeps.
Qed.

Lemma unpack_kept_zip changed : always (kept (zip_path E)) (unpack E changed).
Proof.
  intros w. eapply keeps_kept; cycle 1; [apply unpack_keeps|].
  simpl. by rewrite zip_not_below_cldr.
Qed.


(** *** The seed mirror only adds *)

Lemma fetch_new_adds_only message args url p w :
  exists_ (fs w) p = false ->
  adds_only w ((log message args;; urlretrieve E url p None) w).2.
Proof.
  intros Hp. apply (touches_absent_adds_only p); [done|].
  revert w Hp. 
  assert (always (touches p) (log message args;; urlretrieve E url p None)) as H;
    [|by intros w _].
  apply always_bind; [apply _ | apply log_touches | intros _].
  apply (urlretrieve_touches E []), quiet_None.
Qed.


Lemma get_seed_files_adds_only dl cldr : always adds_only (get_seed_files E dl cldr).
Proof.
  unfold get_seed_files.
  apply always_guard_bind; [apply _ | intros w _; apply os_makedirs_adds_only |].
  apply always_guard_bind; [apply _ | intros w; apply fetch_new_adds_only |].
  unfold mirror_seed_files, ElementTree_parse.
  apply always_bind; [apply _ | | intros html].
  { apply always_bind; [apply _ | apply always_read_file; apply _ | intros data].
    always_auto. }
  apply always_bind; [apply _ | apply always_lift; apply _ | intros seed_xmls].
  apply always_for_each; [apply _ | intros xml_name].
  apply always_guard; [apply _ | intros w; apply fetch_new_adds_only].
Qed.


(** *** The loop *)



End Parts.

(** ** Runs of [main] *)

Lemma new_events_app w w' evs : trace w' = trace w ++ evs -> new_events w w' = evs.
Proof. intros Ht. unfold new_events. by rewrite Ht, drop_app_length. Qed.

Lemma emits_new_events P w w' :
  emits P w w' -> trace w' = trace w ++ new_events w w' /\ Forall P (new_events w w').
Proof. intros (evs & Ht & Hf). by rewrite (new_events_app _ _ _ Ht). Qed.

Lemma new_events_trans w1 w2 w3 :
  (exists e1, trace w2 = trace w1 ++ e1) -> (exists e2, trace w3 = trace w2 ++ e2) ->
  new_events w1 w3 = new_events w1 w2 ++ new_events w2 w3.
Proof.
  intros [e1 H1] [e2 H2].
  rewrite (new_events_app _ _ _ H1), (new_events_app _ _ _ H2).
  apply new_events_app. by rewrite H2, H1, app_assoc.
Qed.

Section Runs.

Context {hashlib : HashLib} {ElementTree : XmlLib} {zipfile : ZipLib}.
Variable E : Env.

Lemma main_eq w :
  main E w = match main_loop E (zip_path E) false w with
             | (Ok changed, w1) => after_loop E changed w1
             | (Raise e, w1) => (Raise e, w1)
             end.
Proof. reflexivity. Qed.

Lemma before_call_kinds ks changed :
  kinds_before_call ⊆ ks ->
  always (emits_kinds ks)
    (unpack E changed;; get_seed_files E (cldr_dl_path E) (cldr_path E)).
Proof.
  intros Hks. apply always_bind; [apply _ | | intros _].
  - apply unpack_kinds; apply Hks; kinds_incl.
  - apply get_seed_files_kinds; apply Hks; kinds_incl.
Qed.

Lemma after_loop_kinds ks changed :
  kinds_before_call ⊆ ks -> KCall ∈ ks -> always (emits_kinds ks) (after_loop E changed).
Proof.
  intros Hks Hc. unfold after_loop.
  apply always_bind; [apply _ | | intros _].
  - apply unpack_kinds; apply Hks; kinds_incl.
  - apply always_bind; [apply _ | | intros _].
    + apply get_seed_files_kinds; apply Hks; kinds_incl.
    + by apply check_call_kinds.
Qed.

Lemma main_kinds ks : kinds_but_remove ⊆ ks -> always (emits_kinds ks) (main E).
Proof.
  intros Hks. unfold main. apply always_bind; [apply _ | | intros changed].
  - apply main_loop_kinds; apply Hks; kinds_incl.
  - apply after_loop_kinds; [|apply Hks; kinds_incl].
    intros k Hk. apply Hks. revert k Hk. kinds_incl.
Qed.

(** An error of the verification ends the run. *)
Lemma main_aborts w e w' :
  is_good_file (zip_path E) w = (Raise e, w') -> main E w = (Raise e, w').
Proof. intros Hg. by rewrite main_eq, main_loop_step, Hg. Qed.

(** With no archive at hand the run starts by asking the server for one. *)
Lemma main_absent_trace w :
  isfile (fs w) (zip_path E) = false ->
  exists rest,
    trace (main E w).2
    = trace w ++ [not_found_line (zip_path E); downloading_line; EvRequest URL] ++ rest.
Proof.
  intros Hz. rewrite main_eq, main_loop_absent by done.
  rewrite fetch_archive_absent_eq by done. simpl.
  destruct (urlretrieve_trace E [KCreate; KOut; KFlush] URL (zip_path E)
              (Some (reporthook E))
              (mkWorld (fs w) ((trace w ++ [not_found_line (zip_path E)])
                               ++ [downloading_line])))
    as (evs & Ht & _); [kinds_incl | |].
  { intros h Hh a b c. destruct (quiet_reporthook E h Hh a b c) as [H1 H2].
    split; [done|]. intros w0. eapply emits_kinds_mono; [|apply H2]. kinds_incl. }
  simpl in Ht.
  destruct (urlretrieve E URL (zip_path E) _ _) as [[[]|e] w2].
  - destruct (is_good_file_kinds kinds_but_remove (zip_path E) ltac:(kinds_incl)
                (mkWorld (fs w2) (trace w2 ++ [EvWrite Stdout nl])))
      as (ev3 & Ht3 & _).
    destruct (is_good_file (zip_path E) _) as [[b|e] w3]; simpl in *.
    + destruct (after_loop_kinds kinds_but_remove true ltac:(kinds_incl)
                  ltac:(kinds_incl) w3) as (ev4 & Ht4 & _).
      exists (evs ++ [EvWrite Stdout nl] ++ ev3 ++ ev4).
      rewrite Ht4, Ht3, Ht. by rewrite <- !app_assoc.
    + exists (evs ++ [EvWrite Stdout nl] ++ ev3). rewrite Ht3, Ht.
      by rewrite <- !app_assoc.
  - exists evs. simpl in *. rewrite Ht. by rewrite <- !app_assoc.
Qed.

(** A fetch into a free place that returns has asked the server once and
    left what it answered at the place of the archive. *)
Lemma fetch_absent_Ok w w2 :
  isfile (fs w) (zip_path E) = false ->
  fetch_archive E (zip_path E)
    (mkWorld (fs w) (trace w ++ [not_found_line (zip_path E)])) = (Ok tt, w2) ->
  exists fp evs,
    remote E (length (requests (trace w))) URL = Some fp /\
    fs w2 = <[zip_path E := File (body fp)]> (fs w) /\
    trace w2 = trace w ++ evs /\
    requests evs = [EvRequest URL].
Proof.
  intros Hz Hf.
  set (w1 := mkWorld (fs w) (trace w ++ [not_found_line (zip_path E)])) in *.
  rewrite fetch_archive_absent_eq in Hf by done.
  set (w1' := mkWorld (fs w1) (trace w1 ++ [downloading_line])) in *.
  destruct (urlretrieve_trace E download_kinds URL (zip_path E)
              (Some (reporthook E)) w1' ltac:(kinds_incl)
              (quiet_reporthook_download E)) as (evs & Ht & Hevs).
  destruct (urlretrieve E URL (zip_path E) (Some (reporthook E)) w1')
    as [[[]|e] wu] eqn:Hu; [|done].
  injection Hf as <-.
  apply (urlretrieve_Ok E [KOut; KFlush]) in Hu as (fp & Hfp & _ & Hfs);
    [|apply quiet_reporthook].
  exists fp. simpl in *.
  assert (requests (trace w ++ [not_found_line (zip_path E)] ++ [downloading_line])
          = requests (trace w)) as Hlog.
  { rewrite requests_app. simpl. by rewrite app_nil_r. }
  rewrite <- app_assoc, Hlog in Hfp.
  exists ([not_found_line (zip_path E); downloading_line]
          ++ EvRequest URL :: evs ++ [EvWrite Stdout nl]).
  split; [done|]. split; [done|]. split.
  - rewrite Ht. by rewrite <- !app_assoc.
  - simpl. rewrite requests_app.
    by rewrite (requests_none download_kinds evs ltac:(by apply not_in_kinds)).
Qed.

End Runs.

(** ** SHA-1 keeps hashlib's promise *)

Section SHA1_laws.

Import SHA1.

Lemma absorb_enough f f' h bs :
  (length bs <= f)%nat -> (length bs <= f')%nat -> absorb f h bs = absorb f' h bs.
Proof.
  revert f' h bs. induction f as [|f IH]; intros f' h bs Hf Hf'.
  - destruct bs; [|simpl in Hf; lia]. by destruct f'.
  - simpl. destruct (length bs <? 64)%nat eqn:Hlen.
    + destruct f'; [by destruct bs; [|simpl in Hf'; lia] | simpl; by rewrite Hlen].
    + apply Nat.ltb_ge in Hlen. destruct f' as [|f']; [lia|]. simpl.
      apply Nat.ltb_ge in Hlen as Hlen'. rewrite Hlen'.
      apply IH; rewrite length_drop; lia.
Qed.

(** Absorbing a message piece by piece is absorbing it whole. *)
Lemma absorb_app f h X b :
  (length X <= f)%nat ->
  absorb (length ((absorb f h X).2 ++ b)) (absorb f h X).1 ((absorb f h X).2 ++ b)
  = absorb (length (X ++ b)) h (X ++ b).
Proof.
  revert h X. induction f as [|f IH]; intros h X Hf.
  - by destruct X; [|simpl in Hf; lia].
  - simpl. destruct (length X <? 64)%nat eqn:Hlen; [done|].
    apply Nat.ltb_ge in Hlen. rewrite IH by (rewrite length_drop; lia).
    assert (length (X ++ b) = S (length (drop 64 X ++ b) + 63)) as ->.
    { rewrite !length_app, length_drop. lia. }
    simpl. assert ((length (X ++ b) <? 64)%nat = false) as ->.
    { apply Nat.ltb_ge. rewrite length_app. lia. }
    rewrite take_app_le, drop_app_le by lia.
    apply absorb_enough; lia.
Qed.

Lemma upd_fold (blocks : list (list byte)) :
  fold_left upd blocks new = upd new (concat blocks).
Proof.
  assert (forall X, upd new X = mk (absorb (length X) init X).1
                                   (absorb (length X) init X).2
                                   (Z.of_nat (length X))) as Hnew.
  { intros X. unfold upd. simpl. by destruct (absorb _ _ _). }
  assert (forall bs X, fold_left upd bs (upd new X) = upd new (X ++ concat bs)) as H.
  { induction bs as [|b bs IH]; intros X; simpl; [by rewrite app_nil_r|].
    assert (upd (upd new X) b = upd new (X ++ b)) as ->;
      [|by rewrite IH, app_assoc].
    rewrite (Hnew X), (Hnew (X ++ b)). unfold upd. simpl.
    rewrite absorb_app by done. destruct (absorb _ _ (X ++ b)). simpl.
    f_equal. rewrite length_app. lia. }
  assert (new = upd new []) as -> by done. by rewrite H.
Qed.

End SHA1_laws.

#[global] Instance sha1_hashlib_laws : HashLaws sha1_hashlib.
Proof. split. intros blocks. simpl. by rewrite upd_fold. Qed.

(** * Properties of the script *)

(** ** The digest does not depend on the block size *)

(** C9. For every file contents and every positive block size, the digest
    the block-wise loop of [is_good_file] computes is the digest of the
    contents hashed in one step; so the outcome of the verification is the
    same for every positive block size. *)
Theorem streaming_digest_is_whole_digest
    {hashlib : HashLib} {laws : HashLaws hashlib}
    (blksize : Z) (data : list byte) (p : string) (w : World) :
  0 < blksize ->
  digest_with blksize data = digest_whole data /\
  is_good_file_with blksize p w = is_good_file p w.
Proof.
  intros Hpos.
  assert (forall bs d, 0 < bs -> digest_with bs d = digest_whole d) as Hd.
  { intros bs d Hbs. unfold digest_with, digest_whole.
    rewrite hash_blocks_fold by lia.
    by rewrite digest_fed, read_blocks_concat by lia. }
  split; [by apply Hd|].
  unfold is_good_file. rewrite !is_good_file_with_eq.
  destruct (fs w !! p) as [[d|]|]; [|done..].
  by rewrite !Hd.
Qed.

Lemma streaming_digest_witness :
  0 < 3 /\
  @digest_with sha1_hashlib 3 (bytes_of "abcdefgh")
  = @digest_whole sha1_hashlib (bytes_of "abcdefgh") /\
  @is_good_file_with sha1_hashlib 3 "/babel/cldr/core-31.0.1.zip" w_corrupt
  = @is_good_file sha1_hashlib "/babel/cldr/core-31.0.1.zip" w_corrupt.
Proof.
  split; [lia|].
  apply (@streaming_digest_is_whole_digest sha1_hashlib sha1_hashlib_laws). lia.
Defined.

Example streaming_digest_abc :
  @digest_with sha1_hashlib 2 (bytes_of "abc") = "a9993e364706816aba3e25717850c26c9cd0d89d".
Proof. vm_compute. reflexivity. Qed.

(** A block size of zero reads nothing: the loop stops at once. *)
Example zero_block_size_reads_nothing :
  @digest_with sha1_hashlib 0 (bytes_of "abc") = "da39a3ee5e6b4b0d3255bfef95601890afd80709".
Proof. vm_compute. reflexivity. Qed.

(** ** The verification step *)

Section Verification.

Context {hashlib : HashLib} {ElementTree : XmlLib} {zipfile : ZipLib}.
Variable E : Env.

(** C2. [is_good_file] raises exactly when the file exists and its digest
    differs from the expected one, and what it raises is the checksum
    mismatch; the error ends the run of [main] with a non-zero status; on
    an absent file it returns [False] with no error (it only logs), and
    [main] goes on to ask the server for the archive. *)
Theorem is_good_file_raises_iff_mismatch (p : string) (w : World) :
  ((exists e w', is_good_file p w = (Raise e, w')) <->
   (exists d, fs w !! p = Some (File d) /\ digest_of d <> FILESUM)) /\
  (forall e w', is_good_file p w = (Raise e, w') ->
     exists d, fs w !! p = Some (File d) /\
               e = RuntimeError (mismatch_message (digest_of d)) /\ w' = w) /\
  (forall e w', is_good_file (zip_path E) w = (Raise e, w') ->
     main E w = (Raise e, w') /\ exit_status E w = 1) /\
  (isfile (fs w) p = false ->
     is_good_file p w = (Ok false, mkWorld (fs w) (trace w ++ [not_found_line p]))) /\
  (isfile (fs w) (zip_path E) = false ->
     exists rest,
       trace (main E w).2
       = trace w ++ [not_found_line (zip_path E); downloading_line; EvRequest URL]
         ++ rest).
Proof.
  assert (forall e w', is_good_file p w = (Raise e, w') ->
            exists d, fs w !! p = Some (File d) /\ digest_of d <> FILESUM /\
                      e = RuntimeError (mismatch_message (digest_of d)) /\ w' = w)
    as Hraise.
  { intros e w'. rewrite is_good_file_eq.
    destruct (fs w !! p) as [[d|]|]; [|done..].
    destruct (String.eqb_spec (digest_of d) FILESUM); [done|].
    intros [= <- <-]. eauto. }
  split; [split|split; [|split; [|split]]].
  - intros (e & w' & (d & Hd & Hne & _)%Hraise). eauto.
  - intros (d & Hd & Hne). rewrite is_good_file_eq, Hd.
    destruct (String.eqb_spec (digest_of d) FILESUM); [done | eauto].
  - intros e w' (d & Hd & _ & He & Hw)%Hraise. eauto.
  - intros e w' Hg. pose proof (main_aborts E w e w' Hg) as Hm.
    split; [done|]. unfold exit_status. by rewrite Hm.
  - intros Hp. rewrite is_good_file_eq. unfold isfile in Hp.
    by destruct (fs w !! p) as [[]|].
  - apply main_absent_trace.
Qed.

(** C10. On an existing regular file [is_good_file] returns [True] or
    raises the checksum mismatch, never [False]; so with the archive in
    place the loop of [main] runs its body not at all: it leaves the world
    as it is; and no run of [main] ever removes a file. *)
Theorem is_good_file_never_false_on_file (p : string) (changed : bool) (w : World) :
  (isfile (fs w) p = true ->
     exists d, fs w !! p = Some (File d) /\
       (is_good_file p w = (Ok true, w) \/
        is_good_file p w = (Raise (RuntimeError (mismatch_message (digest_of d))), w))) /\
  (isfile (fs w) (zip_path E) = true ->
     exists d, fs w !! zip_path E = Some (File d) /\
       (main_loop E (zip_path E) changed w = (Ok changed, w) \/
        main_loop E (zip_path E) changed w
        = (Raise (RuntimeError (mismatch_message (digest_of d))), w))) /\
  Forall (fun e => kind_of e <> KRemove) (new_events w (main E w).2).
Proof.
  split; [|split].
  - unfold isfile. intros Hp. rewrite is_good_file_eq.
    destruct (fs w !! p) as [[d|]|]; [|done..]. exists d. split; [done|].
    destruct (String.eqb _ _); auto.
  - unfold isfile. intros Hp.
    destruct (fs w !! zip_path E) as [[d|]|] eqn:Hz; [|done..]. exists d.
    split; [done|]. rewrite (main_loop_present E _ changed w d Hz).
    destruct (String.eqb _ _); auto.
  - destruct (emits_new_events _ _ _ (main_kinds E kinds_but_remove ltac:(done) w))
      as [_ Hf].
    eapply Forall_impl; [exact Hf|]. intros e He Hk. simpl in He. rewrite Hk in He.
    repeat (apply elem_of_cons in He as [He|He]; [done|]).
    by apply elem_of_nil in He.
Qed.

(** C1, as amended. A run that starts with an archive whose digest
    differs from the expected one stops at the first verification with
    the checksum mismatch: the world is as it was (nothing deleted,
    nothing fetched) and the exit status is 1.  A fetch happens only when
    there is no archive: then the loop fetches once; it ends well if the
    copy fetched has the expected digest, and with the checksum mismatch
    if not. *)
Theorem corrupt_archive_is_fatal (w : World) :
  (forall d, fs w !! zip_path E = Some (File d) -> digest_of d <> FILESUM ->
     main E w = (Raise (RuntimeError (mismatch_message (digest_of d))), w) /\
     exit_status E w = 1) /\
  (isfile (fs w) (zip_path E) = false ->
   forall w2,
     fetch_archive E (zip_path E)
       (mkWorld (fs w) (trace w ++ [not_found_line (zip_path E)])) = (Ok tt, w2) ->
     exists fp,
       remote E (length (requests (trace w))) URL = Some fp /\
       fs w2 = <[zip_path E := File (body fp)]> (fs w) /\
       requests (new_events w w2) = [EvRequest URL] /\
       main_loop E (zip_path E) false w
       = if String.eqb (digest_of (body fp)) FILESUM then (Ok true, w2)
         else (Raise (RuntimeError (mismatch_message (digest_of (body fp)))), w2)).
Proof.
  split.
  - intros d Hd Hne.
    assert (main E w = (Raise (RuntimeError (mismatch_message (digest_of d))), w)) as Hm.
    { apply main_aborts. rewrite is_good_file_eq, Hd.
      by destruct (String.eqb_spec (digest_of d) FILESUM). }
    split; [done|]. unfold exit_status. by rewrite Hm.
  - intros Hz w2 Hf.
    pose proof (main_loop_absent E (zip_path E) false w Hz) as Hloop.
    rewrite Hf in Hloop.
    destruct (fetch_absent_Ok E w w2 Hz Hf) as (fp & evs & Hfp & Hfs & Ht & Hreq).
    exists fp. split; [done|]. split; [done|]. split.
    + by rewrite (new_events_app _ _ _ Ht).
    + rewrite Hloop, is_good_file_eq. simpl. rewrite Hfs, lookup_insert_eq.
      by destruct (String.eqb _ _).
Qed.

End Verification.

(** The damaged archive of [w_corrupt] is an existing file whose digest is
    not the expected one; the server holds a good copy; yet the run neither
    removes the file nor asks the server, and it does not end well: it stops
    with the checksum mismatch, the world unchanged. *)
Lemma corrupt_archive_not_healed :
  let E := mock_env 0 in
  let run := @main oracle_hashlib mock_xml mock_zip E w_corrupt in
  fs w_corrupt !! zip_path E = Some (File []) /\
  String.eqb (@digest_of oracle_hashlib []) FILESUM = false /\
  (exists fp, remote E 0 URL = Some fp /\
              @digest_of oracle_hashlib (body fp) = FILESUM) /\
  run = (Raise (RuntimeError
    "Checksum mismatch: 'da39a3ee5e6b4b0d3255bfef95601890afd80709' != '01ade6c2d1f358e63c2ab6e2861d4caa7114ff45'"),
         w_corrupt) /\
  (EvRemove (zip_path E) ∉ trace run.2) /\
  (EvRequest URL ∉ trace run.2) /\
  requests (trace run.2) = [].
Proof.
  cbv zeta.
  assert (@main oracle_hashlib mock_xml mock_zip (mock_env 0) w_corrupt
          = (Raise (RuntimeError
    "Checksum mismatch: 'da39a3ee5e6b4b0d3255bfef95601890afd80709' != '01ade6c2d1f358e63c2ab6e2861d4caa7114ff45'"),
             w_corrupt)) as Hrun by (vm_compute; reflexivity).
  rewrite Hrun. cbn [snd trace w_corrupt].
  split; [vm_compute; reflexivity|]. split; [vm_compute; reflexivity|].
  split; [exists (mkResponse good_archive (Some 8192)); split; vm_compute; reflexivity|].
  split; [reflexivity|].
  split; [by intros ?%elem_of_nil|]. split; [by intros ?%elem_of_nil | reflexivity].
Qed.

(** Both halves at work: the damaged archive of [w_corrupt] stops the run,
    and from the fresh checkout [w_fresh] the loop fetches once. *)
Lemma corrupt_archive_is_fatal_witness :
  let E := mock_env 0 in
  let zip := zip_path E in
  let w2 := (fetch_archive E zip
               (mkWorld (fs w_fresh) (trace w_fresh ++ [not_found_line zip]))).2 in
  (@main oracle_hashlib mock_xml mock_zip E w_corrupt
   = (Raise (RuntimeError (mismatch_message (@digest_of oracle_hashlib []))), w_corrupt) /\
   @exit_status oracle_hashlib mock_xml mock_zip E w_corrupt = 1) /\
  (exists fp,
     remote E (length (requests (trace w_fresh))) URL = Some fp /\
     fs w2 = <[zip := File (body fp)]> (fs w_fresh) /\
     requests (new_events w_fresh w2) = [EvRequest URL] /\
     @main_loop oracle_hashlib E zip false w_fresh
     = if String.eqb (@digest_of oracle_hashlib (body fp)) FILESUM then (Ok true, w2)
       else (Raise (RuntimeError (mismatch_message (@digest_of oracle_hashlib (body fp)))),
             w2)).
Proof.
  cbv zeta. split.
  - apply (proj1 (@corrupt_archive_is_fatal oracle_hashlib mock_xml mock_zip (mock_env 0)
                    w_corrupt) []).
    + vm_compute. reflexivity.
    + apply String.eqb_neq. vm_compute. reflexivity.
  - apply (proj2 (@corrupt_archive_is_fatal oracle_hashlib mock_xml mock_zip (mock_env 0)
                    w_fresh)).
    + vm_compute. reflexivity.
    + apply run_Ok. vm_compute. reflexivity.
Defined.

(** From the fresh checkout the loop ends well, having fetched the archive. *)
Example fresh_loop_fetches_once :
  let out := @main_loop oracle_hashlib (mock_env 0) (zip_path (mock_env 0)) false w_fresh in
  out.1 = Ok true /\ requests (trace out.2) = [EvRequest URL].
Proof. vm_compute. split; reflexivity. Qed.

Lemma calls_app tr tr' : calls (tr ++ tr') = calls tr ++ calls tr'.
Proof. apply List.filter_app. Qed.

Lemma calls_none (ks : list kind) evs :
  KCall ∉ ks -> Forall (fun e => kind_of e ∈ ks) evs -> calls evs = [].
Proof.
  intros Hk Hf. induction Hf as [|e evs He _ IH]; [done|]. simpl.
  destruct e; simpl in *; done.
Qed.

(** ** The delegate *)

Section Delegate.

Context {hashlib : HashLib} {ElementTree : XmlLib} {zipfile : ZipLib}.
Variable E : Env.

(** C7. When the loop, the unpacking and the seed mirror have all returned,
    [main] invokes the delegate once, with the interpreter, the path of
    the conversion tool and the extraction root as the tool's only
    argument; a non-zero exit status of the delegate is raised as an error
    and the script ends with a non-zero status. *)
Theorem delegate_invoked_once (w : World) (changed : bool) (w1 w2 w3 : World) :
  main_loop E (zip_path E) false w = (Ok changed, w1) ->
  unpack E changed w1 = (Ok tt, w2) ->
  get_seed_files E (cldr_dl_path E) (cldr_path E) w2 = (Ok tt, w3) ->
  let rc := delegate E (fs w3) (delegate_args E) in
  calls (new_events w (main E w).2) = [EvCall (delegate_args E)] /\
  delegate_args E
  = [sys_executable E; os_path.join (scripts_path E) "import_cldr.py"; cldr_path E] /\
  (rc = 0 -> (main E w).1 = Ok tt /\ exit_status E w = 0) /\
  (rc <> 0 ->
     (main E w).1 = Raise (CalledProcessError rc (delegate_args E)) /\
     exit_status E w <> 0).
Proof.
  intros Hloop Hunpack Hseed rc.
  assert (main E w = check_call E (delegate_args E) w3) as Hmain.
  { rewrite main_eq, Hloop. unfold after_loop.
    by rewrite run_bind, Hunpack, run_bind, Hseed. }
  destruct (main_loop_kinds E kinds_before_call (zip_path E) false
              ltac:(kinds_incl) ltac:(kinds_incl) ltac:(kinds_incl)
              ltac:(kinds_incl) ltac:(kinds_incl) w) as (e1 & H1 & F1).
  destruct (unpack_kinds E kinds_before_call changed
              ltac:(kinds_incl) ltac:(kinds_incl) ltac:(kinds_incl)
              ltac:(kinds_incl) ltac:(kinds_incl) w1) as (e2 & H2 & F2).
  destruct (get_seed_files_kinds E kinds_before_call (cldr_dl_path E) (cldr_path E)
              ltac:(kinds_incl) ltac:(kinds_incl) ltac:(kinds_incl)
              ltac:(kinds_incl) w2) as (e3 & H3 & F3).
  rewrite Hloop in H1. rewrite Hunpack in H2. rewrite Hseed in H3. simpl in *.
  assert (KCall ∉ kinds_before_call) as Hk by (by apply not_in_kinds).
  split; [|split; [done|]].
  - rewrite Hmain. unfold check_call. rewrite !run_bind. simpl.
    erewrite new_events_app; cycle 1.
    { destruct (_ =? 0); simpl; rewrite H3, H2, H1; by rewrite <- !app_assoc. }
    rewrite !calls_app, (calls_none kinds_before_call e1),
      (calls_none kinds_before_call e2), (calls_none kinds_before_call e3); done.
  - unfold exit_status. rewrite Hmain. unfold check_call. rewrite !run_bind. simpl.
    fold rc. split; intros Hrc.
    + by rewrite Hrc.
    + apply Z.eqb_neq in Hrc. by rewrite Hrc.
Qed.

End Delegate.

(** From the fresh checkout, with a delegate that exits with status 3. *)
Lemma delegate_invoked_once_witness :
  let E := mock_env 3 in
  let main_E := @main oracle_hashlib mock_xml mock_zip E in
  calls (new_events w_fresh (main_E w_fresh).2)
  = [EvCall ["/usr/bin/python"; "/babel/scripts/import_cldr.py";
             "/babel/cldr/core-31.0.1"]] /\
  (main_E w_fresh).1
  = Raise (CalledProcessError 3 ["/usr/bin/python"; "/babel/scripts/import_cldr.py";
                                 "/babel/cldr/core-31.0.1"]) /\
  @exit_status oracle_hashlib mock_xml mock_zip E w_fresh <> 0.
Proof.
  cbv zeta.
  pose (E := mock_env 3).
  pose (w1 := (@main_loop oracle_hashlib E (zip_path E) false w_fresh).2).
  pose (w2 := (@unpack mock_zip E true w1).2).
  pose (w3 := (@get_seed_files mock_xml E (cldr_dl_path E) (cldr_path E) w2).2).
  assert ((@main_loop oracle_hashlib E (zip_path E) false w_fresh).1 = Ok true) as H1
    by (vm_compute; reflexivity).
  assert ((@unpack mock_zip E true w1).1 = Ok tt) as H2 by (vm_compute; reflexivity).
  assert ((@get_seed_files mock_xml E (cldr_dl_path E) (cldr_path E) w2).1 = Ok tt) as H3
    by (vm_compute; reflexivity).
  apply (run_Ok (@main_loop oracle_hashlib E (zip_path E) false)) in H1.
  apply (run_Ok (@unpack mock_zip E true)) in H2.
  apply (run_Ok (@get_seed_files mock_xml E (cldr_dl_path E) (cldr_path E))) in H3.
  destruct (@delegate_invoked_once oracle_hashlib mock_xml mock_zip E
              w_fresh true w1 w2 w3 H1 H2 H3) as (Hc & _ & _ & Hr).
  destruct (Hr ltac:(discriminate)) as [Hr1 Hr2].
  split; [exact Hc|]. split; [exact Hr1 | exact Hr2].
Defined.

(** ** Idempotence *)

Section Idempotence.

Context {hashlib : HashLib} {ElementTree : XmlLib} {zipfile : ZipLib}.
Variable E : Env.

Lemma unpack_skip w :
  isdir (fs w) (common_path E) = true -> unpack E false w = (Ok tt, w).
Proof.
  intros Hd. unfold unpack, path_isdir. repeat (rewrite run_bind; simpl).
  by rewrite Hd.
Qed.

(** Seed files that are all there are all skipped. *)
Lemma mirror_all_present seed names w :
  Forall (fun n => exists_ (fs w) (os_path.join seed n) = true) names ->
  for_each names (fun xml_name =>
    e ← path_exists (os_path.join seed xml_name);
    when (negb e) (
      log "Downloading '%s'" [xml_name];;
      urlretrieve E (SEED_URL +:+ xml_name) (os_path.join seed xml_name) None)) w
  = (Ok tt, w).
Proof.
  induction 1 as [|n names Hn _ IH]; [done|]. simpl.
  unfold path_exists at 1. repeat (rewrite run_bind; simpl). rewrite Hn. simpl.
  exact IH.
Qed.

Lemma mirror_cached w :
  (forall names, seed_names E (fs w) = Some names ->
     Forall (fun n => exists_ (fs w) (os_path.join (seed_path E) n) = true) names) ->
  (mirror_seed_files E (seed_path E) (html_path E) w).2 = w.
Proof.
  intros Hs. unfold mirror_seed_files, ElementTree_parse, read_file.
  repeat (rewrite run_bind; simpl). unfold seed_names in Hs.
  destruct (fs w !! html_path E) as [[d|]|]; simpl; try done.
  destruct (xml_parse d) as [root|]; simpl; [|done].
  rewrite run_bind. unfold lift at 1.
  destruct (seed_xmls_of _) as [names|e]; [|done].
  by rewrite mirror_all_present by auto.
Qed.

Lemma get_seed_files_cached w :
  exists_ (fs w) (html_path E) = true ->
  (forall names, seed_names E (fs w) = Some names ->
     Forall (fun n => exists_ (fs w) (os_path.join (seed_path E) n) = true) names) ->
  emits_kinds [KMkdir] w (get_seed_files E (cldr_dl_path E) (cldr_path E) w).2.
Proof.
  intros Hh Hs. unfold get_seed_files. fold (seed_path E) (html_path E).
  unfold path_exists at 1. repeat (rewrite run_bind; simpl).
  assert (forall w', adds_only w w' ->
            ((e ← path_exists (html_path E);
              when (negb e) (
                log "Downloading seed repo" [];;
                urlretrieve E SEED_URL (html_path E) None);;
              mirror_seed_files E (seed_path E) (html_path E)) w').2 = w') as Hrest.
  { intros w' Hadd.
    assert (exists_ (fs w') (html_path E) = true) as Hh'.
    { unfold exists_ in *. destruct (fs w !! html_path E) as [n|] eqn:Hn; [|done].
      by rewrite (Hadd _ n ltac:(tauto) Hn). }
    unfold path_exists. repeat (rewrite run_bind; simpl). rewrite Hh'. simpl.
    apply mirror_cached. intros names Hnames.
    assert (seed_names E (fs w) = Some names) as Hw.
    { unfold seed_names, exists_ in *.
      destruct (fs w !! html_path E) as [n|] eqn:Hn; [|done].
      by rewrite (Hadd _ n ltac:(tauto) Hn) in Hnames. }
    eapply Forall_impl; [exact (Hs names Hw)|]. intros n. unfold exists_.
    destruct (fs w !! os_path.join (seed_path E) n) as [x|] eqn:Hx; [|done].
    by rewrite (Hadd _ x ltac:(tauto) Hx). }
  destruct (exists_ (fs w) (seed_path E)); simpl.
  - rewrite Hrest by reflexivity. reflexivity.
  - pose proof (os_makedirs_adds_only (seed_path E) w) as Hadd.
    pose proof (os_makedirs_kinds [KMkdir] (seed_path E) ltac:(kinds_incl) w) as Hk.
    destruct (os_makedirs (seed_path E) w) as [[[]|e] w']; simpl in *; [|done].
    by rewrite Hrest.
Qed.

(** C5. When the world a run leaves has the archive with the expected
    digest, the unpacked tree, the index page and every seed file the page
    lists, running the script again makes no network request. *)
Theorem second_run_makes_no_request (w0 : World) (r : result unit) (w1 : World) :
  main E w0 = (r, w1) ->
  cached E w1 ->
  requests (new_events w1 (main E w1).2) = [].
Proof.
  intros _ [(d & Hd & Hgood) Htree Hindex Hseeds].
  rewrite main_eq, (main_loop_present E _ false w1 d Hd), Hgood.
  assert (String.eqb FILESUM FILESUM = true) as -> by done.
  unfold after_loop. rewrite run_bind, unpack_skip by done. rewrite run_bind.
  destruct (get_seed_files_cached w1 Hindex Hseeds) as (e1 & H1 & F1).
  destruct (get_seed_files E _ _ w1) as [[[]|e] w2]; simpl in *.
  - unfold check_call. repeat (rewrite run_bind; simpl).
    erewrite new_events_app; cycle 1.
    { destruct (_ =? 0); simpl; rewrite H1; by rewrite <- app_assoc. }
    rewrite requests_app. simpl. rewrite app_nil_r.
    by apply (requests_none [KMkdir]); [apply not_in_kinds|].
  - rewrite (new_events_app _ _ _ H1).
    by apply (requests_none [KMkdir]); [apply not_in_kinds|].
Qed.

End Idempotence.

(** The world the first run from the fresh checkout leaves is such a
    world. *)
Lemma second_run_witness :
  let E := mock_env 0 in
  let first := @main oracle_hashlib mock_xml mock_zip E w_fresh in
  first.1 = Ok tt /\
  @cached oracle_hashlib mock_xml E first.2 /\
  requests (new_events first.2 (@main oracle_hashlib mock_xml mock_zip E first.2).2) = [].
Proof.
  cbv zeta.
  assert (@cached oracle_hashlib mock_xml (mock_env 0)
            (@main oracle_hashlib mock_xml mock_zip (mock_env 0) w_fresh).2) as Hc.
  { split.
    - exists good_archive. split; vm_compute; reflexivity.
    - vm_compute. reflexivity.
    - vm_compute. reflexivity.
    - intros names Hn.
      assert (Some names = Some ["a.xml"; "c.xml"]) as [= ->].
      { rewrite <- Hn. vm_compute. reflexivity. }
      repeat constructor; vm_compute; reflexivity. }
  split; [vm_compute; reflexivity|]. split; [exact Hc|].
  apply (@second_run_makes_no_request oracle_hashlib mock_xml mock_zip (mock_env 0)
           w_fresh _ _ (surjective_pairing _) Hc).
Defined.

(** ** The progress bar *)







Section Progress.

Context {hashlib : HashLib}.
Variable E : Env.






End Progress.


(** Without a terminal the bar is drawn for 80 columns. *)
Example width_falls_back_to_80 :
  get_terminal_width (mkEnv "/babel/scripts/download_import_cldr.py" "/usr/bin/python"
                        None mock_remote (fun _ _ => 0)) = 80.
Proof. reflexivity. Qed.

(** A last block that is not full makes the bar overrun the terminal. *)
Example progress_bar_overruns :
  match written Stdout (trace (@reporthook (mock_env 0) 2 8192 10000 w_fresh).2) with
  | [_; bar; pct] => String.length (bar +:+ pct) = 127%nat
  | _ => False
  end.
Proof. by vm_compute. Qed.

(** ** The seed mirror *)

Lemma seed_xmls_of_Ok links names :
  seed_xmls_of links = Ok names ->
  names = List.filter (PyStr.contains "xml") (omap text links).
Proof.
  revert names. induction links as [|link links IH]; intros names; simpl.
  - by intros [= <-].
  - destruct (text link) as [t|]; [|done]. simpl.
    destruct (seed_xmls_of links) as [r|]; [|done].
    intros [= <-]. rewrite (IH r eq_refl). by destruct (PyStr.contains "xml" t).
Qed.

Section Mirror.

Context {ElementTree : XmlLib}.
Variable E : Env.

Lemma log_run message args w :
  log message args w =
  match (match args with [] => Ok message | _ => pyformat message args end) with
  | Ok s => (Ok tt, mkWorld (fs w) (trace w ++ [log_line s]))
  | Raise e => (Raise e, w)
  end.
Proof.
  unfold log. rewrite run_bind. unfold lift.
  by destruct (match args with [] => Ok message | _ => pyformat message args end).
Qed.

Lemma fetch_new_requests message args url p w :
  requests (new_events w ((log message args;; urlretrieve E url p None) w).2)
  = match (log message args w).1 with
    | Ok _ => [EvRequest url]
    | Raise _ => []
    end /\
  exists evs, trace ((log message args;; urlretrieve E url p None) w).2 = trace w ++ evs.
Proof.
  rewrite run_bind, log_run.
  destruct (match args with [] => Ok message | _ => pyformat message args end)
    as [s|e]; simpl.
  - destruct (urlretrieve_trace E [KCreate] url p None
                (mkWorld (fs w) (trace w ++ [log_line s]))
                ltac:(kinds_incl) (quiet_None _)) as (evs & Ht & Hf).
    simpl in Ht. rewrite <- app_assoc in Ht. split; [|eauto].
    rewrite (new_events_app _ _ _ Ht). simpl.
    by rewrite (requests_none [KCreate] evs ltac:(by apply not_in_kinds)).
  - split; [|by exists []; rewrite app_nil_r].
    by rewrite (new_events_app _ _ []) by (by rewrite app_nil_r).
Qed.



End Mirror.


(** From a fresh checkout both [a.xml] and [c.xml] are fetched, and nothing
    else of the page: not [b.txt], and not [readme.XML]. *)
Example fresh_mirror_fetches_a_and_c :
  requests (trace (@main oracle_hashlib mock_xml mock_zip (mock_env 0) w_fresh).2)
  = [EvRequest URL; EvRequest SEED_URL; EvRequest (SEED_URL +:+ "a.xml");
     EvRequest (SEED_URL +:+ "c.xml")].
Proof. vm_compute. reflexivity. Qed.

(** ** Unpacking *)

Lemma os_mkdir_Ok p w w' : os_mkdir p w = (Ok tt, w') -> fs w' !! p = Some Dir.
Proof.
  unfold os_mkdir. rewrite run_bind. simpl.
  destruct (exists_ (fs w) p); [done|].
  destruct (isdir (fs w) (os_path.dirname p)); [|done].
  intros [= <-]. simpl. apply lookup_insert_eq.
Qed.


Section Members.

Context {zipfile : ZipLib}.

(** A member with contents leaves them at its place below the
    destination. *)
Lemma extract_member_Ok_file dest name data w w' :
  extract_member dest (name, Some data) w = (Ok tt, w') ->
  fs w' !! (dest +:+ "/" +:+ name) = Some (File data).
Proof.
  unfold extract_member.
  intros (e & w1 & _ & H)%bind_Ok_inv.
  apply bind_Ok_inv in H as ([] & w2 & _ & H).
  apply bind_Ok_inv in H as ([] & w3 & (_ & _ & ->)%create_file_Ok_eq & H).
  apply append_file_Ok in H as (d & Hd & ->). simpl in *.
  rewrite lookup_insert_eq in Hd. injection Hd as <-.
  by rewrite lookup_insert_eq.
Qed.

(** Another member leaves it alone. *)
Lemma extract_member_kept dest q m :
  q <> dest +:+ "/" +:+ m.1 -> always (kept q) (extract_member dest m).
Proof.
  intros Hq. destruct m as [name content]. unfold extract_member. simpl in Hq.
  apply always_bind; [apply _ | apply always_path_exists; apply _ | intros e].
  apply always_bind; [apply _ | | intros _].
  { apply always_when; [apply _|]. intros w. apply adds_only_kept, os_makedirs_adds_only. }
  destruct content as [data|].
  - apply always_bind; [apply _ | | intros _].
    + intros w. eapply touches_kept; [exact Hq | apply create_file_touches].
    + intros w. eapply touches_kept; [exact Hq | apply append_file_touches].
  - apply always_bind; [apply _ | apply always_path_isdir; apply _ | intros d].
    apply always_when; [apply _|]. intros w. apply adds_only_kept, os_mkdir_adds_only.
Qed.

(** After an extraction that returns, every member with contents is at
    its place, when no two members have the same name. *)
Lemma extract_members_placed dest ms w w' :
  NoDup (map fst ms) ->
  for_each ms (extract_member dest) w = (Ok tt, w') ->
  forall name data, (name, Some data) ∈ ms ->
  fs w' !! (dest +:+ "/" +:+ name) = Some (File data).
Proof.
  revert w. induction ms as [|m ms IH]; intros w Hnd; simpl.
  - intros _ name data Hin. by apply elem_of_nil in Hin.
  - apply NoDup_cons in Hnd as [Hm Hnd].
    intros ([] & w1 & H1 & H2)%bind_Ok_inv name data [Heq|Hin]%elem_of_cons.
    + subst m. simpl in Hm. apply extract_member_Ok_file in H1.
      assert (always (kept (dest +:+ "/" +:+ name))
                (for_each ms (extract_member dest))) as Hk.
      { clear -Hm. induction ms as [|m' ms IH]; simpl; [apply always_ret; apply _|].
        apply always_bind; [apply _ | | intros _].
        - apply extract_member_kept. intros Heq.
          do 2 apply append_inv_head in Heq. apply Hm. simpl. rewrite Heq. by left.
        - apply IH. intros Hin. apply Hm. simpl. by right. }
      specialize (Hk w1). rewrite H2 in Hk. by apply Hk.
    + by eapply IH.
Qed.

End Members.

Section Unpack.

Context {hashlib : HashLib} {ElementTree : XmlLib} {zipfile : ZipLib}.
Variable E : Env.

Lemma extractall_run zip dest w d :
  fs w !! zip = Some (File d) ->
  extractall zip dest w =
  match zip_members d with
  | None => (Raise BadZipFile, w)
  | Some ms =>
      for_each ms (extract_member dest)
        (mkWorld (fs w) (trace w ++ [EvExtract zip dest]))
  end.
Proof.
  intros Hd. unfold extractall, read_file. repeat (rewrite run_bind; simpl).
  rewrite Hd. simpl. destruct (zip_members d); [|done].
  by rewrite run_bind.
Qed.

Lemma extract_members_kinds dest ms :
  always (emits_kinds [KMkdir; KCreate]) (for_each ms (extract_member dest)).
Proof.
  apply always_for_each; [apply _|]. intros [name content]. unfold extract_member.
  kinds_solve; apply os_makedirs_kinds; kinds_incl.
Qed.

Lemma unpack_perform changed w :
  changed = true \/ isdir (fs w) (common_path E) = false ->
  unpack E changed w = extractall (zip_path E) (cldr_path E) (cleared E w).
Proof.
  intros Hgate. unfold unpack, path_isdir, cleared.
  repeat (rewrite run_bind; simpl).
  assert (changed || negb (isdir (fs w) (common_path E)) = true) as ->.
  { destruct Hgate as [->| ->]; [done | by rewrite orb_true_r]. }
  simpl. repeat (rewrite run_bind; simpl).
  destruct (isdir (fs w) (common_path E)) eqn:Hd; simpl.
  - rewrite run_bind, log_run. simpl.
    unfold shutil_rmtree. rewrite run_bind. simpl.
    unfold isdir in Hd. destruct (fs w !! common_path E) as [[]|]; try done.
    rewrite run_bind. simpl. rewrite run_bind, log_run. simpl.
    by rewrite <- !app_assoc.
  - rewrite run_bind, log_run. by simpl.
Qed.

Lemma cleared_keeps_zip w d :
  fs w !! zip_path E = Some (File d) -> fs (cleared E w) !! zip_path E = Some (File d).
Proof.
  intros Hd. unfold cleared. destruct (isdir _ _); [|done]. simpl.
  apply map_lookup_filter_Some. split; [done|]. simpl.
  rewrite zip_not_below_common, orb_false_r.
  apply negb_true_iff, String.eqb_neq, zip_not_common.
Qed.

(** A loop that has ended has the archive with the expected digest, and
    [changed] tells whether it fetched it. *)
Lemma main_loop_Ok w changed w1 :
  main_loop E (zip_path E) false w = (Ok changed, w1) ->
  requests (new_events w w1) = (if changed then [EvRequest URL] else []) /\
  (exists evs, trace w1 = trace w ++ evs) /\
  exists d, fs w1 !! zip_path E = Some (File d) /\ digest_of d = FILESUM.
Proof.
  destruct (isfile (fs w) (zip_path E)) eqn:Hz.
  - unfold isfile in Hz. destruct (fs w !! zip_path E) as [[d|]|] eqn:Hd; try done.
    rewrite (main_loop_present E _ false w d Hd).
    destruct (String.eqb_spec (digest_of d) FILESUM) as [Hgood|]; [|done].
    intros [= <- <-]. unfold new_events. rewrite drop_all.
    split; [done|]. split; [by exists []; rewrite app_nil_r | eauto].
  - intros Hloop. rewrite main_loop_absent in Hloop by done.
    destruct (fetch_archive E (zip_path E) _) as [[[]|e] w2] eqn:Hf; [|done].
    destruct (fetch_absent_Ok E w w2 Hz Hf) as (fp & evs & _ & Hfs & Ht & Hreq).
    rewrite is_good_file_eq, Hfs, lookup_insert_eq in Hloop.
    destruct (String.eqb_spec (digest_of (body fp)) FILESUM) as [Hgood|]; [|done].
    injection Hloop as <- <-. rewrite (new_events_app _ _ _ Ht).
    split; [done|]. split; [eauto|].
    exists (body fp). by rewrite Hfs, lookup_insert_eq.
Qed.

(** C4. [changed] tells whether the loop fetched the archive in this run.
    When it did not and the extraction target is a directory, nothing is
    unpacked and nothing deleted: the world stays as it is.  Otherwise the
    old target, if there is one, is removed first, the log announces the
    extraction, and the verified archive is unpacked into the extraction
    root: every member with contents ends up at its place below it.  So
    the extraction is begun exactly when the archive was newly fetched or
    the target is missing, and the archive is unpacked exactly then,
    provided it can be read. *)
Theorem extraction_gate (w : World) (changed : bool) (w1 : World) :
  main_loop E (zip_path E) false w = (Ok changed, w1) ->
  let present := isdir (fs w1) (common_path E) in
  let out := unpack E changed w1 in
  requests (new_events w w1) = (if changed then [EvRequest URL] else []) /\
  (changed = false -> present = true -> out = (Ok tt, w1)) /\
  (changed = true \/ present = false ->
     trace (cleared E w1)
     = trace w1 ++ (if present then [deleting_line E; EvRmtree (common_path E)] else [])
                ++ [extracting_line E] /\
     exists d, fs w1 !! zip_path E = Some (File d) /\
       match zip_members d with
       | None => out = (Raise BadZipFile, cleared E w1)
       | Some ms =>
           exists evs,
             trace out.2
             = trace (cleared E w1) ++ EvExtract (zip_path E) (cldr_path E) :: evs /\
             Forall (fun e => kind_of e ∈ [KMkdir; KCreate]) evs /\
             (out.1 = Ok tt -> NoDup (map fst ms) ->
              forall name data, (name, Some data) ∈ ms ->
              fs out.2 !! (cldr_path E +:+ "/" +:+ name) = Some (File data))
       end) /\
  (extracting_line E ∈ new_events w1 out.2 <-> changed = true \/ present = false) /\
  (EvExtract (zip_path E) (cldr_path E) ∈ new_events w1 out.2 <->
     (changed = true \/ present = false) /\
     exists d, fs w1 !! zip_path E = Some (File d) /\ zip_members d <> None).
Proof.
  intros (Hreq & _ & d & Hd & Hgood)%main_loop_Ok present out.
  assert (changed = false -> present = true -> out = (Ok tt, w1)) as Hskip.
  { intros -> Hp. by apply unpack_skip. }
  assert (changed = true \/ present = false ->
          trace (cleared E w1)
          = trace w1 ++ (if present then [deleting_line E; EvRmtree (common_path E)]
                         else []) ++ [extracting_line E]) as Hcleared.
  { intros _. unfold cleared. fold present. by destruct present. }
  assert (changed = true \/ present = false ->
          match zip_members d with
          | None => out = (Raise BadZipFile, cleared E w1)
          | Some ms =>
              exists evs,
                trace out.2
                = trace (cleared E w1) ++ EvExtract (zip_path E) (cldr_path E) :: evs /\
                Forall (fun e => kind_of e ∈ [KMkdir; KCreate]) evs /\
                (out.1 = Ok tt -> NoDup (map fst ms) ->
                 forall name data, (name, Some data) ∈ ms ->
                 fs out.2 !! (cldr_path E +:+ "/" +:+ name) = Some (File data))
          end) as Hperform.
  { intros Hgate. unfold out. rewrite (unpack_perform changed w1 Hgate).
    rewrite (extractall_run _ _ _ d (cleared_keeps_zip w1 d Hd)).
    destruct (zip_members d) as [ms|]; [|done].
    set (w2 := mkWorld _ _).
    destruct (extract_members_kinds (cldr_path E) ms w2) as (evs & Ht & Hf).
    exists evs. split; [rewrite Ht; unfold w2; simpl; by rewrite <- app_assoc|].
    split; [done|].
    intros Hok Hnd. apply (extract_members_placed _ ms w2); [done|].
    destruct (for_each ms _ w2) as [r w3]. simpl in Hok. by rewrite Hok. }
  split; [done|]. split; [done|]. split.
  { intros Hgate. split; [by apply Hcleared|]. exists d. split; [done|].
    by apply Hperform. }
  assert (forall e, e ∈ new_events w1 out.2 -> changed = true \/ present = false)
    as Hgated.
  { intros e Hin. destruct changed; [by left|]. right.
    destruct present eqn:Hp; [|done]. rewrite Hskip in Hin by done.
    unfold new_events in Hin. simpl in Hin. rewrite drop_all in Hin.
    by apply elem_of_nil in Hin. }
  split; [split; [apply Hgated|]|split].
  - intros Hgate. specialize (Hperform Hgate). specialize (Hcleared Hgate).
    assert (exists evs, trace out.2 = trace (cleared E w1) ++ evs) as [evs Ht].
    { destruct (zip_members d) as [ms|].
      - destruct Hperform as (evs & -> & _). eauto.
      - rewrite Hperform. exists []. by rewrite app_nil_r. }
    erewrite new_events_app; cycle 1.
    { rewrite Ht, Hcleared. by rewrite <- !app_assoc. }
    rewrite !elem_of_app. right. left. apply list_elem_of_here.
  - intros Hin. pose proof (Hgated _ Hin) as Hgate. split; [done|].
    exists d. split; [done|]. intros Hnone.
    specialize (Hperform Hgate). specialize (Hcleared Hgate).
    rewrite Hnone in Hperform. rewrite Hperform in Hin. simpl in Hin.
    rewrite (new_events_app _ _ _ Hcleared) in Hin.
    apply elem_of_app in Hin as [Hin|Hin].
    + destruct present; [|by apply elem_of_nil in Hin].
      repeat (apply elem_of_cons in Hin as [Hin|Hin]; [discriminate Hin|]).
      by apply elem_of_nil in Hin.
    + apply elem_of_cons in Hin as [Hin|Hin]; [discriminate Hin|].
      by apply elem_of_nil in Hin.
  - intros (Hgate & d' & Hd' & Hsome).
    assert (d' = d) as -> by congruence.
    specialize (Hperform Hgate).
    destruct (zip_members d) as [ms|]; [|done].
    destruct Hperform as (evs & Ht & _).
    destruct (Hcleared Hgate) as [].
    assert (exists pre, trace (cleared E w1) = trace w1 ++ pre) as [pre Hpre].
    { unfold cleared. destruct (isdir _ _); simpl; eauto. }
    erewrite new_events_app; cycle 1.
    { rewrite Ht, Hpre. by rewrite <- app_assoc. }
    rewrite elem_of_app. right. apply list_elem_of_here.
Qed.

End Unpack.

(** With the archive in place and nothing unpacked the extraction is begun,
    and the members of the archive end up below the extraction root. *)
Lemma extraction_gate_witness :
  let E := mock_env 0 in
  let out := @unpack mock_zip E false w_archive in
  @main_loop oracle_hashlib E (zip_path E) false w_archive = (Ok false, w_archive) /\
  isdir (fs w_archive) (common_path E) = false /\
  (extracting_line E ∈ new_events w_archive out.2) /\
  fs out.2 !! "/babel/cldr/core-31.0.1/common/main/en.xml"
  = Some (File (bytes_of "<ldml/>")).
Proof.
  cbv zeta.
  assert (@main_loop oracle_hashlib (mock_env 0) (zip_path (mock_env 0)) false w_archive
          = (Ok false, w_archive)) as Hloop by (vm_compute; reflexivity).
  assert (isdir (fs w_archive) (common_path (mock_env 0)) = false) as Habsent
    by (vm_compute; reflexivity).
  destruct (@extraction_gate oracle_hashlib mock_zip (mock_env 0)
              w_archive false w_archive Hloop) as (_ & _ & Hperform & Hiff & _).
  split; [exact Hloop|]. split; [exact Habsent|]. split.
  - apply Hiff. right. exact Habsent.
  - destruct (Hperform (or_intror Habsent)) as (_ & d & Hd & Hm).
    assert (Some (File d) = Some (File good_archive)) as [= ->].
    { rewrite <- Hd. vm_compute. reflexivity. }
    change (@zip_members mock_zip good_archive)
      with (Some [("common", None : option (list byte));
                  ("common/main/en.xml", Some (bytes_of "<ldml/>"));
                  ("common/dtd/ldml.dtd", Some (bytes_of "<!ELEMENT ldml>"))]) in Hm.
    destruct Hm as (evs & _ & _ & Hplaced).
    apply (Hplaced ltac:(vm_compute; reflexivity)
             ltac:(apply (bool_decide_unpack _); vm_compute; exact I)
             "common/main/en.xml").
    apply elem_of_cons. right. by left.
Defined.

(** With the archive and the tree in place nothing is unpacked. *)
Example unpack_skipped :
  let out := @unpack mock_zip (mock_env 0) false w_done in
  out.1 = Ok tt /\ trace out.2 = [].
Proof. vm_compute. split; reflexivity. Qed.

(** ** The state a run leaves *)

Section Final.

Context {hashlib : HashLib} {ElementTree : XmlLib} {zipfile : ZipLib}.
Variable E : Env.

Lemma split_seed_path : os_path.split (seed_path E) = (cldr_path E +:+ "/seed", "main").
Proof.
  rewrite seed_path_eq.
  replace (cldr_path E +:+ "/seed/main")
    with (((cldr_path E +:+ "/see") +:+ String "d" "") +:+ "/" +:+ "main")
    by (by rewrite !append_assoc).
  rewrite split_component by done. by rewrite append_assoc.
Qed.

(** [os.makedirs] of the seed directory, when it returns, has made it. *)
Lemma makedirs_seed_Ok w w' :
  os_makedirs (seed_path E) w = (Ok tt, w') -> fs w' !! seed_path E = Some Dir.
Proof.
  unfold os_makedirs. destruct (String.length (seed_path E)) as [|k];
    [apply os_mkdir_Ok|].
  simpl. rewrite split_seed_path. simpl.
  intros (f & w1 & _ & H)%bind_Ok_inv.
  destruct (_ && _).
  - apply bind_Ok_inv in H as ([] & w2 & _ & H). by apply os_mkdir_Ok in H.
  - by apply os_mkdir_Ok in H.
Qed.

Lemma fetch_index_and_mirror_adds_only : always adds_only (fetch_index_and_mirror E).
Proof.
  unfold fetch_index_and_mirror.
  apply always_guard_bind; [apply _ | intros w; apply fetch_new_adds_only |].
  unfold mirror_seed_files, ElementTree_parse.
  apply always_bind; [apply _ | | intros html].
  { apply always_bind; [apply _ | apply always_read_file; apply _ | intros data].
    always_auto. }
  apply always_bind; [apply _ | apply always_lift; apply _ | intros seed_xmls].
  apply always_for_each; [apply _ | intros xml_name].
  apply always_guard; [apply _ | intros w; apply fetch_new_adds_only].
Qed.

(** A seed mirror that returns leaves its directory. *)
Lemma get_seed_files_Ok_seed w w' :
  get_seed_files E (cldr_dl_path E) (cldr_path E) w = (Ok tt, w') ->
  exists_ (fs w') (seed_path E) = true.
Proof.
  unfold get_seed_files. fold (seed_path E) (html_path E).
  change (e ← path_exists (html_path E);
          when (negb e) (
            log "Downloading seed repo" [];;
            urlretrieve E SEED_URL (html_path E) None);;
          mirror_seed_files E (seed_path E) (html_path E))
    with (fetch_index_and_mirror E).
  unfold path_exists at 1. repeat (rewrite run_bind; simpl).
  assert (forall w1, exists_ (fs w1) (seed_path E) = true ->
            fetch_index_and_mirror E w1 = (Ok tt, w') ->
            exists_ (fs w') (seed_path E) = true) as Hrest.
  { intros w1 He Hr. pose proof (fetch_index_and_mirror_adds_only w1) as Ha.
    rewrite Hr in Ha. simpl in Ha. unfold exists_ in *.
    destruct (fs w1 !! seed_path E) as [n|] eqn:Hn; [|done].
    by rewrite (Ha _ n ltac:(tauto) Hn). }
  destruct (exists_ (fs w) (seed_path E)) eqn:He; simpl.
  - by apply Hrest.
  - destruct (os_makedirs (seed_path E) w) as [[[]|e] w1] eqn:Hm; [|done].
    apply Hrest. unfold exists_. by rewrite (makedirs_seed_Ok w w1 Hm).
Qed.


End Final.


(** * Further properties of the script *)

(** ** The loop asks the server at most once *)

Section LoopOnce.

Context {hashlib : HashLib}.
Variable E : Env.

Lemma main_loop_requests_trace zip changed w :
  requests (trace (main_loop E zip changed w).2)
  = requests (trace w) ++ (if isfile (fs w) zip then [] else [EvRequest URL]).
Proof.
  assert (forall v, requests (trace (is_good_file zip v).2) = requests (trace v)) as Hgood.
  { intros v. apply (emits_no_requests [KErr]); [by apply not_in_kinds|].
    apply is_good_file_kinds. kinds_incl. }
  destruct (isfile (fs w) zip) eqn:Hz.
  - rewrite app_nil_r, main_loop_step. specialize (Hgood w).
    pose proof (is_good_file_eq zip w) as Heq. unfold isfile in Hz.
    destruct (fs w !! zip) as [[d|]|]; try done.
    destruct (String.eqb _ _); rewrite Heq in *; exact Hgood.
  - rewrite main_loop_absent, fetch_archive_absent_eq by done. simpl.
    pose proof (urlretrieve_requests E download_kinds URL zip (Some (reporthook E))
                  (mkWorld (fs w) ((trace w ++ [not_found_line zip])
                                   ++ [downloading_line]))
                  ltac:(kinds_incl) ltac:(by apply not_in_kinds)
                  (quiet_reporthook_download E)) as Hu.
    simpl in Hu. rewrite !requests_app in Hu. simpl in Hu. rewrite !app_nil_r in Hu.
    destruct (urlretrieve E URL zip _ _) as [[[]|e] w2]; simpl in *; [|done].
    specialize (Hgood (mkWorld (fs w2) (trace w2 ++ [EvWrite Stdout nl]))).
    simpl in Hgood. rewrite requests_app in Hgood. simpl in Hgood.
    rewrite app_nil_r, Hu in Hgood.
    by destruct (is_good_file zip _) as [[b|e] w3].
Qed.

(** When the loop returns, [changed] tells whether it has run its body. *)
Lemma main_loop_Ok_changed zip changed w c w' :
  main_loop E zip changed w = (Ok c, w') -> c = changed || negb (isfile (fs w) zip).
Proof.
  destruct (isfile (fs w) zip) eqn:Hz.
  - unfold isfile in Hz. destruct (fs w !! zip) as [[d|]|] eqn:Hd; try done.
    rewrite (main_loop_present E zip changed w d Hd).
    destruct (String.eqb _ _); [|done]. intros [= <- _]. by rewrite orb_false_r.
  - rewrite main_loop_absent by done.
    destruct (fetch_archive E zip _) as [[[]|e] w2]; [|done].
    destruct (is_good_file zip w2) as [[b|e] w3]; [|done].
    intros [= <- _]. by rewrite orb_true_r.
Qed.

(** X1. Whatever the server answers and however the run ends, the loop of
    [main] asks the server for the archive once when there is no file at
    the place of the archive, and not at all when there is one; and when
    the loop returns, [changed] is [True] exactly when it has asked (or
    was [True] before). *)
Theorem loop_fetches_at_most_once (zip : string) (changed : bool) (w : World) :
  requests (new_events w (main_loop E zip changed w).2)
  = (if isfile (fs w) zip then [] else [EvRequest URL]) /\
  (forall c w', main_loop E zip changed w = (Ok c, w') ->
     c = changed || negb (isfile (fs w) zip)).
Proof.
  split.
  - destruct (main_loop_kinds E kinds_but_remove zip changed
                ltac:(kinds_incl) ltac:(kinds_incl) ltac:(kinds_incl)
                ltac:(kinds_incl) ltac:(kinds_incl) w) as (evs & Ht & _).
    pose proof (main_loop_requests_trace zip changed w) as Hr.
    rewrite Ht, requests_app in Hr. apply app_inv_head in Hr.
    by rewrite (new_events_app _ _ _ Ht).
  - intros c w'. apply main_loop_Ok_changed.
Qed.

End LoopOnce.

(** ** What a run leaves alone *)

Section Frame.

Context {hashlib : HashLib} {ElementTree : XmlLib} {zipfile : ZipLib}.
Variable E : Env.





(** X3. The delegate is invoked only as the last thing a run does, with
    the arguments of the script, and only after the archive on disk has
    been found to have the expected digest, the unpacking and the seed
    mirror having returned. *)
Theorem delegate_only_after_verification (w : World) (args : list string) :
  EvCall args ∈ new_events w (main E w).2 ->
  args = delegate_args E /\
  (exists pre, new_events w (main E w).2 = pre ++ [EvCall (delegate_args E)] /\
               calls pre = []) /\
  (exists d, fs (main E w).2 !! zip_path E = Some (File d) /\ digest_of d = FILESUM).
Proof.
  assert (KCall ∉ kinds_before_call) as Hk by (by apply not_in_kinds).
  assert (forall evs, Forall (fun e => kind_of e ∈ kinds_before_call) evs ->
            EvCall args ∉ evs) as Hnone.
  { intros evs Hf Hin. rewrite Forall_forall in Hf. by apply Hf in Hin. }
  rewrite main_eq.
  destruct (main_loop_kinds E kinds_before_call (zip_path E) false
              ltac:(kinds_incl) ltac:(kinds_incl) ltac:(kinds_incl)
              ltac:(kinds_incl) ltac:(kinds_incl) w) as (e1 & H1 & F1).
  destruct (main_loop E (zip_path E) false w) as [[changed|e] w1] eqn:Hloop;
    simpl in H1; cycle 1.
  { simpl. rewrite (new_events_app _ _ _ H1). intros Hin. by apply Hnone in Hin. }
  destruct (main_loop_Ok E w changed w1 Hloop) as (_ & _ & d & Hd & Hgood).
  unfold after_loop. rewrite run_bind.
  destruct (unpack_kinds E kinds_before_call changed
              ltac:(kinds_incl) ltac:(kinds_incl) ltac:(kinds_incl)
              ltac:(kinds_incl) ltac:(kinds_incl) w1) as (e2 & H2 & F2).
  pose proof (unpack_kept_zip E changed w1) as Hk2.
  destruct (unpack E changed w1) as [[[]|e] w2]; simpl in H2, Hk2; cycle 1.
  { simpl. rewrite (new_events_app _ _ (e1 ++ e2)) by (by rewrite H2, H1, app_assoc).
    intros Hin. exfalso. apply (Hnone (e1 ++ e2)); [by rewrite Forall_app | done]. }
  rewrite run_bind.
  destruct (get_seed_files_kinds E kinds_before_call (cldr_dl_path E) (cldr_path E)
              ltac:(kinds_incl) ltac:(kinds_incl) ltac:(kinds_incl)
              ltac:(kinds_incl) w2) as (e3 & H3 & F3).
  pose proof (get_seed_files_adds_only E (cldr_dl_path E) (cldr_path E) w2) as Hk3.
  destruct (get_seed_files E _ _ w2) as [[[]|e] w3]; simpl in H3, Hk3; cycle 1.
  { simpl. rewrite (new_events_app _ _ (e1 ++ e2 ++ e3))
      by (by rewrite H3, H2, H1, !app_assoc).
    intros Hin. exfalso. apply (Hnone (e1 ++ e2 ++ e3)); [by rewrite !Forall_app | done]. }
  assert (Forall (fun e => kind_of e ∈ kinds_before_call) (e1 ++ e2 ++ e3)) as F
    by (by rewrite !Forall_app).
  assert (exists r, check_call E (delegate_args E) w3
                    = (r, mkWorld (fs w3) (trace w3 ++ [EvCall (delegate_args E)])))
    as [r Hcall].
  { unfold check_call. repeat (rewrite run_bind; simpl).
    destruct (_ =? 0); simpl; eauto. }
  rewrite Hcall. simpl.
  rewrite (new_events_app _ _ ((e1 ++ e2 ++ e3) ++ [EvCall (delegate_args E)]))
    by (by rewrite H3, H2, H1, !app_assoc).
  intros [Hin|Hin]%elem_of_app; [by apply Hnone in Hin|].
  apply list_elem_of_singleton in Hin as [= ->].
  split; [done|]. split.
  - exists (e1 ++ e2 ++ e3). split; [done|].
    by apply (calls_none kinds_before_call).
  - exists d. split; [|done]. apply Hk3; [tauto|]. by apply Hk2.
Qed.

End Frame.

(** ** The seed mirror *)

Section SeedMirror.

Context {ElementTree : XmlLib}.
Variable E : Env.

(** A download without a hook to a place that is free, when it returns:
    one request, and the file is there. *)
Lemma fetch_new_Ok message args url p w w' :
  exists_ (fs w) p = false ->
  (log message args;; urlretrieve E url p None) w = (Ok tt, w') ->
  adds_only w w' /\ exists_ (fs w') p = true /\
  requests (new_events w w') = [EvRequest url] /\
  exists evs, trace w' = trace w ++ evs.
Proof.
  intros Hp Hrun.
  pose proof (fetch_new_adds_only E message args url p w Hp) as Hadd.
  destruct (fetch_new_requests E message args url p w) as [Hreq Hext].
  rewrite Hrun in Hadd, Hreq, Hext. simpl in Hadd, Hreq, Hext.
  apply bind_Ok_inv in Hrun as ([] & w1 & Hlog & Hu).
  rewrite Hlog in Hreq. simpl in Hreq.
  apply (urlretrieve_Ok E []) in Hu as (fp & _ & _ & Hfs); [|apply quiet_None].
  split; [done|]. split; [|done].
  unfold exists_. by rewrite Hfs, lookup_insert_eq.
Qed.

(** The loop of the mirror, when it returns: it has only added, every name
    is there, and what it has asked for was not there before. *)
Lemma mirror_loop_Ok seed names w0 w w' :
  adds_only w0 w ->
  for_each names (fetch_if_missing E seed) w = (Ok tt, w') ->
  adds_only w w' /\
  Forall (fun n => exists_ (fs w') (os_path.join seed n) = true) names /\
  (exists evs, trace w' = trace w ++ evs) /\
  exists fetched,
    requests (new_events w w') = map (fun n => EvRequest (SEED_URL +:+ n)) fetched /\
    Forall (fun n => n ∈ names /\ exists_ (fs w0) (os_path.join seed n) = false) fetched.
Proof.
  revert w. induction names as [|n names IH]; intros w H0; simpl.
  - intros [= <-]. split; [reflexivity|]. split; [done|].
    split; [by exists []; rewrite app_nil_r|]. exists [].
    by rewrite (new_events_app _ _ []) by (by rewrite app_nil_r).
  - intros ([] & w1 & H1 & H2)%bind_Ok_inv.
    unfold fetch_if_missing, path_exists in H1.
    repeat (rewrite run_bind in H1; simpl in H1).
    assert (forall x, x ∈ names -> x ∈ n :: names) as Hin by (intros; by right).
    destruct (exists_ (fs w) (os_path.join seed n)) eqn:He; simpl in H1.
    + injection H1 as <-.
      destruct (IH w H0 H2) as (Ha & Hf & Hext & fetched & Hreq & Hfe).
      split; [done|]. split; [|split; [done|]].
      * constructor; [|done]. unfold exists_ in *.
        destruct (fs w !! os_path.join seed n) as [x|] eqn:Hx; [|done].
        by rewrite (Ha _ x ltac:(tauto) Hx).
      * exists fetched. split; [done|].
        eapply Forall_impl; [exact Hfe|]. intros x [? ?]. auto.
    + apply fetch_new_Ok in H1 as (Ha1 & He1 & Hreq1 & Hext1); [|done].
      assert (adds_only w0 w1) as H01 by (by etrans).
      destruct (IH w1 H01 H2) as (Ha & Hf & Hext & fetched & Hreq & Hfe).
      split; [by etrans|]. split; [|split].
      * constructor; [|done]. unfold exists_ in *.
        destruct (fs w1 !! os_path.join seed n) as [x|] eqn:Hx; [|done].
        by rewrite (Ha _ x ltac:(tauto) Hx).
      * destruct Hext1 as [e1 E1]. destruct Hext as [e2 E2].
        exists (e1 ++ e2). by rewrite E2, E1, app_assoc.
      * exists (n :: fetched). split.
        -- rewrite (new_events_trans w w1 w') by done.
           by rewrite requests_app, Hreq1, Hreq.
        -- constructor.
           ++ split; [by left|]. unfold exists_ in *.
              destruct (fs w0 !! os_path.join seed n) as [x|] eqn:Hx; [|done].
              by rewrite (H0 _ x ltac:(tauto) Hx) in He.
           ++ eapply Forall_impl; [exact Hfe|]. intros x [? ?]. auto.
Qed.

End SeedMirror.

(** ** [get_seed_files] as a whole *)

#[global] Instance creates_within_preorder S : PreOrder (creates_within S).
Proof.
  split; [by intros w q | intros x y z Hxy Hyz q Hq Hx; eauto].
Qed.

Lemma os_mkdir_creates_within (S : string -> Prop) p :
  S p -> always (creates_within S) (os_mkdir p).
Proof.
  intros Hp w q Hq Hn. unfold os_mkdir. rewrite run_bind. simpl.
  destruct (exists_ (fs w) p); simpl; [done|].
  destruct (isdir (fs w) (os_path.dirname p)); simpl; [|done].
  rewrite lookup_insert_ne; [done|]. by intros ->.
Qed.

Lemma creates_within_mono (S S' : string -> Prop) w w' :
  (forall q, S q -> S' q) -> creates_within S w w' -> creates_within S' w w'.
Proof. intros HS H q Hq. apply H. auto. Qed.

(** [os.makedirs(name)] makes nothing but [name] and what [name] starts
    with. *)
Lemma os_makedirs_creates_within name :
  always (creates_within (fun q => String.prefix q name = true)) (os_makedirs name).
Proof.
  unfold os_makedirs. generalize (String.length name) as fuel.
  intros fuel. revert name. induction fuel as [|fuel IH]; intros name; simpl.
  { apply os_mkdir_creates_within, (prefix_of_eq _ _ ""). by rewrite append_nil_r. }
  assert (always (creates_within (fun q => String.prefix q name = true)) (os_mkdir name))
    as Hmk.
  { apply os_mkdir_creates_within, (prefix_of_eq _ _ ""). by rewrite append_nil_r. }
  pose proof (dirname_prefix name) as Hd. unfold os_path.dirname in Hd.
  destruct (os_path.split name) as [head tail] eqn:Hs. simpl in Hd.
  assert (forall h t, (if String.eqb tail "" then os_path.split head else (head, tail))
                      = (h, t) -> String.prefix h name = true) as Hh.
  { intros h t. destruct (String.eqb tail ""); [|by intros [= <- _]].
    intros Hs2. pose proof (dirname_prefix head) as Hd2. unfold os_path.dirname in Hd2.
    rewrite Hs2 in Hd2. simpl in Hd2. by eapply prefix_trans. }
  destruct (if String.eqb tail "" then _ else _) as [h t].
  specialize (Hh h t eq_refl).
  apply always_bind; [apply _ | apply always_get_fs; apply _ | intros f].
  destruct (_ && _); [|done].
  apply always_bind; [apply _ | | intros _].
  - apply always_ignore_exists. intros w.
    eapply creates_within_mono; [|apply IH]. intros q Hq. simpl in Hq.
    by eapply prefix_trans.
  - destruct (String.eqb t "."); [apply always_ret; apply _ | done].
Qed.

Section SeedFiles.

Context {ElementTree : XmlLib}.
Variable E : Env.

Lemma html_not_made : String.prefix (html_path E) (seed_path E) = false.
Proof.
  rewrite seed_path_eq, cldr_path_eq. unfold html_path.
  destruct (cldr_dl_path_shape E) as [a Ha]. rewrite Ha.
  rewrite join_snoc by done. rewrite !append_assoc. by rewrite prefix_app_head.
Qed.

(** The mirror proper, when it returns. *)
Lemma mirror_seed_files_Ok w0 w w' :
  adds_only w0 w ->
  mirror_seed_files E (seed_path E) (html_path E) w = (Ok tt, w') ->
  adds_only w w' /\ (exists evs, trace w' = trace w ++ evs) /\
  exists d root,
    fs w !! html_path E = Some (File d) /\ xml_parse d = Some root /\
    let names := List.filter (PyStr.contains "xml")
                   (omap text (findall_body_ul_li_a root)) in
    seed_xmls_of (findall_body_ul_li_a root) = Ok names /\
    Forall (fun n => exists_ (fs w') (os_path.join (seed_path E) n) = true) names /\
    exists fetched,
      requests (new_events w w') = map (fun n => EvRequest (SEED_URL +:+ n)) fetched /\
      Forall (fun n => n ∈ names /\
                       exists_ (fs w0) (os_path.join (seed_path E) n) = false) fetched.
Proof.
  intros H0. unfold mirror_seed_files, ElementTree_parse, read_file.
  repeat (rewrite run_bind; simpl).
  destruct (fs w !! html_path E) as [[d|]|] eqn:Hd; simpl; try done.
  destruct (xml_parse d) as [root|] eqn:Hroot; simpl; [|done].
  rewrite run_bind. unfold lift at 1.
  destruct (seed_xmls_of (findall_body_ul_li_a root)) as [l|] eqn:Hl; [|done].
  pose proof (seed_xmls_of_Ok _ _ Hl) as Hnames. subst l. intros Hloop.
  destruct (mirror_loop_Ok E (seed_path E) _ w0 w w' H0 Hloop)
    as (Ha & Hf & Hext & fetched & Hreq & Hfe).
  split; [done|]. split; [done|]. exists d, root. split; [done|]. split; [done|].
  cbv zeta. split; [done|]. split; [done|]. by exists fetched.
Qed.

End SeedFiles.

Section SeedFilesRun.

Context {ElementTree : XmlLib}.
Variable E : Env.

Lemma get_seed_files_stages w :
  get_seed_files E (cldr_dl_path E) (cldr_path E) w =
  if exists_ (fs w) (seed_path E) then fetch_index_and_mirror E w
  else match os_makedirs (seed_path E) w with
       | (Ok _, w1) => fetch_index_and_mirror E w1
       | (Raise e, w1) => (Raise e, w1)
       end.
Proof.
  unfold get_seed_files. fold (seed_path E) (html_path E).
  change (e ← path_exists (html_path E);
          when (negb e) (
            log "Downloading seed repo" [];;
            urlretrieve E SEED_URL (html_path E) None);;
          mirror_seed_files E (seed_path E) (html_path E))
    with (fetch_index_and_mirror E).
  unfold path_exists at 1. repeat (rewrite run_bind; simpl).
  destruct (exists_ (fs w) (seed_path E)); simpl; [done|].
  by destruct (os_makedirs (seed_path E) w) as [[[]|e] w1].
Qed.

Lemma fetch_index_and_mirror_stages w :
  fetch_index_and_mirror E w =
  if exists_ (fs w) (html_path E)
  then mirror_seed_files E (seed_path E) (html_path E) w
  else match (log "Downloading seed repo" [];;
              urlretrieve E SEED_URL (html_path E) None) w with
       | (Ok _, w1) => mirror_seed_files E (seed_path E) (html_path E) w1
       | (Raise e, w1) => (Raise e, w1)
       end.
Proof.
  unfold fetch_index_and_mirror, path_exists. repeat (rewrite run_bind; simpl).
  destruct (exists_ (fs w) (html_path E)); simpl; [done|].
  rewrite run_bind. simpl. by destruct (urlretrieve _ _ _ _ _) as [[[]|e] w1].
Qed.

Lemma adds_only_exists w w' p :
  adds_only w w' -> exists_ (fs w) p = true -> exists_ (fs w') p = true.
Proof.
  unfold exists_. intros Ha. destruct (fs w !! p) as [n|] eqn:Hn; [|done].
  by rewrite (Ha _ n ltac:(tauto) Hn).
Qed.

(** Everything [get_seed_files] has done when it returns. *)
Lemma get_seed_files_Ok_all w w' :
  get_seed_files E (cldr_dl_path E) (cldr_path E) w = (Ok tt, w') ->
  adds_only w w' /\
  exists_ (fs w') (seed_path E) = true /\
  exists d root names fetched,
    fs w' !! html_path E = Some (File d) /\ xml_parse d = Some root /\
    names = List.filter (PyStr.contains "xml")
              (omap text (findall_body_ul_li_a root)) /\
    seed_xmls_of (findall_body_ul_li_a root) = Ok names /\
    Forall (fun n => exists_ (fs w') (os_path.join (seed_path E) n) = true) names /\
    requests (new_events w w')
    = (if exists_ (fs w) (html_path E) then [] else [EvRequest SEED_URL])
      ++ map (fun n => EvRequest (SEED_URL +:+ n)) fetched /\
    Forall (fun n => n ∈ names /\
                     exists_ (fs w) (os_path.join (seed_path E) n) = false) fetched.
Proof.
  intros H. pose proof (get_seed_files_Ok_seed E w w' H) as Hseed.
  rewrite get_seed_files_stages in H.
  (* the directory *)
  assert (exists w1 e1,
            adds_only w w1 /\ trace w1 = trace w ++ e1 /\ requests e1 = [] /\
            exists_ (fs w1) (html_path E) = exists_ (fs w) (html_path E) /\
            fetch_index_and_mirror E w1 = (Ok tt, w')) as (w1 & e1 & Ha1 & Ht1 & Hr1 & Hh1 & H1).
  { destruct (exists_ (fs w) (seed_path E)).
    - exists w, []. split; [reflexivity|]. by rewrite app_nil_r.
    - pose proof (os_makedirs_adds_only (seed_path E) w) as Ha.
      pose proof (os_makedirs_creates_within (seed_path E) w) as Hc.
      destruct (os_makedirs_kinds [KMkdir] (seed_path E) ltac:(kinds_incl) w)
        as (e1 & Ht & Hf).
      destruct (os_makedirs (seed_path E) w) as [[[]|e] w1]; [|done].
      simpl in *. exists w1, e1. split; [done|]. split; [done|].
      split; [by apply (requests_none [KMkdir]); [apply not_in_kinds|]|].
      split; [|done]. unfold exists_.
      destruct (fs w !! html_path E) as [n|] eqn:Hn.
      + by rewrite (Ha _ n ltac:(tauto) Hn).
      + rewrite (Hc (html_path E)); [done | | done]. simpl. by rewrite html_not_made. }
  (* the index page *)
  rewrite fetch_index_and_mirror_stages in H1.
  assert (exists w2,
            adds_only w1 w2 /\ (exists e2, trace w2 = trace w1 ++ e2) /\
            requests (new_events w1 w2)
            = (if exists_ (fs w1) (html_path E) then [] else [EvRequest SEED_URL]) /\
            mirror_seed_files E (seed_path E) (html_path E) w2 = (Ok tt, w'))
    as (w2 & Ha2 & Ht2 & Hr2 & H2).
  { destruct (exists_ (fs w1) (html_path E)) eqn:He.
    - exists w1. split; [reflexivity|]. split; [by exists []; rewrite app_nil_r|].
      split; [|done]. by rewrite (new_events_app _ _ []) by (by rewrite app_nil_r).
    - destruct ((log "Downloading seed repo" [];;
                 urlretrieve E SEED_URL (html_path E) None) w1) as [[[]|e] w2] eqn:Hf;
        [|done].
      apply fetch_new_Ok in Hf as (Ha & _ & Hr & Ht); [|done].
      by exists w2. }
  assert (adds_only w w2) as H02 by (by etrans).
  destruct (mirror_seed_files_Ok E w w2 w' H02 H2)
    as (Ha3 & Ht3 & d & root & Hd & Hroot & Hok & Hall & fetched & Hreq & Hfe).
  cbv zeta in *.
  split; [by etrans|]. split; [done|].
  exists d, root, (List.filter (PyStr.contains "xml")
                    (omap text (findall_body_ul_li_a root))), fetched.
  split; [by apply Ha3; [tauto|]|].
  split; [done|]. split; [done|]. split; [done|]. split; [done|]. split; [|done].
  rewrite <- Hh1, <- Hr2, <- Hreq.
  assert (new_events w w1 = e1) as He1 by (by apply new_events_app).
  rewrite (new_events_trans w w1 w'), (new_events_trans w1 w2 w'), He1; try done.
  - by rewrite !requests_app, Hr1.
  - by exists e1.
  - destruct Ht2 as [e2 E2]. destruct Ht3 as [e3 E3]. exists (e2 ++ e3).
    by rewrite E3, E2, app_assoc.
Qed.

End SeedFilesRun.

Section SeedFilesProps.

Context {ElementTree : XmlLib}.
Variable E : Env.


(** X5. Calling [get_seed_files] again after it has returned does
    nothing: it returns, and the file system and the trace are as they
    were (no directory made, no request, no line in the log). *)
Theorem get_seed_files_idempotent (w w' : World) :
  get_seed_files E (cldr_dl_path E) (cldr_path E) w = (Ok tt, w') ->
  get_seed_files E (cldr_dl_path E) (cldr_path E) w' = (Ok tt, w').
Proof.
  intros (_ & Hseed & d & root & names & fetched & Hd & Hroot & _ & Hok & Hall & _)
    %get_seed_files_Ok_all.
  rewrite get_seed_files_stages, Hseed, fetch_index_and_mirror_stages.
  unfold exists_ at 1. rewrite Hd.
  unfold mirror_seed_files, ElementTree_parse, read_file.
  repeat (rewrite run_bind; simpl). rewrite Hd. simpl. rewrite Hroot. simpl.
  rewrite run_bind. unfold lift at 1. rewrite Hok.
  by apply (mirror_all_present E).
Qed.


End SeedFilesProps.

(** ** The layout of the checkout *)

Lemma snoc_of_nonempty s : s <> "" -> exists a x, s = a +:+ String x "".
Proof.
  induction s as [|y s IH]; [done|]. intros _. destruct s as [|z s].
  - by exists "", y.
  - destruct IH as (a & x & ->); [done|]. exists (String y a), x. by rewrite append_cons.
Qed.

Lemma endswith_sep_false a x :
  PyStr.endswith "/" (a +:+ String x "") = false -> x <> os_path.sep.
Proof.
  unfold PyStr.endswith. rewrite rev_snoc.
  change (PyStr.rev "/") with (String os_path.sep "").
  intros H ->. simpl in H. destruct (ascii_dec os_path.sep os_path.sep); [|done].
  by destruct (PyStr.rev a).
Qed.

Lemma lacks_last x a y : PyStr.lacks x (a +:+ String y "") = true -> y <> x.
Proof.
  rewrite lacks_app. simpl. intros [_ H]%andb_true_iff.
  rewrite andb_true_r in H. apply negb_true_iff, Ascii.eqb_neq in H. congruence.
Qed.

Section Layout.

Context {hashlib : HashLib} {ElementTree : XmlLib} {zipfile : ZipLib}.
Variable E : Env.

(** X7. For a script at [root/dir/file], with [dir] and [file] plain
    names and [root] a path that does not end in a slash, every path the
    script uses lies in [root/cldr], the sibling of the directory of the
    script, and the conversion tool is taken from the directory of the
    script. *)
Theorem paths_relative_to_script (root dir file : string) :
  script_file E = root +:+ "/" +:+ dir +:+ "/" +:+ file ->
  root <> "" -> PyStr.endswith "/" root = false ->
  dir <> "" -> PyStr.lacks os_path.sep dir = true ->
  PyStr.lacks os_path.sep file = true ->
  zip_path E = root +:+ "/cldr/core-31.0.1.zip" /\
  cldr_path E = root +:+ "/cldr/core-31.0.1" /\
  common_path E = root +:+ "/cldr/core-31.0.1/common" /\
  html_path E = root +:+ "/cldr/seed-31.0.1.html" /\
  seed_path E = root +:+ "/cldr/core-31.0.1/seed/main" /\
  delegate_args E
  = [sys_executable E; root +:+ "/" +:+ dir +:+ "/import_cldr.py";
     root +:+ "/cldr/core-31.0.1"].
Proof.
  intros Hfile Hroot Hend Hdir Hlacks Hlf.
  destruct (snoc_of_nonempty root Hroot) as (a & x & ->).
  destruct (snoc_of_nonempty dir Hdir) as (b & y & ->).
  apply endswith_sep_false in Hend. pose proof (lacks_last _ _ _ Hlacks) as Hy.
  assert (scripts_path E = (a +:+ String x "") +:+ "/" +:+ b +:+ String y "") as Hs.
  { unfold scripts_path. rewrite Hfile.
    replace ((a +:+ String x "") +:+ "/" +:+ (b +:+ String y "") +:+ "/" +:+ file)
      with ((((a +:+ String x "") +:+ "/" +:+ b) +:+ String y "") +:+ "/" +:+ file)
      by (by rewrite !append_assoc).
    rewrite dirname_component by done. by rewrite !append_assoc. }
  assert (repo E = a +:+ String x "") as Hr.
  { unfold repo. rewrite Hs. by apply dirname_component. }
  assert (cldr_dl_path E = (a +:+ String x "") +:+ "/cldr") as Hdl.
  { unfold cldr_dl_path. rewrite Hr. by rewrite join_snoc. }
  assert (cldr_path E = (a +:+ String x "") +:+ "/cldr/core-31.0.1") as Hc.
  { by rewrite cldr_path_eq, Hdl, append_assoc. }
  split; [by rewrite zip_path_eq, Hdl, append_assoc|]. split; [done|].
  split; [by rewrite common_path_eq, Hc, append_assoc|].
  split.
  { unfold html_path. rewrite Hdl.
    replace ((a +:+ String x "") +:+ "/cldr")
      with ((a +:+ String x "" +:+ "/cld") +:+ String "r" "")
      by (by rewrite !append_assoc).
    rewrite join_snoc by done. by rewrite !append_assoc. }
  split; [by rewrite seed_path_eq, Hc, append_assoc|].
  unfold delegate_args. rewrite Hc, Hs. f_equal. f_equal.
  replace ((a +:+ String x "") +:+ "/" +:+ b +:+ String y "")
    with (((a +:+ String x "") +:+ "/" +:+ b) +:+ String y "")
    by (by rewrite !append_assoc).
  rewrite join_snoc by done. by rewrite !append_assoc.
Qed.

End Layout.

(** ** What a run asks the server for *)

#[global] Instance changes_within_preorder S : PreOrder (changes_within S).
Proof.
  split; [by intros w q | intros x y z Hxy Hyz q Hq].
  by rewrite (Hyz q Hq), (Hxy q Hq).
Qed.

Lemma changes_within_mono (S S' : string -> Prop) w w' :
  (forall q, S q -> S' q) -> changes_within S w w' -> changes_within S' w w'.
Proof. intros HS H q Hq. apply H. auto. Qed.

Lemma touches_changes_within (S : string -> Prop) p w w' :
  S p -> touches p w w' -> changes_within S w w'.
Proof. intros Hp H q Hq. apply H. by intros ->. Qed.

Lemma same_fs_changes_within S w w' : same_fs w w' -> changes_within S w w'.
Proof. unfold same_fs. intros H q _. by rewrite H. Qed.

Lemma adds_creates_changes_within S w w' :
  adds_only w w' -> creates_within S w w' -> changes_within S w w'.
Proof.
  intros Ha Hc q Hq. destruct (fs w !! q) as [n|] eqn:Hn.
  - by apply Ha; [tauto|].
  - by apply Hc.
Qed.

Lemma os_mkdir_changes_within (S : string -> Prop) p :
  S p -> always (changes_within S) (os_mkdir p).
Proof.
  intros Hp w. apply adds_creates_changes_within;
    [apply os_mkdir_adds_only | by apply os_mkdir_creates_within].
Qed.

Lemma os_makedirs_changes_within name :
  always (changes_within (fun q => String.prefix q name = true)) (os_makedirs name).
Proof.
  intros w. apply adds_creates_changes_within;
    [apply os_makedirs_adds_only | apply os_makedirs_creates_within].
Qed.

Lemma shutil_rmtree_changes_within p :
  always (changes_within (fun q => q = p \/ below p q = true)) (shutil_rmtree p).
Proof.
  intros w q Hq. unfold shutil_rmtree. rewrite run_bind. simpl.
  destruct (fs w !! p) as [[d|]|]; simpl; try done.
  destruct (fs w !! q) as [n|] eqn:Hn.
  - apply map_lookup_filter_Some. split; [done|]. simpl.
    apply negb_true_iff, orb_false_iff. split.
    + apply String.eqb_neq. intros ->. apply Hq. by left.
    + apply not_true_is_false. intros Hb. apply Hq. by right.
  - apply map_lookup_filter_None. by left.
Qed.

(** A text that a longer text starts with: it starts the first part, or the
    first part starts it. *)
Lemma prefix_app_cases q a b :
  String.prefix q (a +:+ b) = true ->
  String.prefix q a = true \/ String.prefix a q = true.
Proof.
  revert q. induction a as [|x a IH]; intros q; [intros _; right; by destruct q|].
  destruct q as [|y q]; [by left|]. rewrite append_cons. simpl.
  destruct (ascii_dec y x) as [->|]; [|done].
  destruct (ascii_dec x x); [|done]. apply IH.
Qed.

Section Requests.

Context {hashlib : HashLib} {ElementTree : XmlLib} {zipfile : ZipLib}.
Variable E : Env.

(** Unpacking changes nothing but what lies below the destination and
    what the destination starts with. *)
Lemma extractall_changes_within zip dest :
  always (changes_within (fun q => String.prefix q (dest +:+ "/") = true \/
                                   below dest q = true))
         (extractall zip dest).
Proof.
  unfold extractall.
  apply always_bind; [apply _ | apply always_read_file; apply _ | intros data].
  destruct (zip_members data) as [ms|]; [|apply always_raise; apply _].
  apply always_bind; [apply _ | | intros _].
  { intros w. by apply same_fs_changes_within. }
  apply always_for_each; [apply _|]. intros [name content]. unfold extract_member.
  assert (below dest (dest +:+ "/" +:+ name) = true) as Htp.
  { unfold below. rewrite <- append_assoc. apply prefix_app. }
  apply always_bind; [apply _ | apply always_path_exists; apply _ | intros e].
  apply always_bind; [apply _ | | intros _].
  { apply always_when; [apply _|]. intros w.
    eapply changes_within_mono; [|apply os_makedirs_changes_within].
    intros q Hq. simpl in Hq.
    pose proof (prefix_trans _ _ _ Hq (dirname_prefix _)) as Hq'.
    rewrite <- append_assoc in Hq'. apply prefix_app_cases in Hq'. exact Hq'. }
  destruct content as [data'|].
  - apply always_bind; [apply _ | | intros _]; intros w.
    + eapply touches_changes_within; [|apply create_file_touches]. by right.
    + eapply touches_changes_within; [|apply append_file_touches]. by right.
  - apply always_bind; [apply _ | apply always_path_isdir; apply _ | intros d].
    apply always_when; [apply _|]. apply os_mkdir_changes_within. by right.
Qed.

Lemma unpack_changes_within changed :
  always (changes_within (fun q => String.prefix q (cldr_path E +:+ "/") = true \/
                                   below (cldr_path E) q = true))
         (unpack E changed).
Proof.
  unfold unpack.
  apply always_bind; [apply _ | apply always_path_isdir; apply _ | intros d].
  apply always_when; [apply _|].
  apply always_bind; [apply _ | apply always_path_isdir; apply _ | intros d'].
  apply always_bind; [apply _ | | intros _].
  { apply always_when; [apply _|].
    apply always_bind; [apply _ | | intros _]; intros w.
    - apply same_fs_changes_within, log_same_fs.
    - eapply changes_within_mono; [|apply shutil_rmtree_changes_within].
      intros q Hq. right. by apply below_common_cldr. }
  apply always_bind; [apply _ | | intros _].
  { intros w. apply same_fs_changes_within, log_same_fs. }
  apply extractall_changes_within.
Qed.

Lemma main_loop_touches zip changed : always (touches zip) (main_loop E zip changed).
Proof.
  apply always_main_loop; [apply _ | |].
  - intros w. apply same_fs_touches, is_good_file_same_fs.
  - intros w Hz. rewrite fetch_archive_absent_eq by done.
    pose proof (urlretrieve_touches E [KOut; KFlush] URL zip (Some (reporthook E))
                  (quiet_reporthook E)
                  (mkWorld (fs w) (trace w ++ [downloading_line]))) as Hu.
    by destruct (urlretrieve E URL zip _ _) as [[[]|e] w2].
Qed.

Lemma html_path_eq : html_path E = cldr_dl_path E +:+ "/seed-31.0.1.html".
Proof.
  unfold html_path. destruct (cldr_dl_path_shape E) as [a Ha]. rewrite Ha.
  by rewrite join_snoc.
Qed.

(** Neither the loop nor the unpacking touches the index page. *)
Lemma html_untouched changed w w1 w2 :
  (main_loop E (zip_path E) false w).2 = w1 ->
  (unpack E changed w1).2 = w2 ->
  fs w2 !! html_path E = fs w !! html_path E.
Proof.
  intros <- <-.
  rewrite (unpack_changes_within changed _ (html_path E)).
  - apply main_loop_touches. rewrite html_path_eq, zip_path_eq.
    intros H%append_inv_head. discriminate H.
  - rewrite html_path_eq, cldr_path_eq. unfold below.
    rewrite !append_assoc, !prefix_app_head. simpl. intros [H|H]; discriminate H.
Qed.

(** X8. A run of [main] that returns has asked the server only for what
    was missing, in this order: for the archive exactly when there was no
    file at its place, for the index page exactly when it was not there,
    and then for seed files, each a name whose text contains "xml". *)
Theorem main_requests_in_order (w w' : World) :
  main E w = (Ok tt, w') ->
  exists fetched,
    requests (new_events w w')
    = (if isfile (fs w) (zip_path E) then [] else [EvRequest URL])
      ++ (if exists_ (fs w) (html_path E) then [] else [EvRequest SEED_URL])
      ++ map (fun n => EvRequest (SEED_URL +:+ n)) fetched /\
    Forall (fun n => PyStr.contains "xml" n = true) fetched.
Proof.
  rewrite main_eq.
  destruct (main_loop E (zip_path E) false w) as [[changed|e] w1] eqn:Hloop; [|done].
  unfold after_loop.
  intros ([] & w2 & Hunpack & H)%bind_Ok_inv.
  apply bind_Ok_inv in H as ([] & w3 & Hseed & Hcall).
  destruct (main_loop_Ok E w changed w1 Hloop) as (Hr1 & Hext1 & _).
  pose proof (main_loop_Ok_changed E _ _ _ _ _ Hloop) as Hch. simpl in Hch.
  destruct (unpack_kinds E [KErr; KRmtree; KExtract; KMkdir; KCreate] changed
              ltac:(kinds_incl) ltac:(kinds_incl) ltac:(kinds_incl)
              ltac:(kinds_incl) ltac:(kinds_incl) w1) as (e2 & Ht2 & F2).
  rewrite Hunpack in Ht2. simpl in Ht2.
  pose proof (html_untouched changed w w1 w2) as Hhtml.
  rewrite Hloop, Hunpack in Hhtml. specialize (Hhtml eq_refl eq_refl).
  destruct (get_seed_files_Ok_all E w2 w3 Hseed)
    as (_ & _ & d & root & names & fetched & _ & _ & -> & _ & _ & Hr3 & Hfe).
  assert (exists e3, trace w3 = trace w2 ++ e3) as Hext3.
  { destruct (get_seed_files_kinds E kinds_before_call (cldr_dl_path E) (cldr_path E)
                ltac:(kinds_incl) ltac:(kinds_incl) ltac:(kinds_incl)
                ltac:(kinds_incl) w2) as (e3 & H3 & _).
    rewrite Hseed in H3. eauto. }
  assert (trace w' = trace w3 ++ [EvCall (delegate_args E)]) as Ht4.
  { revert Hcall. unfold check_call. repeat (rewrite run_bind; simpl).
    destruct (_ =? 0); [|done]. by intros [= <-]. }
  exists fetched. split.
  - assert (exists_ (fs w2) (html_path E) = exists_ (fs w) (html_path E)) as Hex
      by (unfold exists_; by rewrite Hhtml).
    destruct Hext1 as [e1 Ht1]. destruct Hext3 as [e3 Ht3].
    rewrite (new_events_app _ _ _ Ht1) in Hr1.
    rewrite (new_events_app _ _ _ Ht3), Hex in Hr3.
    rewrite (new_events_app _ _ (e1 ++ e2 ++ e3 ++ [EvCall (delegate_args E)]))
      by (by rewrite Ht4, Ht3, Ht2, Ht1, <- !app_assoc).
    rewrite !requests_app, Hr1, Hr3.
    rewrite (requests_none [KErr; KRmtree; KExtract; KMkdir; KCreate] e2
               ltac:(by apply not_in_kinds) F2). simpl.
    rewrite app_nil_r, Hch. by destruct (isfile (fs w) (zip_path E)).
  - eapply Forall_impl; [exact Hfe|]. intros n [Hin _].
    apply list_elem_of_In, filter_In in Hin. tauto.
Qed.

End Requests.

(** ** Downloads that fail *)



Section FailedDownload.

Context {hashlib : HashLib} {ElementTree : XmlLib} {zipfile : ZipLib}.
Variable E : Env.




(** X10. When there is no archive and the server cannot be reached, [main]
    ends with [URLError], having asked once and left the file system as it
    was. *)
Theorem unreachable_server_changes_nothing (w : World) :
  isfile (fs w) (zip_path E) = false ->
  remote E (length (requests (trace w))) URL = None ->
  main E w
  = (Raise (URLError URL),
     mkWorld (fs w) (trace w ++ [not_found_line (zip_path E); downloading_line;
                                 EvRequest URL])).
Proof.
  intros Hz Hnone. rewrite main_eq, main_loop_absent by done.
  rewrite fetch_archive_absent_eq by done. simpl.
  unfold urlretrieve. repeat (rewrite run_bind; simpl).
  rewrite !requests_app. simpl. rewrite !app_nil_r, Hnone. simpl.
  by rewrite <- !app_assoc.
Qed.

End FailedDownload.

(** ** What unpacking spares *)

Section Spared.

Context {hashlib : HashLib} {ElementTree : XmlLib} {zipfile : ZipLib}.
Variable E : Env.

Lemma extract_members_kept dest q ms :
  Forall (fun m : string * option (list byte) => q <> dest +:+ "/" +:+ m.1) ms ->
  always (kept q) (for_each ms (extract_member dest)).
Proof.
  induction 1 as [|m ms Hm _ IH]; simpl; [apply always_ret; apply _|].
  apply always_bind; [apply _ | by apply extract_member_kept | intros _; exact IH].
Qed.

(** X11. When the archive holds nothing but the tree [common], unpacking
    leaves everything outside the directory [common] of the extraction
    root as it was, also when it removes an old tree first: the seed
    files that were mirrored before stay. *)
Theorem unpack_spares_the_rest (changed : bool) (w : World) (q : string) (n : node) :
  (forall d ms, fs w !! zip_path E = Some (File d) -> zip_members d = Some ms ->
     Forall (fun m => m.1 = "common" \/ String.prefix "common/" m.1 = true) ms) ->
  q <> common_path E -> below (common_path E) q = false ->
  fs w !! q = Some n ->
  fs (unpack E changed w).2 !! q = Some n.
Proof.
  intros Hms Hq Hb Hn.
  destruct (changed || negb (isdir (fs w) (common_path E))) eqn:Hg.
  - assert (changed = true \/ isdir (fs w) (common_path E) = false) as Hgate'.
    { destruct changed; [by left|]. right. simpl in Hg.
      by apply negb_true_iff in Hg. }
    rewrite (unpack_perform E changed w Hgate').
    assert (fs (cleared E w) !! q = Some n) as Hc.
    { unfold cleared. destruct (isdir _ _); [|done]. simpl.
      apply map_lookup_filter_Some. split; [done|]. simpl.
      rewrite Hb, orb_false_r. by apply negb_true_iff, String.eqb_neq. }
    destruct (fs w !! zip_path E) as [[d|]|] eqn:Hd.
    + rewrite (extractall_run _ _ _ d (cleared_keeps_zip E w d Hd)).
      destruct (zip_members d) as [ms|] eqn:Hz; [|done].
      apply (extract_members_kept (cldr_path E) q ms); [|done].
      eapply Forall_impl; [exact (Hms d ms eq_refl Hz)|].
      intros [name c] [Hm|Hm]; simpl in *.
      * subst name. intros ->. apply Hq. by rewrite common_path_eq.
      * apply prefix_inv in Hm as [r ->]. intros ->.
        rewrite common_path_eq in Hb. unfold below in Hb.
        rewrite (prefix_of_eq _ _ r) in Hb; [done|]. by rewrite !append_assoc.
    + assert (fs (cleared E w) !! zip_path E = Some Dir) as Hd'.
      { unfold cleared. destruct (isdir _ _); [|done]. simpl.
        apply map_lookup_filter_Some. split; [done|]. simpl.
        rewrite zip_not_below_common, orb_false_r.
        apply negb_true_iff, String.eqb_neq, zip_not_common. }
      unfold extractall, read_file. repeat (rewrite run_bind; simpl).
      by rewrite Hd'.
    + assert (fs (cleared E w) !! zip_path E = None) as Hd'.
      { unfold cleared. destruct (isdir _ _); [|done]. simpl.
        apply map_lookup_filter_None. by left. }
      unfold extractall, read_file. repeat (rewrite run_bind; simpl).
      by rewrite Hd'.
  - apply orb_false_iff in Hg as [-> Hd%negb_false_iff].
    by rewrite (unpack_skip E w Hd).
Qed.

End Spared.

(** ** The further properties at work *)


Lemma delegate_only_after_verification_witness :
  let E := mock_env 0 in
  let run := @main oracle_hashlib mock_xml mock_zip E w_fresh in
  last (new_events w_fresh run.2) = Some (EvCall (delegate_args E)) /\
  (exists pre, new_events w_fresh run.2 = pre ++ [EvCall (delegate_args E)] /\
               calls pre = []) /\
  (exists d, fs run.2 !! zip_path E = Some (File d) /\
             @digest_of oracle_hashlib d = FILESUM).
Proof.
  cbv zeta.
  assert (last (new_events w_fresh
                  (@main oracle_hashlib mock_xml mock_zip (mock_env 0) w_fresh).2)
          = Some (EvCall (delegate_args (mock_env 0)))) as Hlast
    by (vm_compute; reflexivity).
  split; [exact Hlast|].
  apply (@delegate_only_after_verification oracle_hashlib mock_xml mock_zip (mock_env 0)
           w_fresh (delegate_args (mock_env 0)) (last_Some_elem_of _ _ Hlast)).
Defined.


Lemma get_seed_files_idempotent_witness :
  let E := mock_env 0 in
  let run := @get_seed_files mock_xml E (cldr_dl_path E) (cldr_path E) w_fresh in
  run.1 = Ok tt /\
  @get_seed_files mock_xml E (cldr_dl_path E) (cldr_path E) run.2 = (Ok tt, run.2).
Proof.
  cbv zeta.
  assert ((@get_seed_files mock_xml (mock_env 0) (cldr_dl_path (mock_env 0))
             (cldr_path (mock_env 0)) w_fresh).1 = Ok tt) as Hok
    by (vm_compute; reflexivity).
  split; [exact Hok|].
  apply (@get_seed_files_idempotent mock_xml (mock_env 0) w_fresh _ (run_Ok _ _ _ Hok)).
Defined.


(** In the checkout [w_mirror], which has the index page and [a.xml], the
    only request is for [c.xml]. *)
Example mirror_checkout_fetches_c :
  requests (trace (@get_seed_files mock_xml (mock_env 0) (cldr_dl_path (mock_env 0))
                     (cldr_path (mock_env 0)) w_mirror).2)
  = [EvRequest (SEED_URL +:+ "c.xml")].
Proof. vm_compute. reflexivity. Qed.

Lemma paths_relative_to_script_witness :
  let E := mock_env 0 in
  zip_path E = "/babel/cldr/core-31.0.1.zip" /\
  cldr_path E = "/babel/cldr/core-31.0.1" /\
  common_path E = "/babel/cldr/core-31.0.1/common" /\
  html_path E = "/babel/cldr/seed-31.0.1.html" /\
  seed_path E = "/babel/cldr/core-31.0.1/seed/main" /\
  delegate_args E
  = ["/usr/bin/python"; "/babel/scripts/import_cldr.py"; "/babel/cldr/core-31.0.1"].
Proof.
  apply (paths_relative_to_script (mock_env 0) "/babel" "scripts"
           "download_import_cldr.py"); done.
Defined.

Lemma main_requests_in_order_witness :
  let E := mock_env 0 in
  let run := @main oracle_hashlib mock_xml mock_zip E w_fresh in
  run.1 = Ok tt /\
  exists fetched,
    requests (new_events w_fresh run.2)
    = (if isfile (fs w_fresh) (zip_path E) then [] else [EvRequest URL])
      ++ (if exists_ (fs w_fresh) (html_path E) then [] else [EvRequest SEED_URL])
      ++ map (fun n => EvRequest (SEED_URL +:+ n)) fetched /\
    Forall (fun n => PyStr.contains "xml" n = true) fetched.
Proof.
  cbv zeta.
  assert ((@main oracle_hashlib mock_xml mock_zip (mock_env 0) w_fresh).1 = Ok tt) as Hok
    by (vm_compute; reflexivity).
  split; [exact Hok|].
  apply (@main_requests_in_order oracle_hashlib mock_xml mock_zip (mock_env 0) w_fresh _
           (run_Ok _ _ _ Hok)).
Defined.


(** The run after the one that was cut short stops with the checksum
    mismatch. *)
Example truncated_download_then_mismatch :
  let w1 := (@main sha1_hashlib mock_xml mock_zip short_env w_fresh).2 in
  (@main sha1_hashlib mock_xml mock_zip short_env w_fresh).1 = Raise ContentTooShortError /\
  (@main sha1_hashlib mock_xml mock_zip short_env w1).1
  = Raise (RuntimeError
      "Checksum mismatch: 'a9993e364706816aba3e25717850c26c9cd0d89d' != '01ade6c2d1f358e63c2ab6e2861d4caa7114ff45'") /\
  requests (new_events w1 (@main sha1_hashlib mock_xml mock_zip short_env w1).2) = [].
Proof. vm_compute. repeat split; reflexivity. Qed.

Lemma unreachable_server_changes_nothing_witness :
  let E := offline_env in
  @main sha1_hashlib mock_xml mock_zip E w_fresh
  = (Raise (URLError URL),
     mkWorld (fs w_fresh)
       (trace w_fresh ++ [not_found_line (zip_path E); downloading_line; EvRequest URL])).
Proof.
  apply (@unreachable_server_changes_nothing sha1_hashlib mock_xml mock_zip offline_env
           w_fresh); reflexivity.
Defined.

(** Unpacking again in the checkout a first run has left: the old tree is
    removed, the seed file [a.xml] stays. *)
Lemma unpack_spares_the_rest_witness :
  let E := mock_env 0 in
  let q := "/babel/cldr/core-31.0.1/seed/main/a.xml" in
  below (common_path E) q = false /\
  fs w_done !! q = Some (File (bytes_of "<ldml/>")) /\
  fs (@unpack mock_zip E true w_done).2 !! q = Some (File (bytes_of "<ldml/>")).
Proof.
  cbv zeta.
  assert (fs w_done !! "/babel/cldr/core-31.0.1/seed/main/a.xml"
          = Some (File (bytes_of "<ldml/>"))) as Hn by (vm_compute; reflexivity).
  split; [vm_compute; reflexivity|]. split; [exact Hn|].
  assert (forall d ms,
            fs w_done !! zip_path (mock_env 0) = Some (File d) ->
            @zip_members mock_zip d = Some ms ->
            Forall (fun m => m.1 = "common" \/ String.prefix "common/" m.1 = true) ms)
    as Hms.
  { intros d ms _. unfold zip_members, mock_zip.
    destruct (decide (d = good_archive)) as [_|_]; [|discriminate]. intros [= <-].
    constructor; [left; reflexivity|].
    constructor; [right; reflexivity|].
    constructor; [right; reflexivity|]. constructor. }
  assert ("/babel/cldr/core-31.0.1/seed/main/a.xml" <> common_path (mock_env 0)) as Hq
    by (vm_compute; discriminate).
  assert (below (common_path (mock_env 0)) "/babel/cldr/core-31.0.1/seed/main/a.xml"
          = false) as Hb by (vm_compute; reflexivity).
  exact (@unpack_spares_the_rest mock_zip (mock_env 0) true w_done _ _ Hms Hq Hb Hn).
Defined.
